(** * A hierarchical resource adapter over a flat blob store

    Shallow embedding of [VercelApi.ts], [VercelBlobDataAccessor.ts], the two
    identifier mappers ([fim], [BlobIdentifierMapper]) and the prefix-listing
    draft of the accessor.  Asynchronous functions are state-and-error
    computations over a [World] that holds the blob store, the metadata
    objects of the JavaScript heap, the outcomes the store client is going to
    produce and the trace of the client calls made so far.  Logging is left
    out: it has no effect on the store or on the results. *)

From Stdlib Require Import ZArith String Ascii DecimalString.
From Stdlib.Strings Require Import Byte.
From stdpp Require Import base option list strings gmap fin_maps.

Local Open Scope string_scope.
Local Open Scope list_scope.
Local Open Scope Z_scope.

(** ** Strings and bytes *)

Abbreviation bytes := (list Byte.byte).

(** [s.endsWith(suffix)] *)
Fixpoint endsWith (s suffix : string) : bool :=
  if String.eqb s suffix then true
  else match s with
       | EmptyString => false
       | String _ r => endsWith r suffix
       end.

(** [s.startsWith(p)] *)
Definition startsWith (s p : string) : bool := String.prefix p s.

(** [s.slice(n)] and [s.substring(n)] for [0 <= n] *)
Definition sliceFrom (n : nat) (s : string) : string :=
  String.substring n (String.length s - n) s.

(** [s.slice(0, n)] *)
Definition sliceTo (n : nat) (s : string) : string := String.substring 0 n s.

(** [s.indexOf('/')], with [None] for [-1] *)
Definition indexOfSlash (s : string) : option nat := String.index 0 "/" s.

(** ** Errors and results *)

(** What [@vercel/blob] throws: the key is absent, or anything else (network,
    authorisation, service), kept opaque. *)
Inductive BlobError :=
  | BlobNotFoundError
  | BlobServiceError (code : string).

Inductive Error :=
  | NotFoundHttpError
  | UnsupportedMediaTypeHttpError (msg : string)
  | BadRequestHttpError (msg : string)
  | JsError (msg : string)            (* [new Error(msg)] *)
  | TypeError (msg : string)          (* [new URL] on a malformed identifier *)
  | ParseError                        (* the metadata codec rejects the bytes *)
  | InternalServerError (msg : string)
  | StorageFailure (e : BlobError).   (* thrown by the store client *)

(** [error.message] *)
Definition message (e : Error) : string :=
  match e with
  | NotFoundHttpError => ""
  | UnsupportedMediaTypeHttpError m | BadRequestHttpError m
  | JsError m | TypeError m | InternalServerError m => m
  | ParseError => "Parse error"
  | StorageFailure BlobNotFoundError =>
      "Vercel Blob: The requested blob does not exist"
  | StorageFailure (BlobServiceError c) => "Vercel Blob: " +:+ c
  end.

(** [error instanceof Error && error.message == "ENOENT"] *)
Definition isENOENT (e : Error) : bool := String.eqb (message e) "ENOENT".

Inductive Result (A : Type) :=
  | Ok (a : A)
  | Err (e : Error).
Arguments Ok {A} a.
Arguments Err {A} e.

(** ** Metadata triples *)

Inductive Term :=
  | NamedNode (iri : string)
  | Literal (value : string)
  | IntLiteral (n : Z)        (* [toLiteral(n, XSD.terms.integer)] *)
  | DateLiteral (ms : Z).     (* [toLiteral(date.toISOString(), XSD.terms.dateTime)] *)

#[global] Instance Term_eq_dec : EqDecision Term.
Proof. solve_decision. Defined.

Definition RDF_type : Term := NamedNode "http://www.w3.org/1999/02/22-rdf-syntax-ns#type".
Definition LDP_Resource : Term := NamedNode "http://www.w3.org/ns/ldp#Resource".
Definition LDP_Container : Term := NamedNode "http://www.w3.org/ns/ldp#Container".
Definition LDP_BasicContainer : Term := NamedNode "http://www.w3.org/ns/ldp#BasicContainer".
Definition DC_modified : Term := NamedNode "http://purl.org/dc/terms/modified".
Definition CONTENT_TYPE_TERM : Term := NamedNode "http://www.w3.org/ns/ma-ont#format".
Definition POSIX_mtime : Term := NamedNode "http://www.w3.org/ns/posix/stat#mtime".
Definition POSIX_size : Term := NamedNode "http://www.w3.org/ns/posix/stat#size".
Definition DefaultGraph : Term := NamedNode "".
Definition ResponseMetadata : Term :=
  NamedNode "urn:npm:solid:community-server:meta:ResponseMetadata".
Definition IANA_namespace : string := "http://www.w3.org/ns/iana/media-types/".

(** [String(n)] for an integer *)
Definition decimal (n : Z) : string := NilZero.string_of_int (Z.to_int n).

(** [decimal n] with zeros in front up to [width] digits, for [0 <= n] *)
Definition padded (width : nat) (n : Z) : string :=
  let s := decimal n in
  String.concat "" (repeat "0" (width - String.length s)) +:+ s.

(** [new Date(ms).toISOString()]: the civil date of the day number, then the
    time of the day. *)
Definition toISOString (ms : Z) : string :=
  let days := ms / 86400000 in
  let rest := ms mod 86400000 in
  let z := days + 719468 in
  let era := z / 146097 in
  let doe := z - era * 146097 in
  let yoe := (doe - doe / 1460 + doe / 36524 - doe / 146096) / 365 in
  let doy := doe - (365 * yoe + yoe / 4 - yoe / 100) in
  let mp := (5 * doy + 2) / 153 in
  let d := doy - (153 * mp + 2) / 5 + 1 in
  let m := if mp <? 10 then mp + 3 else mp - 9 in
  let y := yoe + era * 400 + (if m <=? 2 then 1 else 0) in
  let year := if (0 <=? y) && (y <=? 9999) then padded 4 y
              else (if y <? 0 then "-" else "+") +:+ padded 6 (Z.abs y) in
  year +:+ "-" +:+ padded 2 m +:+ "-" +:+ padded 2 d +:+ "T"
    +:+ padded 2 (rest / 3600000) +:+ ":" +:+ padded 2 (rest / 60000 mod 60) +:+ ":"
    +:+ padded 2 (rest / 1000 mod 60) +:+ "." +:+ padded 3 (rest mod 1000) +:+ "Z".

(** [term.value] *)
Definition termValue (t : Term) : string :=
  match t with
  | NamedNode v | Literal v => v
  | IntLiteral n => decimal n
  | DateLiteral ms => toISOString ms
  end.

(** Modelled from the spec: a metadata set is a collection of triples that
    describe one resource (section 3).  The subject of a triple is that
    resource and is not repeated in every triple; the graph tells the
    triples of the response apart from the stored ones. *)
Record Quad := mkQuad { predicate : Term; object : Term; graph : Term }.

#[global] Instance Quad_eq_dec : EqDecision Quad.
Proof. solve_decision. Defined.

Record ResourceIdentifier := mkId { path : string }.

#[global] Instance ResourceIdentifier_eq_dec : EqDecision ResourceIdentifier.
Proof. solve_decision. Defined.

(** Modelled from the spec: a [RepresentationMetadata] object is the
    resource it is about and its triples.  The triples form a set, so [qAdd]
    does not add a triple twice. *)
Record RepresentationMetadata := mkMeta {
  md_identifier : ResourceIdentifier;
  md_quads : list Quad
}.

Definition hasPredicate (p : Term) (q : Quad) : bool := bool_decide (predicate q = p).
Definition isTriple (p o : Term) (q : Quad) : bool :=
  bool_decide (predicate q = p) && bool_decide (object q = o).

(** [metadata.remove(p, o)] *)
Definition qRemove (p o : Term) (qs : list Quad) : list Quad :=
  List.filter (fun q => negb (isTriple p o q)) qs.

(** [metadata.removeAll(p)] *)
Definition qRemoveAll (p : Term) (qs : list Quad) : list Quad :=
  List.filter (fun q => negb (hasPredicate p q)) qs.

(** [metadata.add(p, o, g)] *)
Definition qAdd (p o g : Term) (qs : list Quad) : list Quad :=
  if bool_decide (mkQuad p o g ∈ qs) then qs else qs ++ [mkQuad p o g].

(** [metadata.set(p, o)], where an undefined [o] only removes *)
Definition qSet (p : Term) (o : option Term) (qs : list Quad) : list Quad :=
  match o with
  | Some t => qAdd p t DefaultGraph (qRemoveAll p qs)
  | None => qRemoveAll p qs
  end.

(** [metadata.getAll(p)] *)
Definition qGetAll (p : Term) (qs : list Quad) : list Term :=
  object <$> List.filter (hasPredicate p) qs.

(** [metadata.get(p)]: undefined when no triple has the predicate, an error
    when several have *)
Definition qGet (p : Term) (qs : list Quad) : Result (option Term) :=
  match qGetAll p qs with
  | [] => Ok None
  | [t] => Ok (Some t)
  | _ => Err (InternalServerError ("Multiple results for " +:+ termValue p))
  end.

(** [metadata.contentType]: the value of the content-type triple, undefined
    when there is none *)
Definition qContentType (qs : list Quad) : Result (option string) :=
  match qGet CONTENT_TYPE_TERM qs with
  | Ok o => Ok (termValue <$> o)
  | Err e => Err e
  end.

(** The object [metadata.set(p, value)] stores for a string: none for the
    empty string, as for undefined *)
Definition stringObject (value : option string) : option Term :=
  match value with
  | Some v => if String.eqb v "" then None else Some (Literal v)
  | None => None
  end.

(** [new Date(term.value).getTime()]: a literal that holds a date is a
    [DateLiteral]; any other value gives an invalid date, [None]. *)
Definition termTime (t : Term) : option Z :=
  match t with
  | DateLiteral ms => Some ms
  | _ => None
  end.

(** ** The world: blob store, JavaScript heap, client outcomes, call trace *)

Record Blob := mkBlob { content : bytes; uploadedAt : Z }.

Definition blobSize (b : Blob) : Z := Z.of_nat (length (content b)).

Inductive Call :=
  | CHead (key : string)
  | CPut (key : string) (data : bytes)
  | CDel (key : string)
  | CList (prefix : string)
  | CFetch (url : string).

Record World := mkWorld {
  blobs : gmap string Blob;               (* the flat, key-addressed store *)
  heap : list RepresentationMetadata;     (* metadata objects, by reference *)
  faults : list (option BlobError);       (* outcome of the next client calls *)
  calls : list Call;                      (* client calls made, oldest first *)
  clock : Z                               (* the store's upload clock *)
}.

Definition M (A : Type) : Type := World -> Result A * World.

Definition ret {A} (a : A) : M A := fun w => (Ok a, w).
Definition throw {A} (e : Error) : M A := fun w => (Err e, w).
Definition bind {A B} (m : M A) (f : A -> M B) : M B :=
  fun w => match m w with
           | (Ok a, w') => f a w'
           | (Err e, w') => (Err e, w')
           end.
(** [try { m } catch (error) { h error }] *)
Definition catch {A} (m : M A) (h : Error -> M A) : M A :=
  fun w => match m w with
           | (Ok a, w') => (Ok a, w')
           | (Err e, w') => h e w'
           end.
(** A synchronous result (a mapper call) awaited inside an async function *)
Definition await {A} (r : Result A) : M A := fun w => (r, w).

Notation "x <- m ;; k" := (bind m (fun x => k))
  (at level 100, m at next level, k at level 200, right associativity).
Notation "m ;; k" := (bind m (fun _ => k))
  (at level 100, k at level 200, right associativity).

Definition setBlobs (f : gmap string Blob -> gmap string Blob) (w : World) : World :=
  {| blobs := f (blobs w); heap := heap w; faults := faults w;
     calls := calls w; clock := clock w |}.
Definition setHeap (f : list RepresentationMetadata -> list RepresentationMetadata)
    (w : World) : World :=
  {| blobs := blobs w; heap := f (heap w); faults := faults w;
     calls := calls w; clock := clock w |}.
(** The world once the client call [c] has been issued *)
Definition advance (c : Call) (w : World) : World :=
  {| blobs := blobs w; heap := heap w; faults := tail (faults w);
     calls := calls w ++ [c]; clock := clock w |}.
Definition tick (w : World) : World :=
  {| blobs := blobs w; heap := heap w; faults := faults w;
     calls := calls w; clock := clock w + 1 |}.

(** ** The object store client ([@vercel/blob]) *)

(** Modelled from the spec: the Object Store Client is an external
    collaborator; section 6 gives its contract.  [head] returns the object's
    facts or fails with a not-found error, [put] (always called with
    [allowOverwrite: true]) creates or overwrites, [del] is idempotent,
    [list] returns the objects whose key starts with the prefix.  Every call
    is recorded in [calls] and may instead fail with the error the
    environment scheduled for it in [faults]; a failed call leaves the store
    as it was. *)
Record HeadBlobResult := mkHead {
  hb_pathname : string; hb_size : Z; hb_uploadedAt : Z; hb_url : string
}.

Definition headOf (key : string) (b : Blob) : HeadBlobResult :=
  {| hb_pathname := key; hb_size := blobSize b;
     hb_uploadedAt := uploadedAt b; hb_url := key |}.

Module VercelBlob.

Definition request (c : Call) : M unit := fun w =>
  match faults w with
  | Some e :: _ => (Err (StorageFailure e), advance c w)
  | _ => (Ok (), advance c w)
  end.

Definition head (key : string) : M HeadBlobResult :=
  request (CHead key) ;;
  fun w => match blobs w !! key with
           | Some b => (Ok (headOf key b), w)
           | None => (Err (StorageFailure BlobNotFoundError), w)
           end.

Definition put (key : string) (data : bytes) : M unit :=
  request (CPut key data) ;;
  fun w => (Ok (), tick (setBlobs (insert key (mkBlob data (clock w))) w)).

Definition del (key : string) : M unit :=
  request (CDel key) ;;
  fun w => (Ok (), setBlobs (delete key) w).

(** [fetch(headResponse.url)] followed by reading the body.  The url of an
    object is represented by its key; the absent case cannot be reached by
    [createReadStream], which fetches right after a successful [head]. *)
Definition fetch (url : string) : M bytes :=
  request (CFetch url) ;;
  fun w => match blobs w !! url with
           | Some b => (Ok (content b), w)
           | None => (Err (StorageFailure BlobNotFoundError), w)
           end.

Definition listing (prefix : string) (m : gmap string Blob) : list HeadBlobResult :=
  (fun kb => headOf kb.1 kb.2) <$>
    List.filter (fun kb => startsWith kb.1 prefix) (map_to_list m).

Definition list (prefix : string) : M (list HeadBlobResult) :=
  request (CList prefix) ;;
  fun w => (Ok (listing prefix (blobs w)), w).

End VercelBlob.

(** ** Metadata objects on the heap *)

(** [new RepresentationMetadata(identifier)] *)
Definition newMetadata (id : ResourceIdentifier) : M nat := fun w =>
  (Ok (length (heap w)), setHeap (fun h => h ++ [mkMeta id []]) w).

Definition quadsAt (h : list RepresentationMetadata) (l : nat) : list Quad :=
  default [] (md_quads <$> h !! l).

(** [metadata.quads()] *)
Definition quads (l : nat) : M (list Quad) := fun w => (Ok (quadsAt (heap w) l), w).

Definition updateQuads (f : list Quad -> list Quad) (o : RepresentationMetadata) :
    RepresentationMetadata :=
  mkMeta (md_identifier o) (f (md_quads o)).

(** An in-place update of the object at [l] *)
Definition mutate (l : nat) (f : list Quad -> list Quad) : M unit := fun w =>
  (Ok (), setHeap (alter (updateQuads f) l) w).

Definition metadataRemove (l : nat) (p o : Term) : M unit := mutate l (qRemove p o).
Definition metadataRemoveAll (l : nat) (p : Term) : M unit := mutate l (qRemoveAll p).
Definition metadataAdd (l : nat) (p o g : Term) : M unit := mutate l (qAdd p o g).
Definition metadataSet (l : nat) (p : Term) (o : option Term) : M unit :=
  mutate l (qSet p o).
Definition metadataAddQuads (l : nat) (qs : list Quad) : M unit :=
  mutate l (fun old => foldl (fun acc q => qAdd (predicate q) (object q) (graph q) acc) old qs).
Definition metadataGet (l : nat) (p : Term) : M (option Term) :=
  qs <- quads l ;; await (qGet p qs).
Definition metadataContentType (l : nat) : M (option string) :=
  qs <- quads l ;; await (qContentType qs).

(** ** Helpers of the server library *)

(** Modelled from the spec: a path that ends in the separator denotes a
    container (section 3). *)
Definition isContainerIdentifier (id : ResourceIdentifier) : bool := endsWith (path id) "/".
Definition isContainerPath (p : string) : bool := endsWith p "/".

(** [addResourceMetadata(metadata, isContainer)] *)
Definition addResourceMetadata (l : nat) (isContainer : bool) : M unit :=
  (if isContainer
   then metadataAdd l RDF_type LDP_Container DefaultGraph ;;
        metadataAdd l RDF_type LDP_BasicContainer DefaultGraph
   else ret ()) ;;
  metadataAdd l RDF_type LDP_Resource DefaultGraph.

(** [updateModifiedDate(metadata, date)] of the server library sets the
    modification date of the metadata to a date-time literal.  The instant
    the library records for a date is left open: [lastModified]. *)
Definition updateModifiedDate (lastModified : Z -> Z) (l : nat) (date : Z) : M unit :=
  metadataSet l DC_modified (Some (DateLiteral (lastModified date))).

(** ** Identifier mappers *)

Record ResourceLink := mkLink {
  identifier : ResourceIdentifier;
  filePath : string;
  contentType : option string;
  isMetadata : bool
}.

Class FileIdentifierMapper := {
  mapFilePathToUrl : string -> bool -> Result ResourceLink;
  mapUrlToFilePath : ResourceIdentifier -> bool -> option string -> Result ResourceLink
}.

Section Fim.
(** [new URL(a).pathname]; [None] when the constructor throws. *)
Variable pathname : string -> option string.

Definition fim_mapFilePathToUrl (filePath : string) (isContainer : bool) :
    Result ResourceLink :=
  Err (JsError "fim mapFilePathToUrl not implemented").

Definition fim_mapUrlToFilePath (identifier : ResourceIdentifier)
    (isMetadata : bool) (contentType : option string) : Result ResourceLink :=
  let a := path identifier in
  match pathname a with
  | None => Err (TypeError "Invalid URL")
  | Some c =>
      let d := c +:+ (if isMetadata then ".meta" else "") in
      let e := "x" +:+ d in
      Ok {| identifier := identifier; filePath := e;
            contentType := None; isMetadata := isMetadata |}
  end.

Definition fim : FileIdentifierMapper :=
  {| mapFilePathToUrl := fim_mapFilePathToUrl;
     mapUrlToFilePath := fim_mapUrlToFilePath |}.
End Fim.

(** [s.includes(sub)] *)
Definition includes (s sub : string) : bool :=
  match String.index 0 sub s with Some _ => true | None => false end.

Section BlobIdentifierMapper.
(** [decodeUriPathComponents] of the server library, and the base the
    mapper was constructed with, after [trimTrailingSlashes]. *)
Variable decodeUriPathComponents : string -> string.
Variable baseRequestURI : string.

Definition metadataSuffix : string := ".meta".

Definition getRelativePath (identifier : ResourceIdentifier) : Result string :=
  if negb (startsWith (path identifier) baseRequestURI) then Err NotFoundHttpError
  else Ok (decodeUriPathComponents
             (sliceFrom (String.length baseRequestURI) (path identifier))).

Definition validateRelativePath (p : string) : Result unit :=
  if negb (startsWith p "/") then Err (BadRequestHttpError "URL needs a / after the base")
  else if includes p "/../" || endsWith p "/.."
       then Err (BadRequestHttpError "Disallowed /../ segment in URL")
       else Ok ().

Definition blob_mapUrlToFilePath (identifier : ResourceIdentifier)
    (isMetadata : bool) (contentType : option string) : Result ResourceLink :=
  match getRelativePath identifier with
  | Err e => Err e
  | Ok p0 =>
      let p := if isMetadata then p0 +:+ metadataSuffix else p0 in
      match validateRelativePath p with
      | Err e => Err e
      | Ok _ => Ok {| identifier := identifier; filePath := p;
                      contentType := contentType;
                      isMetadata := endsWith p metadataSuffix |}
      end
  end.

Definition BlobIdentifierMapper : FileIdentifierMapper :=
  {| mapFilePathToUrl := fim_mapFilePathToUrl;
     mapUrlToFilePath := blob_mapUrlToFilePath |}.
End BlobIdentifierMapper.

(** ** [VercelApi.ts]: file-system calls emulated on the blob store *)

Record Stats := mkStats { isFile : bool; isDirectory : bool; mtime : Z; size : Z }.

Definition FOLDER_MARKER : string := ".FOLDER_MARKER_META_FILE".

Module VercelApi.

Definition createReadStream (path : string) : M bytes :=
  headResponse <- VercelBlob.head path ;;
  VercelBlob.fetch (hb_url headResponse).

Definition createWriteStream (path : string) (data : bytes) : M unit :=
  VercelBlob.put path data.

Definition stat (path : string) : M Stats :=
  if endsWith path "/" then
    catch (headResponse <- VercelBlob.head (path +:+ FOLDER_MARKER) ;;
           ret {| isFile := false; isDirectory := true;
                  mtime := hb_uploadedAt headResponse; size := 0 |})
          (fun e => throw (JsError "ENOENT"))
  else
    catch (headResponse <- VercelBlob.head path ;;
           ret {| isFile := negb (endsWith (hb_pathname headResponse) "/");
                  isDirectory := endsWith (hb_pathname headResponse) "/";
                  mtime := hb_uploadedAt headResponse;
                  size := hb_size headResponse |})
          (fun e => throw (JsError "ENOENT")).

Definition ensureDir (path : string) : M unit :=
  catch (stat path ;; ret ())
        (fun error =>
           if isENOENT error
           then VercelBlob.put (path +:+ FOLDER_MARKER)
                               (list_byte_of_string "nothing here")
           else throw error).

Definition lstat (path : string) : M Stats := stat path.

(** A directory handle would be the names of its entries; none is ever
    produced. *)
Definition opendir (path : string) : M (list string) :=
  throw (JsError "Not implemented").

Definition remove (dir : string) : M unit := VercelBlob.del dir.

End VercelApi.

(** ** [VercelBlobDataAccessor.ts] *)

Record Representation := mkRepresentation { binary : bool }.

Module VercelBlobDataAccessor.
Section Accessor.
(** The [resourceMapper] field, and the functions of the server library the
    accessor calls: the metadata codec, [joinFilePath] and
    [parseContentType] ([None] when it throws). *)
Context {resourceMapper : FileIdentifierMapper}.
Variable serializeQuads : list Quad -> option string -> bytes.
Variable parseQuads : bytes -> option string -> string -> option (list Quad).
Variable joinFilePath : string -> string -> string.
Variable parseContentType : string -> option string.
Variable lastModified : Z -> Z.

Definition canHandle (representation : Representation) : M unit :=
  if negb (binary representation)
  then throw (UnsupportedMediaTypeHttpError "Only binary data is supported.")
  else ret ().

Definition getStats (path : string) : M Stats :=
  catch (VercelApi.stat path)
        (fun error =>
           if isENOENT error then throw NotFoundHttpError else throw error).

Definition getData (identifier : ResourceIdentifier) : M bytes :=
  link <- await (mapUrlToFilePath identifier false None) ;;
  stats <- getStats (filePath link) ;;
  if isFile stats then VercelApi.createReadStream (filePath link)
  else throw NotFoundHttpError.

Definition addPosixMetadata (metadata : nat) (stats : Stats) : M unit :=
  m <- metadataGet metadata DC_modified ;;
  let modified := match m with Some t => termTime t | None => Some 0 end in
  (if match modified with Some t => t <? mtime stats | None => false end
   then updateModifiedDate lastModified metadata (mtime stats) else ret ()) ;;
  metadataAdd metadata POSIX_mtime (IntLiteral (mtime stats / 1000)) ResponseMetadata ;;
  if negb (isDirectory stats)
  then metadataAdd metadata POSIX_size (IntLiteral (size stats)) ResponseMetadata
  else ret ().

Definition getRawMetadata (identifier : ResourceIdentifier) : M nat :=
  catch (metadataLink <- await (mapUrlToFilePath identifier true None) ;;
         stats <- VercelApi.lstat (filePath metadataLink) ;;
         readMetadataStream <- VercelApi.createReadStream (filePath metadataLink) ;;
         match parseQuads readMetadataStream (contentType metadataLink) (path identifier) with
         | None => throw ParseError
         | Some quads =>
             metadata <- newMetadata identifier ;;
             metadataAddQuads metadata quads ;;
             updateModifiedDate lastModified metadata (mtime stats) ;;
             ret metadata
         end)
        (fun error =>
           if negb (isENOENT error) then throw error
           else newMetadata identifier).

Definition getBaseMetadata (link : ResourceLink) (stats : Stats) (isContainer : bool) :
    M nat :=
  metadata <- getRawMetadata (identifier link) ;;
  addResourceMetadata metadata isContainer ;;
  addPosixMetadata metadata stats ;;
  ret metadata.

Definition getFileMetadata (link : ResourceLink) (stats : Stats) : M nat :=
  metadata <- getBaseMetadata link stats false ;;
  ct <- metadataContentType metadata ;;
  (match ct with
   | None => metadataSet metadata CONTENT_TYPE_TERM (stringObject (contentType link))
   | Some _ => ret ()
   end) ;;
  ret metadata.

Definition getDirectoryMetadata (link : ResourceLink) (stats : Stats) : M nat :=
  getBaseMetadata link stats true.

Definition getMetadata (identifier : ResourceIdentifier) : M nat :=
  link <- await (mapUrlToFilePath identifier false None) ;;
  stats <- getStats (filePath link) ;;
  if negb (isContainerIdentifier identifier) && isFile stats
  then getFileMetadata link stats
  else if isContainerIdentifier identifier && isDirectory stats
       then getDirectoryMetadata link stats
       else throw NotFoundHttpError.

(** The body of the loop over the entries of the directory: [None] when the
    entry is skipped, the metadata object that is yielded otherwise. *)
Definition childMetadata (link : ResourceLink) (name : string) : M (option nat) :=
  let childPath := joinFilePath (filePath link) name in
  r <- catch (s <- getStats childPath ;; ret (Some s)) (fun _ => ret None) ;;
  match r with
  | None => ret None
  | Some childStats =>
      if negb (isFile childStats) && negb (isDirectory childStats) then ret None
      else
        childLink <- await (mapFilePathToUrl childPath (isDirectory childStats)) ;;
        if isMetadata childLink then ret None
        else
          metadata <- newMetadata (identifier childLink) ;;
          addResourceMetadata metadata (isDirectory childStats) ;;
          addPosixMetadata metadata childStats ;;
          (match contentType childLink with
           | Some ct =>
               if String.eqb ct "" then ret ()
               else match parseContentType ct with
                    | Some value =>
                        metadataAdd metadata RDF_type
                          (NamedNode (IANA_namespace +:+ value +:+ "#Resource"))
                          DefaultGraph
                    | None => ret ()
                    end
           | None => ret ()
           end) ;;
          ret (Some metadata)
  end.

Fixpoint childLoop (link : ResourceLink) (dir : list string) : M (list nat) :=
  match dir with
  | [] => ret []
  | entry :: rest =>
      r <- childMetadata link (entry) ;;
      ys <- childLoop link rest ;;
      ret (match r with Some y => y :: ys | None => ys end)
  end.

Definition getChildMetadata (link : ResourceLink) : M (list nat) :=
  dir <- VercelApi.opendir (filePath link) ;;
  childLoop link dir.

(** The sequence the generator yields when it is drained *)
Definition getChildren (identifier : ResourceIdentifier) : M (list nat) :=
  link <- await (mapUrlToFilePath identifier false None) ;;
  getChildMetadata link.

Definition verifyExistingExtension (link : ResourceLink) : M unit :=
  oldLink <- await (mapUrlToFilePath (identifier link) false None) ;;
  if negb (String.eqb (filePath oldLink) (filePath link))
  then VercelApi.remove (filePath oldLink)
  else ret ().

Definition writeDataFile (path : string) (data : bytes) : M unit :=
  VercelApi.createWriteStream path data.

Definition writeMetadataFile (link : ResourceLink) (metadata : nat) : M bool :=
  metadataRemove metadata RDF_type LDP_Resource ;;
  metadataRemove metadata RDF_type LDP_Container ;;
  metadataRemove metadata RDF_type LDP_BasicContainer ;;
  metadataRemoveAll metadata DC_modified ;;
  drop <- (if isContainerPath (filePath link) then ret true
           else ct <- metadataContentType metadata ;;
                ret (bool_decide (contentType link = ct))) ;;
  (if drop : bool then metadataRemoveAll metadata CONTENT_TYPE_TERM else ret ()) ;;
  quads <- quads metadata ;;
  metadataLink <- await (mapUrlToFilePath (identifier link) true None) ;;
  if (0 <? Z.of_nat (length quads)) then
    let serializedMetadata := serializeQuads quads (contentType metadataLink) in
    writeDataFile (filePath metadataLink) serializedMetadata ;;
    ret true
  else
    VercelApi.remove (filePath metadataLink) ;;
    ret false.

Definition writeDocument (identifier : ResourceIdentifier) (data : bytes)
    (metadata : nat) : M unit :=
  ct <- metadataContentType metadata ;;
  link <- await (mapUrlToFilePath identifier false ct) ;;
  verifyExistingExtension link ;;
  wroteMetadata <- writeMetadataFile link metadata ;;
  catch (writeDataFile (filePath link) data)
        (fun error =>
           (if wroteMetadata : bool
            then metaLink <- await (mapUrlToFilePath identifier true None) ;;
                 VercelApi.remove (filePath metaLink)
            else ret ()) ;;
           throw error).

Definition writeContainer (identifier : ResourceIdentifier) (metadata : nat) : M unit :=
  link <- await (mapUrlToFilePath identifier false None) ;;
  VercelApi.ensureDir (filePath link) ;;
  writeMetadataFile link metadata ;;
  ret ().

Definition writeMetadata (identifier : ResourceIdentifier) (metadata : nat) : M unit :=
  metadataLink <- await (mapUrlToFilePath identifier true None) ;;
  writeMetadataFile metadataLink metadata ;;
  ret ().

Definition deleteResource (identifier : ResourceIdentifier) : M unit :=
  metaLink <- await (mapUrlToFilePath identifier true None) ;;
  VercelApi.remove (filePath metaLink) ;;
  link <- await (mapUrlToFilePath identifier false None) ;;
  stats <- getStats (filePath link) ;;
  if negb (isContainerIdentifier identifier) && isFile stats
  then VercelApi.remove (filePath link)
  else if isContainerIdentifier identifier && isDirectory stats
       then VercelApi.remove (filePath link)
       else throw NotFoundHttpError.

End Accessor.
End VercelBlobDataAccessor.

(** ** The prefix-listing draft of the accessor

    The variant that takes the mapper it is given, lists the store to
    enumerate children and to stat a container key. *)

Module PrefixListing.
Section Accessor.
Context {resourceMapper : FileIdentifierMapper}.

Definition getBlobIdentifier (identifier : ResourceIdentifier) : M string :=
  link <- await (mapUrlToFilePath identifier false None) ;;
  ret (sliceFrom 1 (filePath link)).

(** The callback of [listResponse.blobs.map]: the name of the direct child
    a listed key belongs to. *)
Definition childName (prefix pathname : string) : string :=
  let relativePath := sliceFrom (String.length prefix) pathname in
  match indexOfSlash relativePath with
  | None => relativePath
  | Some slashIndex => sliceTo (slashIndex + 1) relativePath
  end.

Fixpoint newMetadataEach (paths : list string) : M (list nat) :=
  match paths with
  | [] => ret []
  | p :: rest =>
      y <- newMetadata (mkId p) ;;
      ys <- newMetadataEach rest ;;
      ret (y :: ys)
  end.

Definition getChildren (identifier : ResourceIdentifier) : M (list nat) :=
  prefix <- getBlobIdentifier identifier ;;
  listResponse <- VercelBlob.list prefix ;;
  newMetadataEach (childName prefix <$> (hb_pathname <$> listResponse)).

Definition stat (path : string) : M Stats :=
  if endsWith path "/" then
    catch (listResponse <- VercelBlob.list path ;;
           fun w => (Ok {| isFile := false; isDirectory := true;
                           mtime := clock w; size := 0 |}, w))
          (fun e => throw (JsError "ENOENT"))
  else
    catch (headResponse <- VercelBlob.head (sliceFrom 1 path) ;;
           ret {| isFile := negb (endsWith (hb_pathname headResponse) "/");
                  isDirectory := endsWith (hb_pathname headResponse) "/";
                  mtime := hb_uploadedAt headResponse;
                  size := hb_size headResponse |})
          (fun e => throw (JsError "ENOENT")).

Definition getStats (path : string) : M Stats :=
  catch (stat path)
        (fun error =>
           if isENOENT error then throw NotFoundHttpError else throw error).


Definition getData (identifier : ResourceIdentifier) : M bytes :=
  if negb (isContainerIdentifier identifier) then
    key <- getBlobIdentifier identifier ;;
    headResponse <- VercelBlob.head key ;;
    VercelBlob.fetch (hb_url headResponse)
  else throw NotFoundHttpError.

Definition remove (dir : string) : M unit := VercelBlob.del dir.

Definition ensureDir (path : string) : M unit :=
  catch (stat path ;; ret ())
        (fun error =>
           if isENOENT error
           then VercelBlob.put (path +:+ FOLDER_MARKER)
                               (list_byte_of_string "nothing here")
           else throw error).

Definition deleteResource (identifier : ResourceIdentifier) : M unit :=
  metaLink <- await (mapUrlToFilePath identifier true None) ;;
  remove (filePath metaLink) ;;
  link <- await (mapUrlToFilePath identifier false None) ;;
  stats <- getStats (filePath link) ;;
  if negb (isContainerIdentifier identifier) && isFile stats
  then remove (filePath link)
  else if isContainerIdentifier identifier && isDirectory stats
       then remove (filePath link)
       else throw NotFoundHttpError.


(** [headResponse.contentType]: the content-type the store reports for an
    object, which it derives on upload. *)
Variable headContentType : HeadBlobResult -> string.
Variable lastModified : Z -> Z.

Definition getMetadata (identifier : ResourceIdentifier) : M nat :=
  metadata <- newMetadata identifier ;;
  catch (key <- getBlobIdentifier identifier ;;
         headResponse <- VercelBlob.head key ;;
         m <- metadataGet metadata DC_modified ;;
         let modified := match m with Some t => termTime t | None => Some 0 end in
         (if match modified with
             | Some t => t <? hb_uploadedAt headResponse
             | None => false
             end
          then updateModifiedDate lastModified metadata (hb_uploadedAt headResponse)
          else ret ()) ;;
         metadataAdd metadata POSIX_mtime
           (IntLiteral (hb_uploadedAt headResponse / 1000)) ResponseMetadata ;;
         (if negb (isContainerIdentifier identifier)
          then metadataAdd metadata POSIX_size (IntLiteral (hb_size headResponse))
                 ResponseMetadata
          else ret ()) ;;
         metadataSet metadata CONTENT_TYPE_TERM
           (stringObject (Some (headContentType headResponse))) ;;
         ret metadata)
        (fun e => throw NotFoundHttpError).

End Accessor.
End PrefixListing.

(** ** An earlier draft of [VercelApi.ts]

    The draft whose [ensureDir] looks at the answer of [stat] instead of
    catching its failure. *)

Module VercelApiDraft.

Definition stat (path : string) : M Stats :=
  if endsWith path "/" then
    catch (headResponse <- VercelBlob.head (path +:+ FOLDER_MARKER) ;;
           ret {| isFile := false; isDirectory := true;
                  mtime := hb_uploadedAt headResponse; size := 0 |})
          (fun e => throw (JsError "ENOENT"))
  else
    catch (headResponse <- VercelBlob.head path ;;
           ret {| isFile := negb (endsWith (hb_pathname headResponse) "/");
                  isDirectory := endsWith (hb_pathname headResponse) "/";
                  mtime := hb_uploadedAt headResponse;
                  size := hb_size headResponse |})
          (fun e => throw (JsError "ENOENT")).

Definition ensureDir (path : string) : M unit :=
  statResponse <- stat path ;;
  if negb (isDirectory statResponse)
  then VercelBlob.put (path +:+ FOLDER_MARKER) (list_byte_of_string "nothing here")
  else ret ().

End VercelApiDraft.

(** ** The second version of [BlobIdentifierMapper]

    It shares [getRelativePath] and [validateRelativePath] with the first
    and leaves the content-type out of the link of a container. *)

Section BlobIdentifierMapperContainers.
Variable decodeUriPathComponents : string -> string.
Variable baseRequestURI : string.

Definition blobContainers_mapUrlToFilePath (identifier : ResourceIdentifier)
    (isMetadata : bool) (contentType : option string) : Result ResourceLink :=
  match getRelativePath decodeUriPathComponents baseRequestURI identifier with
  | Err e => Err e
  | Ok p0 =>
      let p := if isMetadata then p0 +:+ metadataSuffix else p0 in
      match validateRelativePath p with
      | Err e => Err e
      | Ok _ =>
          if isContainerIdentifier identifier
          then Ok {| identifier := identifier; filePath := p; contentType := None;
                     isMetadata := endsWith p metadataSuffix |}
          else Ok {| identifier := identifier; filePath := p;
                     contentType := contentType;
                     isMetadata := endsWith p metadataSuffix |}
      end
  end.

Definition BlobIdentifierMapperContainers : FileIdentifierMapper :=
  {| mapFilePathToUrl := fim_mapFilePathToUrl;
     mapUrlToFilePath := blobContainers_mapUrlToFilePath |}.
End BlobIdentifierMapperContainers.


(** * Vocabulary of the properties *)

(** ** Worlds used to run the model on examples *)

Definition storeOf (l : list (string * string)) : gmap string Blob :=
  list_to_map ((fun kv => (kv.1, mkBlob (list_byte_of_string kv.2) 1700000000000)) <$> l).

Definition worldOf (l : list (string * string)) (plan : list (option BlobError)) : World :=
  {| blobs := storeOf l; heap := []; faults := plan; calls := []; clock := 1 |}.

(** The key [VercelApi.stat] probes for a path, and the facts it reports for
    the object found there. *)
Definition statKey (path : string) : string :=
  if endsWith path "/" then path +:+ FOLDER_MARKER else path.

Definition statsOf (path : string) (b : Blob) : Stats :=
  if endsWith path "/"
  then {| isFile := false; isDirectory := true; mtime := uploadedAt b; size := 0 |}
  else {| isFile := true; isDirectory := false; mtime := uploadedAt b; size := blobSize b |}.

(** The names of the resources a drained child sequence describes *)
Definition yielded (r : Result (list nat) * World) : list string :=
  match r with
  | (Ok ys, w) =>
      (fun y => default "" ((fun o => path (md_identifier o)) <$> heap w !! y)) <$> ys
  | (Err _, _) => []
  end.

(** [decodeUriPathComponents] on paths without percent escapes *)
Definition decodeNothing (s : string) : string := s.

(** Triples that restate what the store itself knows: the resource kind and
    the modification time. *)
Definition storageFact (q : Quad) : bool :=
  isTriple RDF_type LDP_Resource q || isTriple RDF_type LDP_Container q
  || isTriple RDF_type LDP_BasicContainer q || hasPredicate DC_modified q.

(** The content-type of a set of triples whose getter answers *)
Definition contentTypeOf (qs : list Quad) : option string :=
  match qContentType qs with
  | Ok ct => ct
  | Err _ => None
  end.

(** The test of [writeMetadataFile] can be made: the path is a container
    path, or the content-type getter answers *)
Definition testable (link : ResourceLink) (qs : list Quad) : bool :=
  isContainerPath (filePath link)
  || match qContentType qs with Ok _ => true | Err _ => false end.

(** The test that decides whether the content-type triples are removed *)
Definition dropsContentType (link : ResourceLink) (ct : option string) : bool :=
  isContainerPath (filePath link) || bool_decide (contentType link = ct).

Definition dropped (b : bool) (q : Quad) : bool :=
  storageFact q || (b && hasPredicate CONTENT_TYPE_TERM q).

Definition keptQuads (b : bool) (qs : list Quad) : list Quad :=
  List.filter (fun q => negb (dropped b q)) qs.

(** A computation that leaves the metadata objects alone *)
Definition storeOnly {A} (m : M A) : Prop :=
  forall w r w', m w = (r, w') -> heap w' = heap w.

(** ** The sidecar step *)

Section SidecarVocabulary.
Variable serializeQuads : list Quad -> option string -> bytes.

(** The world after a sidecar step that did not fail *)
Definition afterSidecar (link metaLink : ResourceLink) (md : nat) (w : World) : World :=
  let qs := quadsAt (heap w) md in
  let b := dropsContentType link (contentTypeOf qs) in
  let w1 := setHeap (alter (updateQuads (keptQuads b)) md) w in
  let kept := keptQuads b qs in
  if (0 <? Z.of_nat (length kept))
  then tick (setBlobs (insert (filePath metaLink)
                         (mkBlob (serializeQuads kept (contentType metaLink)) (clock w)))
               (advance (CPut (filePath metaLink)
                           (serializeQuads kept (contentType metaLink))) w1))
  else setBlobs (delete (filePath metaLink)) (advance (CDel (filePath metaLink)) w1).

Definition wroteSidecar (link : ResourceLink) (md : nat) (w : World) : bool :=
  let qs := quadsAt (heap w) md in
  0 <? Z.of_nat (length (keptQuads (dropsContentType link (contentTypeOf qs)) qs)).

Definition sidecarCall (link metaLink : ResourceLink) (md : nat) (w : World) : Call :=
  let qs := quadsAt (heap w) md in
  let kept := keptQuads (dropsContentType link (contentTypeOf qs)) qs in
  if (0 <? Z.of_nat (length kept))
  then CPut (filePath metaLink) (serializeQuads kept (contentType metaLink))
  else CDel (filePath metaLink).
End SidecarVocabulary.

(** ** The three write operations *)

Inductive WriteOp :=
  | WriteDocument (data : bytes)
  | WriteContainer
  | WriteMetadata.

Section WriteVocabulary.
Context {resourceMapper : FileIdentifierMapper}.
Variable serializeQuads : list Quad -> option string -> bytes.

Definition runWrite (op : WriteOp) (id : ResourceIdentifier) (md : nat) : M unit :=
  match op with
  | WriteDocument data => VercelBlobDataAccessor.writeDocument serializeQuads id data md
  | WriteContainer => VercelBlobDataAccessor.writeContainer serializeQuads id md
  | WriteMetadata => VercelBlobDataAccessor.writeMetadata serializeQuads id md
  end.

(** The link the operation hands to [writeMetadataFile], given the
    content-type of the metadata *)
Definition linkWritten (op : WriteOp) (id : ResourceIdentifier) (ct : option string) :
    Result ResourceLink :=
  match op with
  | WriteDocument _ => mapUrlToFilePath id false ct
  | WriteContainer => mapUrlToFilePath id false None
  | WriteMetadata => mapUrlToFilePath id true None
  end.
End WriteVocabulary.

(** ** The links of the hardcoded mapper *)

Definition fimLink (id : ResourceIdentifier) (p : string) : ResourceLink :=
  {| identifier := id; filePath := "x" +:+ p; contentType := None; isMetadata := false |}.
Definition fimMetaLink (id : ResourceIdentifier) (p : string) : ResourceLink :=
  {| identifier := id; filePath := "x" +:+ (p +:+ ".meta");
     contentType := None; isMetadata := true |}.

(** ** Total correctness of a step *)

Definition total {A} (P : World -> Prop) (m : M A) (Q : A -> World -> Prop) : Prop :=
  forall w, P w -> exists a w', m w = (Ok a, w') /\ Q a w'.


(** ** Collaborators of the examples *)

(** [new URL(a).pathname] on the identifiers of the examples: URLs under
    [http://h/] that have no query and no fragment. *)
Definition examplePathname (url : string) : option string :=
  if startsWith url "http://h/" then Some (sliceFrom 8 url) else None.

(** A library that records the date as it is given *)
Definition sameInstant (date : Z) : Z := date.

(** A line-based codec for triples whose names and literals have no space
    and no line break. *)
Definition showZ (n : Z) : string := NilZero.string_of_int (Z.to_int n).
Definition readZ (s : string) : option Z := Z.of_int <$> NilZero.int_of_string s.

Definition showTerm (t : Term) : string :=
  match t with
  | NamedNode v => "N" +:+ v
  | Literal v => "L" +:+ v
  | IntLiteral n => "I" +:+ showZ n
  | DateLiteral ms => "D" +:+ showZ ms
  end.

Definition readTerm (s : string) : option Term :=
  match s with
  | String "N"%char v => Some (NamedNode v)
  | String "L"%char v => Some (Literal v)
  | String "I"%char v => IntLiteral <$> readZ v
  | String "D"%char v => DateLiteral <$> readZ v
  | _ => None
  end.

Fixpoint splitOn (sep : ascii) (s : string) : list string :=
  match s with
  | EmptyString => [""]
  | String c r =>
      if Ascii.eqb c sep then "" :: splitOn sep r
      else match splitOn sep r with
           | h :: t => String c h :: t
           | [] => [String c ""]
           end
  end.

Definition showQuad (q : Quad) : string :=
  showTerm (predicate q) +:+ " " +:+ showTerm (object q) +:+ " " +:+ showTerm (graph q).

Definition readQuad (line : string) : option Quad :=
  match splitOn " "%char line with
  | [p; o; g] =>
      match readTerm p, readTerm o, readTerm g with
      | Some p', Some o', Some g' => Some (mkQuad p' o' g')
      | _, _, _ => None
      end
  | _ => None
  end.

Definition exampleSerialize (qs : list Quad) (format : option string) : bytes :=
  list_byte_of_string (String.concat (String "010"%char "") (showQuad <$> qs)).

Definition exampleParse (b : bytes) (format : option string) (baseIRI : string) :
    option (list Quad) :=
  match b with
  | [] => Some []
  | _ => mapM readQuad (splitOn "010"%char (string_of_list_byte b))
  end.

(** A document's metadata as a caller hands it over: kind and modification
    time, a content-type and a title. *)
Definition exampleQuads (ct : string) : list Quad :=
  [ mkQuad RDF_type LDP_Resource DefaultGraph;
    mkQuad DC_modified (DateLiteral 1700000000000) DefaultGraph;
    mkQuad CONTENT_TYPE_TERM (Literal ct) DefaultGraph;
    mkQuad (NamedNode "http://purl.org/dc/terms/title") (Literal "A") DefaultGraph ].

Definition exampleId : ResourceIdentifier := mkId "http://h/docs/a".

(** A world with the given objects, one metadata object (at reference [0])
    and the given outcomes of the coming client calls. *)
Definition exampleWorld (objects : list (string * string)) (ct : string)
    (plan : list (option BlobError)) : World :=
  {| blobs := storeOf objects; heap := [mkMeta exampleId (exampleQuads ct)];
     faults := plan; calls := []; clock := 1 |}.

(** ** Keys a computation may change *)

(** Whatever the outcome, the objects under keys outside [K] are as before. *)
Definition touchesOnly {A} (K : string -> Prop) (m : M A) : Prop :=
  forall w r w', m w = (r, w') -> forall k, ~ K k -> blobs w' !! k = blobs w !! k.

(** The outcome of [VercelApi.stat], read off the world *)
Definition statOutcome (path : string) (w : World) : Result Stats :=
  match hd None (faults w), blobs w !! statKey path with
  | None, Some b => Ok (statsOf path b)
  | _, _ => Err (JsError "ENOENT")
  end.

Definition markerBytes : bytes := list_byte_of_string "nothing here".

(** The triples [getMetadata] builds for a resource that has no sidecar,
    from the modification time and the size the store reports *)
Definition liveQuads (lastModified : Z -> Z) (isContainer : bool) (t sz : Z) :
    list Quad :=
  (if isContainer
   then [mkQuad RDF_type LDP_Container DefaultGraph;
         mkQuad RDF_type LDP_BasicContainer DefaultGraph]
   else [])
  ++ [mkQuad RDF_type LDP_Resource DefaultGraph]
  ++ (if 0 <? t then [mkQuad DC_modified (DateLiteral (lastModified t)) DefaultGraph]
      else [])
  ++ [mkQuad POSIX_mtime (IntLiteral (t / 1000)) ResponseMetadata]
  ++ (if isContainer then [] else [mkQuad POSIX_size (IntLiteral sz) ResponseMetadata]).

(** [new URL(a).pathname] on URLs under [http://h/] that may carry a query:
    the path stops at the question mark. *)
Definition queryPathname (url : string) : option string :=
  if startsWith url "http://h/"
  then let rest := sliceFrom 8 url in
       Some (match String.index 0 "?" rest with
             | Some i => sliceTo i rest
             | None => rest
             end)
  else None.

(** The object [l] exists and its triples satisfy [P]; the store and the
    client are as in [w0]. *)
Definition holdsP (P : list Quad -> Prop) (l : nat) (w0 w : World) : Prop :=
  (l < length (heap w))%nat
  /\ P (quadsAt (heap w) l)
  /\ blobs w = blobs w0 /\ faults w = faults w0.

(** The triples of an object after [addResourceMetadata], after
    [addPosixMetadata] and after [metadataAddQuads] *)
Definition withResourceTypes (isContainer : bool) (qs : list Quad) : list Quad :=
  qAdd RDF_type LDP_Resource DefaultGraph
    (if isContainer
     then qAdd RDF_type LDP_BasicContainer DefaultGraph
            (qAdd RDF_type LDP_Container DefaultGraph qs)
     else qs).

Definition withPosixFacts (lastModified : Z -> Z) (stats : Stats) (qs : list Quad) :
    list Quad :=
  let modified := match qGet DC_modified qs with
                  | Ok (Some t) => termTime t
                  | _ => Some 0
                  end in
  let q1 := if match modified with Some t => t <? mtime stats | None => false end
            then qSet DC_modified (Some (DateLiteral (lastModified (mtime stats)))) qs
            else qs in
  let q2 := qAdd POSIX_mtime (IntLiteral (mtime stats / 1000)) ResponseMetadata q1 in
  if negb (isDirectory stats)
  then qAdd POSIX_size (IntLiteral (size stats)) ResponseMetadata q2
  else q2.

Definition addAll (qs : list Quad) : list Quad :=
  foldl (fun acc q => qAdd (predicate q) (object q) (graph q) acc) [] qs.

(** The triples [getRawMetadata] reads from a sidecar uploaded at [tm] *)
Definition rawQuads (lastModified : Z -> Z) (tm : Z) (kept : list Quad) : list Quad :=
  qSet DC_modified (Some (DateLiteral (lastModified tm))) (addAll kept).

(** The keys the hardcoded mapper gives a resource whose pathname is [p]:
    the primary key, the sidecar key and the folder marker *)
Definition ownKey (p k : string) : Prop :=
  k = "x" +:+ p \/ k = "x" +:+ (p +:+ ".meta") \/ k = ("x" +:+ p) +:+ FOLDER_MARKER.

Definition noKey (k : string) : Prop := False.

(** ** Metadata objects a computation may change *)

(** Whatever the outcome, the first [n] metadata objects are as before, and
    a result satisfies [Q]. *)
Definition keepsObjects {A} (n : nat) (Q : A -> Prop) (m : M A) : Prop :=
  forall w r w', m w = (r, w') -> (n <= length (heap w))%nat ->
    take n (heap w') = take n (heap w)
    /\ (n <= length (heap w'))%nat
    /\ (forall a, r = Ok a -> Q a).

Definition anyResult {A} (a : A) : Prop := True.

(** * Properties *)

(** ** Running computations *)

Lemma bind_ok {A B} (m : M A) (f : A -> M B) w a w1 :
  m w = (Ok a, w1) -> (x <- m ;; f x) w = f a w1.
Proof. intros H. unfold bind. now rewrite H. Qed.

Lemma bind_err {A B} (m : M A) (f : A -> M B) w e w1 :
  m w = (Err e, w1) -> (x <- m ;; f x) w = (Err e, w1).
Proof. intros H. unfold bind. now rewrite H. Qed.

Lemma bind_inv_ok {A B} (m : M A) (f : A -> M B) w b w' :
  (x <- m ;; f x) w = (Ok b, w') ->
  exists a w1, m w = (Ok a, w1) /\ f a w1 = (Ok b, w').
Proof.
  unfold bind. destruct (m w) as [[a|e] w1]; intros H.
  - eauto.
  - discriminate.
Qed.

Lemma request_quiet c w : hd None (faults w) = None -> VercelBlob.request c w = (Ok (), advance c w).
Proof.
  unfold VercelBlob.request. destruct (faults w) as [|[e|] fs]; simpl; congruence.
Qed.

Lemma request_fault c w e :
  hd None (faults w) = Some e -> VercelBlob.request c w = (Err (StorageFailure e), advance c w).
Proof.
  unfold VercelBlob.request. destruct (faults w) as [|[e'|] fs]; simpl; congruence.
Qed.

Section FimFacts.
Variable pathname : string -> option string.

(** C9.  The hardcoded mapper ignores the content-type it is given: the
    link it returns is the same for any two content-types, its key is ["x"]
    followed by the URL pathname and by [".meta"] for a sidecar; hence
    [verifyExistingExtension] finds the old and the new key equal, makes no
    client call and leaves the world as it was. *)
Theorem fim_key_ignores_content_type :
  forall (id : ResourceIdentifier) (isMeta : bool) (t1 t2 : option string) (w : World),
    @mapUrlToFilePath (fim pathname) id isMeta t1
      = @mapUrlToFilePath (fim pathname) id isMeta t2
    /\ match pathname (path id) with
       | Some c =>
           @mapUrlToFilePath (fim pathname) id isMeta t1
           = Ok {| identifier := id;
                   filePath := "x" +:+ c +:+ (if isMeta then ".meta" else "");
                   contentType := None; isMetadata := isMeta |}
       | None => @mapUrlToFilePath (fim pathname) id isMeta t1 = Err (TypeError "Invalid URL")
       end
    /\ match @mapUrlToFilePath (fim pathname) id false t1 with
       | Ok link =>
           @VercelBlobDataAccessor.verifyExistingExtension (fim pathname) link w
           = (Ok (), w)
       | Err _ => True
       end.
Proof.
  intros id isMeta t1 t2 w. simpl. unfold fim_mapUrlToFilePath.
  destruct (pathname (path id)) as [c|] eqn:Hc.
  - repeat split.
    unfold VercelBlobDataAccessor.verifyExistingExtension. simpl.
    unfold fim_mapUrlToFilePath. rewrite Hc.
    unfold bind, await. simpl. now rewrite String.eqb_refl.
  - repeat split.
Qed.
End FimFacts.

(** ** The store client, call by call *)

Lemma head_run k w :
  hd None (faults w) = None ->
  VercelBlob.head k w
  = (match blobs w !! k with
     | Some b => Ok (headOf k b)
     | None => Err (StorageFailure BlobNotFoundError)
     end, advance (CHead k) w).
Proof.
  intros H. unfold VercelBlob.head. rewrite (bind_ok _ _ _ _ _ (request_quiet _ _ H)).
  simpl. now destruct (blobs w !! k).
Qed.

Lemma head_fault k w e :
  hd None (faults w) = Some e ->
  VercelBlob.head k w = (Err (StorageFailure e), advance (CHead k) w).
Proof.
  intros H. unfold VercelBlob.head. now rewrite (bind_err _ _ _ _ _ (request_fault _ _ _ H)).
Qed.

Lemma put_run k d w :
  hd None (faults w) = None ->
  VercelBlob.put k d w
  = (Ok (), tick (setBlobs (insert k (mkBlob d (clock w))) (advance (CPut k d) w))).
Proof.
  intros H. unfold VercelBlob.put. now rewrite (bind_ok _ _ _ _ _ (request_quiet _ _ H)).
Qed.

Lemma put_fault k d w e :
  hd None (faults w) = Some e ->
  VercelBlob.put k d w = (Err (StorageFailure e), advance (CPut k d) w).
Proof.
  intros H. unfold VercelBlob.put. now rewrite (bind_err _ _ _ _ _ (request_fault _ _ _ H)).
Qed.

Lemma del_run k w :
  hd None (faults w) = None ->
  VercelBlob.del k w = (Ok (), setBlobs (delete k) (advance (CDel k) w)).
Proof.
  intros H. unfold VercelBlob.del. now rewrite (bind_ok _ _ _ _ _ (request_quiet _ _ H)).
Qed.

Lemma del_fault k w e :
  hd None (faults w) = Some e ->
  VercelBlob.del k w = (Err (StorageFailure e), advance (CDel k) w).
Proof.
  intros H. unfold VercelBlob.del. now rewrite (bind_err _ _ _ _ _ (request_fault _ _ _ H)).
Qed.

Lemma list_run p w :
  hd None (faults w) = None ->
  VercelBlob.list p w = (Ok (VercelBlob.listing p (blobs w)), advance (CList p) w).
Proof.
  intros H. unfold VercelBlob.list. now rewrite (bind_ok _ _ _ _ _ (request_quiet _ _ H)).
Qed.

Lemma fetch_run k w :
  hd None (faults w) = None ->
  VercelBlob.fetch k w
  = (match blobs w !! k with
     | Some b => Ok (content b)
     | None => Err (StorageFailure BlobNotFoundError)
     end, advance (CFetch k) w).
Proof.
  intros H. unfold VercelBlob.fetch. rewrite (bind_ok _ _ _ _ _ (request_quiet _ _ H)).
  simpl. now destruct (blobs w !! k).
Qed.

Lemma put_inv_ok k d w w' :
  VercelBlob.put k d w = (Ok (), w') ->
  hd None (faults w) = None
  /\ w' = tick (setBlobs (insert k (mkBlob d (clock w))) (advance (CPut k d) w)).
Proof.
  destruct (hd None (faults w)) as [e|] eqn:H.
  - rewrite (put_fault _ _ _ _ H). discriminate.
  - rewrite (put_run _ _ _ H). intros [= <-]. auto.
Qed.

Lemma del_inv_ok k w w' :
  VercelBlob.del k w = (Ok (), w') ->
  hd None (faults w) = None /\ w' = setBlobs (delete k) (advance (CDel k) w).
Proof.
  destruct (hd None (faults w)) as [e|] eqn:H.
  - rewrite (del_fault _ _ _ H). discriminate.
  - rewrite (del_run _ _ H). intros [= <-]. auto.
Qed.

(** ** [stat] and [getStats] *)

Lemma stat_run path w :
  hd None (faults w) = None ->
  VercelApi.stat path w
  = (match blobs w !! statKey path with
     | Some b => Ok (statsOf path b)
     | None => Err (JsError "ENOENT")
     end, advance (CHead (statKey path)) w).
Proof.
  intros H. unfold VercelApi.stat, statKey, statsOf, catch, bind.
  destruct (endsWith path "/") eqn:E; rewrite (head_run _ _ H);
    destruct (blobs w !! _); simpl; try reflexivity.
  now rewrite E.
Qed.

Lemma stat_fault path w e :
  hd None (faults w) = Some e ->
  VercelApi.stat path w = (Err (JsError "ENOENT"), advance (CHead (statKey path)) w).
Proof.
  intros H. unfold VercelApi.stat, statKey, catch, bind.
  destruct (endsWith path "/"); now rewrite (head_fault _ _ _ H).
Qed.

Lemma getStats_run `{FileIdentifierMapper} path w :
  hd None (faults w) = None ->
  VercelBlobDataAccessor.getStats path w
  = (match blobs w !! statKey path with
     | Some b => Ok (statsOf path b)
     | None => Err NotFoundHttpError
     end, advance (CHead (statKey path)) w).
Proof.
  intros Hq. unfold VercelBlobDataAccessor.getStats, catch.
  rewrite (stat_run _ _ Hq). now destruct (blobs w !! _).
Qed.

(** Whatever the store client answers, a failed probe reaches the caller of
    [getStats] as [NotFoundHttpError]. *)
Lemma getStats_fault path w e :
  hd None (faults w) = Some e ->
  VercelBlobDataAccessor.getStats path w
  = (Err NotFoundHttpError, advance (CHead (statKey path)) w).
Proof.
  intros Hq. unfold VercelBlobDataAccessor.getStats, catch.
  now rewrite (stat_fault _ _ _ Hq).
Qed.

(** The marker strategy of [VercelApi.stat]: without a store failure, a
    container key stats as a directory exactly when its marker object
    exists. *)
Lemma stat_container_marker path w :
  endsWith path "/" = true ->
  hd None (faults w) = None ->
  (is_Some (blobs w !! (path +:+ FOLDER_MARKER)) ->
     exists t, fst (VercelApi.stat path w)
               = Ok {| isFile := false; isDirectory := true; mtime := t; size := 0 |})
  /\ (blobs w !! (path +:+ FOLDER_MARKER) = None ->
        fst (VercelApi.stat path w) = Err (JsError "ENOENT")).
Proof.
  intros E Hq. rewrite (stat_run _ _ Hq). unfold statKey, statsOf. rewrite E.
  split.
  - intros [b ->]. eauto.
  - now intros ->.
Qed.

(** The prefix-listing [stat] on a container key: the answer of [list] is
    not looked at. *)
Lemma prefix_stat_container path w :
  endsWith path "/" = true ->
  hd None (faults w) = None ->
  PrefixListing.stat path w
  = (Ok {| isFile := false; isDirectory := true; mtime := clock w; size := 0 |},
     advance (CList path) w).
Proof.
  intros E Hq. unfold PrefixListing.stat, catch, bind. rewrite E.
  now rewrite (list_run _ _ Hq).
Qed.

(** C6.  The prefix-listing [stat] at the container key ["docs/"] of an empty
    store: nothing is listed under the prefix, and the key stats as a
    directory. *)
Theorem prefix_stat_reports_missing_container :
  VercelBlob.listing "docs/" (blobs (worldOf [] [])) = []
  /\ fst (PrefixListing.stat "docs/" (worldOf [] []))
     = Ok {| isFile := false; isDirectory := true; mtime := 1; size := 0 |}.
Proof. split; vm_compute; reflexivity. Qed.

(** C7.  [getStats] on an existing key while the store client fails with a
    service error: the failure reaches the caller as [NotFoundHttpError],
    after a single client call. *)
Theorem getStats_reports_store_failure_as_NotFound :
  let w := worldOf [("x/docs/a", "hello")] [Some (BlobServiceError "network")] in
  is_Some (blobs w !! "x/docs/a")
  /\ @VercelBlobDataAccessor.getStats "x/docs/a" w
     = (Err NotFoundHttpError, advance (CHead "x/docs/a") w).
Proof.
  intros w. split.
  - vm_compute. eauto.
  - exact (getStats_fault "x/docs/a" w (BlobServiceError "network") eq_refl).
Qed.

(** ** Child enumeration *)

Lemma setHeap_setHeap f g w : setHeap g (setHeap f w) = setHeap (fun h => g (f h)) w.
Proof. reflexivity. Qed.

(** C4.  The prefix-listing [getChildren] on the container [http://h/docs/]
    of a store that holds a document with its sidecar and two documents of a
    sub-container.  The children are the document [a.txt] and the
    sub-container [sub/]; the code yields four entries, one per stored key:
    the sub-container twice, and the sidecar key among them. *)
Theorem getChildren_repeats_child_and_shows_sidecar :
  let w := worldOf [("docs/a.txt", "hello"); ("docs/a.txt.meta", "Ltitle");
                    ("docs/sub/b.txt", "b"); ("docs/sub/c.txt", "c")] [] in
  let names := yielded (@PrefixListing.getChildren
                          (BlobIdentifierMapper decodeNothing "http://h")
                          (mkId "http://h/docs/") w) in
  length names = 4%nat
  /\ count_occ string_dec names "sub/" = 2%nat
  /\ count_occ string_dec names "a.txt" = 1%nat
  /\ count_occ string_dec names "a.txt.meta" = 1%nat.
Proof. intros w names. repeat split; vm_compute; reflexivity. Qed.

(** ** What [writeMetadataFile] keeps *)

Lemma filter_filter {A} (f g : A -> bool) (l : list A) :
  List.filter g (List.filter f l) = List.filter (fun x => f x && g x) l.
Proof.
  induction l as [|x l IH]; simpl; [reflexivity|].
  destruct (f x); simpl; [destruct (g x)|]; now rewrite IH.
Qed.

Lemma filter_ext_bool {A} (f g : A -> bool) (l : list A) :
  (forall x, f x = g x) -> List.filter f l = List.filter g l.
Proof. intros H. apply List.filter_ext. exact H. Qed.

Lemma storageFact_not_contentType q :
  hasPredicate CONTENT_TYPE_TERM q = true -> storageFact q = false.
Proof.
  unfold storageFact, isTriple, hasPredicate. intros H.
  apply bool_decide_eq_true in H. rewrite H.
  rewrite !(bool_decide_eq_false_2 (CONTENT_TYPE_TERM = _)) by discriminate.
  reflexivity.
Qed.

Lemma filter_filter_comm {A} (f g : A -> bool) (l : list A) :
  List.filter g (List.filter f l) = List.filter f (List.filter g l).
Proof.
  rewrite !filter_filter. apply filter_ext_bool. intros x. apply andb_comm.
Qed.

Lemma filter_id {A} (f : A -> bool) (l : list A) :
  (forall x, x ∈ l -> f x = true) -> List.filter f l = l.
Proof.
  induction l as [|x l IH]; intros H; simpl; [reflexivity|].
  rewrite (H x) by left. f_equal. apply IH. intros y Hy. apply H. now right.
Qed.

Lemma qGetAll_storageFacts qs :
  qGetAll CONTENT_TYPE_TERM (List.filter (fun q => negb (storageFact q)) qs)
  = qGetAll CONTENT_TYPE_TERM qs.
Proof.
  unfold qGetAll. rewrite filter_filter_comm. f_equal. apply filter_id.
  intros q Hq. apply list_elem_of_In, List.filter_In in Hq. destruct Hq as [_ Hq].
  now rewrite (storageFact_not_contentType q Hq).
Qed.

Lemma qContentType_storageFacts qs :
  qContentType (List.filter (fun q => negb (storageFact q)) qs) = qContentType qs.
Proof. unfold qContentType, qGet. now rewrite qGetAll_storageFacts. Qed.

(** The four unconditional removals of [writeMetadataFile], one after the
    other, and the conditional fifth. *)
Lemma removals_storageFacts qs :
  qRemoveAll DC_modified
    (qRemove RDF_type LDP_BasicContainer
       (qRemove RDF_type LDP_Container (qRemove RDF_type LDP_Resource qs)))
  = List.filter (fun q => negb (storageFact q)) qs.
Proof.
  unfold qRemoveAll, qRemove. rewrite !filter_filter.
  apply filter_ext_bool. intros q. unfold storageFact.
  destruct (isTriple RDF_type LDP_Resource q), (isTriple RDF_type LDP_Container q),
    (isTriple RDF_type LDP_BasicContainer q), (hasPredicate DC_modified q); reflexivity.
Qed.

Lemma removals_keptQuads (b : bool) qs :
  (if b then qRemoveAll CONTENT_TYPE_TERM (List.filter (fun q => negb (storageFact q)) qs)
   else List.filter (fun q => negb (storageFact q)) qs)
  = keptQuads b qs.
Proof.
  unfold keptQuads, dropped, qRemoveAll. destruct b.
  - rewrite filter_filter. apply filter_ext_bool. intros q.
    now destruct (storageFact q), (hasPredicate CONTENT_TYPE_TERM q).
  - apply filter_ext_bool. intros q. now destruct (storageFact q).
Qed.

(** ** Metadata objects *)

Lemma setHeap_ext f g w : f (heap w) = g (heap w) -> setHeap f w = setHeap g w.
Proof. intros H. unfold setHeap. now rewrite H. Qed.

Lemma quadsAt_alter (f : list Quad -> list Quad) l h :
  f [] = [] -> quadsAt (alter (updateQuads f) l h) l = f (quadsAt h l).
Proof.
  intros Hf. unfold quadsAt. rewrite list_lookup_alter_eq.
  destruct (h !! l); simpl; [reflexivity|now rewrite Hf].
Qed.

Lemma alter_alter (f g : list Quad -> list Quad) l (h : list RepresentationMetadata) :
  alter (updateQuads g) l (alter (updateQuads f) l h)
  = alter (updateQuads (fun qs => g (f qs))) l h.
Proof.
  rewrite list_alter_alter_eq. apply list_alter_ext; [|reflexivity].
  intros o _. reflexivity.
Qed.

(** The four unconditional removals *)
Lemma removals_run {B} md (k : M B) w :
  (metadataRemove md RDF_type LDP_Resource ;;
   metadataRemove md RDF_type LDP_Container ;;
   metadataRemove md RDF_type LDP_BasicContainer ;;
   metadataRemoveAll md DC_modified ;; k) w
  = k (setHeap (alter (updateQuads (keptQuads false)) md) w).
Proof.
  do 4 (erewrite bind_ok by reflexivity).
  rewrite !setHeap_setHeap. f_equal. apply setHeap_ext. rewrite !alter_alter.
  apply list_alter_ext; [|reflexivity]. intros o _. unfold updateQuads. f_equal.
  rewrite removals_storageFacts. apply (removals_keptQuads false).
Qed.

Lemma keptQuads_keptQuads (b : bool) qs :
  (if b then qRemoveAll CONTENT_TYPE_TERM (keptQuads false qs) else keptQuads false qs)
  = keptQuads b qs.
Proof. rewrite <- (removals_keptQuads false). apply removals_keptQuads. Qed.

Lemma qContentType_keptQuads qs : qContentType (keptQuads false qs) = qContentType qs.
Proof. rewrite <- (removals_keptQuads false). apply qContentType_storageFacts. Qed.

Section WriteMetadataFile.
Context {resourceMapper : FileIdentifierMapper}.
Variable serializeQuads : list Quad -> option string -> bytes.

Let writeMetadataFile := VercelBlobDataAccessor.writeMetadataFile serializeQuads.

(** [writeMetadataFile] in one step: the object is filtered in place, then
    the sidecar is written when triples remain and deleted otherwise. *)
Lemma writeMetadataFile_steps link md w :
  let qs := quadsAt (heap w) md in
  testable link qs = true ->
  let b := dropsContentType link (contentTypeOf qs) in
  let w1 := setHeap (alter (updateQuads (keptQuads b)) md) w in
  writeMetadataFile link md w
  = (metadataLink <- await (mapUrlToFilePath (identifier link) true None) ;;
     if (0 <? Z.of_nat (length (keptQuads b qs)))
     then VercelBlob.put (filePath metadataLink)
            (serializeQuads (keptQuads b qs) (contentType metadataLink)) ;; ret true
     else VercelBlob.del (filePath metadataLink) ;; ret false) w1.
Proof.
  intros qs Ht b w1.
  unfold writeMetadataFile, VercelBlobDataAccessor.writeMetadataFile.
  rewrite removals_run.
  set (w0 := setHeap (alter (updateQuads (keptQuads false)) md) w).
  assert (Hq0 : quadsAt (heap w0) md = keptQuads false qs)
    by (unfold w0; cbn [heap setHeap]; now rewrite quadsAt_alter by reflexivity).
  assert (Hd : (if isContainerPath (filePath link) then ret true
                else ct <- metadataContentType md ;;
                     ret (bool_decide (contentType link = ct))) w0 = (Ok b, w0)).
  { unfold b, dropsContentType, contentTypeOf. unfold testable in Ht.
    destruct (isContainerPath (filePath link)); [reflexivity|].
    unfold metadataContentType, quads, bind, await, ret. rewrite Hq0, qContentType_keptQuads.
    now destruct (qContentType qs). }
  rewrite (bind_ok _ _ _ _ _ Hd).
  assert (Hw1 : (if b then metadataRemoveAll md CONTENT_TYPE_TERM else ret ()) w0
                = (Ok (), w1)).
  { unfold w1, w0. clearbody b. destruct b; unfold metadataRemoveAll, mutate, ret;
      [|reflexivity].
    rewrite setHeap_setHeap. f_equal. apply setHeap_ext. rewrite alter_alter.
    apply list_alter_ext; [|reflexivity]. intros o _. unfold updateQuads. f_equal.
    apply (keptQuads_keptQuads true). }
  rewrite (bind_ok _ _ _ _ _ Hw1).
  assert (Hq : quads md w1 = (Ok (keptQuads b qs), w1)).
  { unfold quads, w1 at 1. cbn [heap setHeap]. now rewrite quadsAt_alter by reflexivity. }
  rewrite (bind_ok _ _ _ _ _ Hq).
  unfold VercelBlobDataAccessor.writeDataFile, VercelApi.createWriteStream, VercelApi.remove.
  unfold bind at 1 4. destruct (await _ w1) as [[metadataLink|e] w2]; [|reflexivity].
  now destruct (0 <? Z.of_nat (length (keptQuads b qs))).
Qed.

Lemma writeMetadataFile_unfold link md metaLink w :
  mapUrlToFilePath (identifier link) true None = Ok metaLink ->
  let qs := quadsAt (heap w) md in
  testable link qs = true ->
  let b := dropsContentType link (contentTypeOf qs) in
  let w1 := setHeap (alter (updateQuads (keptQuads b)) md) w in
  writeMetadataFile link md w
  = if (0 <? Z.of_nat (length (keptQuads b qs)))
    then (VercelBlob.put (filePath metaLink)
            (serializeQuads (keptQuads b qs) (contentType metaLink)) ;; ret true) w1
    else (VercelBlob.del (filePath metaLink) ;; ret false) w1.
Proof.
  intros Hm qs Ht b w1. rewrite (writeMetadataFile_steps link md w Ht).
  fold qs b w1. unfold bind at 1, await. rewrite Hm.
  now destruct (0 <? Z.of_nat (length (keptQuads b qs))).
Qed.

(** When the path is not a container path and the metadata has several
    content-type triples, the getter fails after the four removals. *)
Lemma writeMetadataFile_getter_error link md w e :
  isContainerPath (filePath link) = false ->
  qContentType (quadsAt (heap w) md) = Err e ->
  writeMetadataFile link md w
  = (Err e, setHeap (alter (updateQuads (keptQuads false)) md) w).
Proof.
  intros Hc He.
  unfold writeMetadataFile, VercelBlobDataAccessor.writeMetadataFile.
  rewrite removals_run, Hc.
  unfold metadataContentType, quads, bind, await, ret. cbn [heap setHeap].
  rewrite quadsAt_alter by reflexivity. now rewrite qContentType_keptQuads, He.
Qed.

Lemma writeMetadataFile_testable link md w r w' :
  writeMetadataFile link md w = (Ok r, w') -> testable link (quadsAt (heap w) md) = true.
Proof.
  unfold testable. destruct (isContainerPath (filePath link)) eqn:Hc; [reflexivity|].
  destruct (qContentType _) as [ct|e] eqn:He; [reflexivity|].
  rewrite (writeMetadataFile_getter_error _ _ _ _ Hc He). discriminate.
Qed.
End WriteMetadataFile.

(** ** Computations that only talk to the store *)

Lemma storeOnly_ret {A} (a : A) : storeOnly (ret a).
Proof. intros w r w' [= _ <-]. reflexivity. Qed.

Lemma storeOnly_throw {A} e : storeOnly (@throw A e).
Proof. intros w r w' [= _ <-]. reflexivity. Qed.

Lemma storeOnly_await {A} (x : Result A) : storeOnly (await x).
Proof. intros w r w' [= _ <-]. reflexivity. Qed.

Lemma storeOnly_bind {A B} (m : M A) (f : A -> M B) :
  storeOnly m -> (forall a, storeOnly (f a)) -> storeOnly (x <- m ;; f x).
Proof.
  intros Hm Hf w r w'. unfold bind. destruct (m w) as [[a|e] w1] eqn:E.
  - intros H. rewrite (Hf _ _ _ _ H). exact (Hm _ _ _ E).
  - intros [= _ <-]. exact (Hm _ _ _ E).
Qed.

Lemma storeOnly_catch {A} (m : M A) (h : Error -> M A) :
  storeOnly m -> (forall e, storeOnly (h e)) -> storeOnly (catch m h).
Proof.
  intros Hm Hh w r w'. unfold catch. destruct (m w) as [[a|e] w1] eqn:E.
  - intros [= _ <-]. exact (Hm _ _ _ E).
  - intros H. rewrite (Hh _ _ _ _ H). exact (Hm _ _ _ E).
Qed.

Lemma storeOnly_request c : storeOnly (VercelBlob.request c).
Proof.
  intros w r w'. unfold VercelBlob.request.
  destruct (faults w) as [|[e|] fs]; intros [= _ <-]; reflexivity.
Qed.

Lemma storeOnly_head k : storeOnly (VercelBlob.head k).
Proof.
  apply storeOnly_bind; [apply storeOnly_request|].
  intros _ w r w'. destruct (blobs w !! k); intros [= _ <-]; reflexivity.
Qed.

Lemma storeOnly_put k d : storeOnly (VercelBlob.put k d).
Proof.
  apply storeOnly_bind; [apply storeOnly_request|].
  intros _ w r w' [= _ <-]. reflexivity.
Qed.

Lemma storeOnly_del k : storeOnly (VercelBlob.del k).
Proof.
  apply storeOnly_bind; [apply storeOnly_request|].
  intros _ w r w' [= _ <-]. reflexivity.
Qed.

Lemma storeOnly_stat p : storeOnly (VercelApi.stat p).
Proof.
  unfold VercelApi.stat. destruct (endsWith p "/");
    (apply storeOnly_catch; [apply storeOnly_bind; [apply storeOnly_head|]|]);
    intros; (apply storeOnly_ret || apply storeOnly_throw).
Qed.

Lemma storeOnly_ensureDir p : storeOnly (VercelApi.ensureDir p).
Proof.
  apply storeOnly_catch.
  - apply storeOnly_bind; [apply storeOnly_stat|]. intros. apply storeOnly_ret.
  - intros e. destruct (isENOENT e); [apply storeOnly_put|apply storeOnly_throw].
Qed.

Lemma storeOnly_verifyExistingExtension `{FileIdentifierMapper} link :
  storeOnly (VercelBlobDataAccessor.verifyExistingExtension link).
Proof.
  apply storeOnly_bind; [apply storeOnly_await|]. intros oldLink.
  destruct (negb _); [apply storeOnly_del|apply storeOnly_ret].
Qed.

Lemma catch_inv_ok {A} (m : M A) (h : Error -> M A) w a w' :
  catch m h w = (Ok a, w') ->
  m w = (Ok a, w') \/ exists e w1, m w = (Err e, w1) /\ h e w1 = (Ok a, w').
Proof.
  unfold catch. destruct (m w) as [[a1|e] w1]; intros H; [left|right]; eauto.
Qed.

Lemma bind_throw_not_ok {A B} (m : M A) (e : Error) w (b : B) w' :
  (m ;; throw e) w <> (Ok b, w').
Proof. unfold bind, throw. destruct (m w) as [[a|e1] w1]; discriminate. Qed.

(** ** The sidecar step *)

Section Sidecar.
Context {resourceMapper : FileIdentifierMapper}.
Variable serializeQuads : list Quad -> option string -> bytes.

Let writeMetadataFile := VercelBlobDataAccessor.writeMetadataFile serializeQuads.

Lemma writeMetadataFile_run link md metaLink w :
  mapUrlToFilePath (identifier link) true None = Ok metaLink ->
  testable link (quadsAt (heap w) md) = true ->
  hd None (faults w) = None ->
  writeMetadataFile link md w
  = (Ok (wroteSidecar link md w), afterSidecar serializeQuads link metaLink md w).
Proof.
  intros Hm Ht Hq. unfold writeMetadataFile.
  rewrite (writeMetadataFile_unfold _ _ _ _ _ Hm Ht).
  unfold wroteSidecar, afterSidecar. cbv zeta.
  destruct (0 <? _).
  - erewrite bind_ok by (apply put_run; exact Hq). reflexivity.
  - erewrite bind_ok by (apply del_run; exact Hq). reflexivity.
Qed.

Lemma writeMetadataFile_inv_ok link md metaLink w r w' :
  mapUrlToFilePath (identifier link) true None = Ok metaLink ->
  writeMetadataFile link md w = (Ok r, w') ->
  hd None (faults w) = None
  /\ r = wroteSidecar link md w /\ w' = afterSidecar serializeQuads link metaLink md w.
Proof.
  intros Hm Hrun.
  pose proof (writeMetadataFile_testable serializeQuads _ _ _ _ _ Hrun) as Ht.
  revert Hrun. destruct (hd None (faults w)) as [e|] eqn:Hq.
  - unfold writeMetadataFile. rewrite (writeMetadataFile_unfold _ _ _ _ _ Hm Ht).
    cbv zeta. destruct (0 <? _).
    + erewrite bind_err by (apply put_fault; exact Hq). discriminate.
    + erewrite bind_err by (apply del_fault; exact Hq). discriminate.
  - rewrite (writeMetadataFile_run _ _ _ _ Hm Ht Hq). intros [= <- <-]. auto.
Qed.


Lemma afterSidecar_heap link metaLink md w :
  quadsAt (heap (afterSidecar serializeQuads link metaLink md w)) md
  = keptQuads (dropsContentType link (contentTypeOf (quadsAt (heap w) md)))
              (quadsAt (heap w) md).
Proof.
  unfold afterSidecar. cbv zeta. destruct (0 <? _); cbn [heap tick setBlobs advance setHeap];
    now rewrite quadsAt_alter by reflexivity.
Qed.

Lemma afterSidecar_sidecar link metaLink md w :
  content <$> blobs (afterSidecar serializeQuads link metaLink md w) !! filePath metaLink
  = match keptQuads (dropsContentType link (contentTypeOf (quadsAt (heap w) md)))
                    (quadsAt (heap w) md) with
    | [] => None
    | kept => Some (serializeQuads kept (contentType metaLink))
    end.
Proof.
  unfold afterSidecar. cbv zeta.
  destruct (keptQuads _ _) as [|q kept] eqn:E.
  - change (0 <? Z.of_nat (length (@nil Quad))) with false.
    cbn [blobs setBlobs advance setHeap]. now rewrite lookup_delete_eq.
  - replace (0 <? Z.of_nat (length (q :: kept))) with true
      by (symmetry; apply Z.ltb_lt; cbn [length]; lia).
    cbn [blobs tick setBlobs advance setHeap]. now rewrite lookup_insert_eq.
Qed.
End Sidecar.

(** ** The three write operations *)

Section Writes.
Context {resourceMapper : FileIdentifierMapper}.
Variable serializeQuads : list Quad -> option string -> bytes.

Lemma metadataContentType_run md w :
  metadataContentType md w = (qContentType (quadsAt (heap w) md), w).
Proof. reflexivity. Qed.

Lemma writeDocument_inv_ok id data md link metaLink w w' :
  mapUrlToFilePath id false (contentTypeOf (quadsAt (heap w) md)) = Ok link ->
  identifier link = id ->
  mapUrlToFilePath id true None = Ok metaLink ->
  VercelBlobDataAccessor.writeDocument serializeQuads id data md w = (Ok (), w') ->
  exists w0,
    VercelBlobDataAccessor.verifyExistingExtension link w = (Ok (), w0)
    /\ heap w0 = heap w
    /\ w' = tick (setBlobs
                    (insert (filePath link)
                       (mkBlob data (clock (afterSidecar serializeQuads link metaLink md w0))))
                    (advance (CPut (filePath link) data)
                       (afterSidecar serializeQuads link metaLink md w0))).
Proof.
  intros Hl Hid Hm. unfold VercelBlobDataAccessor.writeDocument.
  unfold bind at 1. rewrite metadataContentType_run.
  unfold contentTypeOf in Hl.
  destruct (qContentType (quadsAt (heap w) md)) as [ct|e0]; [|discriminate].
  unfold bind at 1, await. rewrite Hl.
  intros H. apply bind_inv_ok in H. destruct H as ([] & w0 & Hv & H).
  apply bind_inv_ok in H. destruct H as (wrote & w2 & Hw & H).
  rewrite <- Hid in Hm.
  apply (writeMetadataFile_inv_ok _ _ _ _ _ _ _ Hm) in Hw. destruct Hw as (_ & _ & ->).
  exists w0. split; [exact Hv|]. split; [exact (storeOnly_verifyExistingExtension _ _ _ _ Hv)|].
  apply catch_inv_ok in H. destruct H as [H|(e & w3 & _ & H)].
  - unfold VercelBlobDataAccessor.writeDataFile, VercelApi.createWriteStream in H.
    now apply put_inv_ok in H.
  - now apply bind_throw_not_ok in H.
Qed.

Lemma writeContainer_inv_ok id md link metaLink w w' :
  mapUrlToFilePath id false None = Ok link ->
  identifier link = id ->
  mapUrlToFilePath id true None = Ok metaLink ->
  VercelBlobDataAccessor.writeContainer serializeQuads id md w = (Ok (), w') ->
  exists w0,
    VercelApi.ensureDir (filePath link) w = (Ok (), w0)
    /\ heap w0 = heap w
    /\ w' = afterSidecar serializeQuads link metaLink md w0.
Proof.
  intros Hl Hid Hm. unfold VercelBlobDataAccessor.writeContainer.
  unfold bind at 1, await. rewrite Hl.
  intros H. apply bind_inv_ok in H. destruct H as ([] & w0 & Hv & H).
  apply bind_inv_ok in H. destruct H as (wrote & w2 & Hw & H).
  rewrite <- Hid in Hm.
  apply (writeMetadataFile_inv_ok _ _ _ _ _ _ _ Hm) in Hw. destruct Hw as (_ & _ & ->).
  exists w0. split; [exact Hv|]. split; [exact (storeOnly_ensureDir _ _ _ _ Hv)|].
  now injection H as <-.
Qed.

Lemma writeMetadata_inv_ok id md metaLink w w' :
  mapUrlToFilePath id true None = Ok metaLink ->
  identifier metaLink = id ->
  VercelBlobDataAccessor.writeMetadata serializeQuads id md w = (Ok (), w') ->
  w' = afterSidecar serializeQuads metaLink metaLink md w.
Proof.
  intros Hm Hid. unfold VercelBlobDataAccessor.writeMetadata.
  unfold bind at 1, await. rewrite Hm.
  intros H. apply bind_inv_ok in H. destruct H as (wrote & w2 & Hw & H).
  rewrite <- Hid in Hm.
  apply (writeMetadataFile_inv_ok _ _ _ _ _ _ _ Hm) in Hw. destruct Hw as (_ & _ & ->).
  now injection H as <-.
Qed.

Lemma keptQuads_spec (b : bool) (qs : list Quad) (q : Quad) :
  q ∈ keptQuads b qs
  <-> q ∈ qs /\ storageFact q = false
      /\ (b = true -> hasPredicate CONTENT_TYPE_TERM q = false).
Proof.
  unfold keptQuads, dropped. rewrite list_elem_of_In, List.filter_In, <- list_elem_of_In.
  destruct (storageFact q), b, (hasPredicate CONTENT_TYPE_TERM q); simpl; intuition congruence.
Qed.

(** C8, as amended.  After a successful [writeDocument], [writeContainer]
    or [writeMetadata], the sidecar holds the serialisation of exactly the
    triples of the metadata that are not resource-kind triples (LDP
    Resource, Container, BasicContainer), not [dc:modified] triples and,
    when the path is a container path or the link's content-type is the
    metadata's, not content-type triples; every other triple the caller
    hands over is stored.  When no triple is left, there is no sidecar
    object under the sidecar key. *)
Theorem sidecar_holds_filtered_triples :
  forall (op : WriteOp) (id : ResourceIdentifier) (md : nat) (w w' : World)
         (link metaLink : ResourceLink),
    linkWritten op id (contentTypeOf (quadsAt (heap w) md)) = Ok link ->
    identifier link = id ->
    mapUrlToFilePath id true None = Ok metaLink ->
    (forall data, op = WriteDocument data -> filePath metaLink <> filePath link) ->
    runWrite serializeQuads op id md w = (Ok (), w') ->
    let qs := quadsAt (heap w) md in
    let matches := dropsContentType link (contentTypeOf qs) in
    let kept := keptQuads matches qs in
    (forall q, q ∈ kept
               <-> q ∈ qs
                   /\ isTriple RDF_type LDP_Resource q = false
                   /\ isTriple RDF_type LDP_Container q = false
                   /\ isTriple RDF_type LDP_BasicContainer q = false
                   /\ hasPredicate DC_modified q = false
                   /\ (matches = true -> hasPredicate CONTENT_TYPE_TERM q = false))
    /\ content <$> blobs w' !! filePath metaLink
       = match kept with
         | [] => None
         | _ => Some (serializeQuads kept (contentType metaLink))
         end.
Proof.
  intros op id md w w' link metaLink Hl Hid Hm Hne Hrun qs matches kept. split.
  - intros q. unfold kept. rewrite keptQuads_spec. unfold storageFact.
    rewrite !orb_false_iff. tauto.
  - destruct op as [data| |]; simpl in Hl, Hrun.
    + destruct (writeDocument_inv_ok _ _ _ _ _ _ _ Hl Hid Hm Hrun) as (w0 & _ & Hh & ->).
      cbn [blobs tick setBlobs advance].
      rewrite lookup_insert_ne by (intros E; exact (Hne data eq_refl (eq_sym E))).
      rewrite afterSidecar_sidecar. rewrite Hh. fold qs matches kept.
      now destruct kept.
    + destruct (writeContainer_inv_ok _ _ _ _ _ _ Hl Hid Hm Hrun) as (w0 & _ & Hh & ->).
      rewrite afterSidecar_sidecar. rewrite Hh. fold qs matches kept.
      now destruct kept.
    + assert (link = metaLink) as -> by congruence.
      rewrite (writeMetadata_inv_ok _ _ _ _ _ Hm Hid Hrun).
      rewrite afterSidecar_sidecar. fold qs matches kept.
      now destruct kept.
Qed.


End Writes.

(** ** Keys *)

Lemma append_empty (s : string) : s +:+ "" = s.
Proof.
  induction s as [|c s IH]; [reflexivity|].
  change (String c s +:+ "") with (String c (s +:+ "")). now rewrite IH.
Qed.

Lemma append_inj (s a b : string) : s +:+ a = s +:+ b -> a = b.
Proof.
  induction s as [|c s IH]; [auto|].
  change (String c s +:+ a) with (String c (s +:+ a)).
  change (String c s +:+ b) with (String c (s +:+ b)). intros [= H]. auto.
Qed.

Lemma sidecar_key_fresh (p : string) :
  "x" +:+ (p +:+ ".meta") <> "x" +:+ p
  /\ "x" +:+ (p +:+ ".meta") <> ("x" +:+ p) +:+ FOLDER_MARKER.
Proof.
  change ("x" +:+ (p +:+ ".meta")) with (String "x" (p +:+ ".meta")).
  change ("x" +:+ p) with (String "x" p).
  change (String "x" p +:+ FOLDER_MARKER) with (String "x" (p +:+ FOLDER_MARKER)).
  split; intros [= H].
  - rewrite <- (append_empty p) in H at 2. apply append_inj in H. discriminate.
  - apply append_inj in H. discriminate.
Qed.

Lemma sidecar_key_not_probed (p : string) :
  "x" +:+ (p +:+ ".meta") <> statKey ("x" +:+ p).
Proof.
  unfold statKey. destruct (endsWith _ _); apply sidecar_key_fresh.
Qed.

(** ** The sidecar step, call by call *)

Section SidecarTrace.
Context {resourceMapper : FileIdentifierMapper}.
Variable serializeQuads : list Quad -> option string -> bytes.

Lemma afterSidecar_calls link metaLink md w :
  calls (afterSidecar serializeQuads link metaLink md w)
  = calls w ++ [sidecarCall serializeQuads link metaLink md w].
Proof.
  unfold afterSidecar, sidecarCall. cbv zeta. now destruct (0 <? _).
Qed.

Lemma afterSidecar_faults link metaLink md w :
  faults (afterSidecar serializeQuads link metaLink md w) = tail (faults w).
Proof. unfold afterSidecar. cbv zeta. now destruct (0 <? _). Qed.


End SidecarTrace.

(** ** The committed accessor, with its hardcoded mapper *)

Section FimAccessor.
Variable pathname : string -> option string.
Variable serializeQuads : list Quad -> option string -> bytes.

Let mapper : FileIdentifierMapper := fim pathname.
Existing Instance mapper.

Lemma fim_link id p ct :
  pathname (path id) = Some p -> mapUrlToFilePath id false ct = Ok (fimLink id p).
Proof.
  intros Hp. simpl. unfold fim_mapUrlToFilePath. rewrite Hp.
  unfold fimLink. now rewrite append_empty.
Qed.

Lemma fim_metaLink id p ct :
  pathname (path id) = Some p -> mapUrlToFilePath id true ct = Ok (fimMetaLink id p).
Proof. intros Hp. simpl. unfold fim_mapUrlToFilePath. now rewrite Hp. Qed.

Lemma fim_verifyExistingExtension id p w :
  pathname (path id) = Some p ->
  VercelBlobDataAccessor.verifyExistingExtension (fimLink id p) w = (Ok (), w).
Proof.
  intros Hp. unfold VercelBlobDataAccessor.verifyExistingExtension.
  erewrite bind_ok by (unfold await; cbn [identifier fimLink]; now rewrite (fim_link _ _ None Hp)).
  now rewrite String.eqb_refl.
Qed.

Lemma contentTypeOf_Ok qs ct : qContentType qs = Ok ct -> contentTypeOf qs = ct.
Proof. unfold contentTypeOf. now intros ->. Qed.

Lemma testable_Ok link qs ct : qContentType qs = Ok ct -> testable link qs = true.
Proof. unfold testable. intros ->. apply orb_true_r. Qed.

(** C1, as amended.  When the sidecar write of [writeDocument] succeeds with
    triples to store and the data write that follows fails, [writeDocument]
    asks the store to delete the sidecar key it has just written.  When the
    delete succeeds, [writeDocument] fails with the error of the data write
    and the sidecar key is absent afterwards; when the delete fails,
    [writeDocument] fails with the error of the delete and the sidecar stays.
    The calls made are the two writes and the delete, in this order. *)
Theorem writeDocument_rolls_back_sidecar :
  forall (id : ResourceIdentifier) (p : string) (data : bytes) (md : nat)
         (w : World) (ct : option string) (e : BlobError)
         (rest : list (option BlobError)),
    pathname (path id) = Some p ->
    qContentType (quadsAt (heap w) md) = Ok ct ->
    wroteSidecar (fimLink id p) md w = true ->
    faults w = None :: Some e :: rest ->
    let qs := quadsAt (heap w) md in
    let kept := keptQuads (dropsContentType (fimLink id p) ct) qs in
    let meta := "x" +:+ (p +:+ ".meta") in
    exists w',
      VercelBlobDataAccessor.writeDocument serializeQuads id data md w
      = (Err (StorageFailure (default e (hd None rest))), w')
      /\ calls w' = calls w ++ [CPut meta (serializeQuads kept None);
                                CPut ("x" +:+ p) data; CDel meta]
      /\ match hd None rest with
         | None => blobs w' !! meta = None
         | Some _ => content <$> blobs w' !! meta = Some (serializeQuads kept None)
         end.
Proof.
  intros id p data md w ct e rest Hp Hct Hwrote Hf qs kept meta.
  pose proof (contentTypeOf_Ok _ _ Hct) as Hof.
  unfold VercelBlobDataAccessor.writeDocument.
  erewrite bind_ok by (rewrite metadataContentType_run, Hct; reflexivity).
  erewrite bind_ok by (unfold await; now rewrite (fim_link _ _ _ Hp)).
  erewrite bind_ok by (now apply fim_verifyExistingExtension).
  erewrite bind_ok
    by (apply (writeMetadataFile_run serializeQuads _ _ (fimMetaLink id p));
        [cbn [identifier fimLink]; now apply fim_metaLink
        |exact (testable_Ok _ _ _ Hct) | now rewrite Hf]).
  rewrite Hwrote. unfold catch.
  unfold VercelBlobDataAccessor.writeDataFile, VercelApi.createWriteStream.
  rewrite (put_fault _ _ _ e) by (now rewrite afterSidecar_faults, Hf).
  assert (Hcalls : forall c,
    calls (advance c (advance (CPut ("x" +:+ p) data)
             (afterSidecar serializeQuads (fimLink id p) (fimMetaLink id p) md w)))
    = calls w ++ [CPut meta (serializeQuads kept None); CPut ("x" +:+ p) data; c]).
  { intros c. cbn [calls advance]. rewrite afterSidecar_calls.
    unfold sidecarCall. cbv zeta. unfold wroteSidecar in Hwrote. cbv zeta in Hwrote.
    rewrite Hwrote, Hof. rewrite <- !app_assoc. reflexivity. }
  assert (Hside :
    content <$> blobs (afterSidecar serializeQuads (fimLink id p) (fimMetaLink id p) md w)
                  !! meta = Some (serializeQuads kept None)).
  { pose proof (afterSidecar_sidecar serializeQuads (fimLink id p) (fimMetaLink id p) md w)
      as Hs. cbn [filePath contentType fimMetaLink] in Hs. fold meta in Hs.
    rewrite Hs. rewrite Hof. fold qs kept.
    unfold wroteSidecar in Hwrote. cbv zeta in Hwrote. rewrite Hof in Hwrote.
    fold qs kept in Hwrote. destruct kept; [discriminate|reflexivity]. }
  destruct (hd None rest) as [e'|] eqn:Hrest.
  - erewrite bind_err.
    2:{ erewrite bind_ok by (unfold await; now rewrite (fim_metaLink _ _ _ Hp)).
        unfold VercelApi.remove. apply (del_fault _ _ e').
        cbn [faults advance]. now rewrite afterSidecar_faults, Hf. }
    eexists. split; [reflexivity|]. split.
    + apply Hcalls.
    + cbn [blobs advance]. exact Hside.
  - erewrite bind_ok.
    2:{ erewrite bind_ok by (unfold await; now rewrite (fim_metaLink _ _ _ Hp)).
        unfold VercelApi.remove. apply del_run.
        cbn [faults advance]. now rewrite afterSidecar_faults, Hf. }
    eexists. split; [reflexivity|]. split.
    + cbn [calls setBlobs]. apply Hcalls.
    + cbn [blobs setBlobs advance]. cbn [filePath fimMetaLink]. fold meta.
      apply lookup_delete_eq.
Qed.

(** [deleteResource] in a world where the store client does not fail *)
Lemma deleteResource_run id p w :
  pathname (path id) = Some p ->
  faults w = [] ->
  let key := "x" +:+ p in
  let meta := "x" +:+ (p +:+ ".meta") in
  let w2 := advance (CHead (statKey key)) (setBlobs (delete meta) (advance (CDel meta) w)) in
  VercelBlobDataAccessor.deleteResource id w
  = if bool_decide (is_Some (blobs w !! statKey key))
       && Bool.eqb (isContainerIdentifier id) (endsWith key "/")
    then (Ok (), setBlobs (delete key) (advance (CDel key) w2))
    else (Err NotFoundHttpError, w2).
Proof.
  intros Hp Hq key meta w2. unfold VercelBlobDataAccessor.deleteResource.
  erewrite bind_ok by (unfold await; now rewrite (fim_metaLink _ _ _ Hp)).
  erewrite bind_ok by (apply del_run; now rewrite Hq).
  erewrite bind_ok by (unfold await; now rewrite (fim_link _ _ _ Hp)).
  cbn [filePath fimLink fimMetaLink]. fold key meta.
  unfold bind.
  rewrite getStats_run by (cbn [faults setBlobs advance]; now rewrite Hq).
  cbn [blobs setBlobs advance].
  rewrite lookup_delete_ne by apply sidecar_key_not_probed.
  fold w2. destruct (blobs w !! statKey key) as [b|] eqn:Hb.
  - rewrite bool_decide_eq_true_2 by eauto. unfold statsOf. fold key.
    unfold VercelApi.remove.
    destruct (isContainerIdentifier id), (endsWith key "/"); cbn [isFile isDirectory negb andb Bool.eqb];
      try reflexivity; apply del_run; unfold w2; cbn [faults setBlobs advance]; now rewrite Hq.
  - rewrite bool_decide_eq_false_2 by (intros [? ?]; discriminate). reflexivity.
Qed.

(** C5.  Without store failures, [deleteResource] deletes the sidecar key
    first, whether or not it exists, then probes the primary key once and
    deletes it when an object is found whose kind is the kind of the
    identifier (a file for a document, a directory for a container);
    otherwise it fails with [NotFoundHttpError].  With neither sidecar nor
    primary object it fails with [NotFoundHttpError] and leaves the store
    as it was, and so does the same call made again. *)
Theorem deleteResource_sidecar_first_then_primary :
  forall (id : ResourceIdentifier) (p : string) (w : World),
    pathname (path id) = Some p ->
    faults w = [] ->
    let key := "x" +:+ p in
    let meta := "x" +:+ (p +:+ ".meta") in
    let deletes := bool_decide (is_Some (blobs w !! statKey key))
                   && Bool.eqb (isContainerIdentifier id) (endsWith key "/") in
    let r := VercelBlobDataAccessor.deleteResource id w in
    fst r = (if deletes then Ok () else Err NotFoundHttpError)
    /\ blobs (snd r) = (if deletes then delete key (delete meta (blobs w))
                        else delete meta (blobs w))
    /\ calls (snd r) = calls w ++ [CDel meta; CHead (statKey key)]
                               ++ (if deletes then [CDel key] else [])
    /\ (blobs w !! meta = None -> blobs w !! statKey key = None ->
        fst r = Err NotFoundHttpError
        /\ blobs (snd r) = blobs w
        /\ fst (VercelBlobDataAccessor.deleteResource id (snd r)) = Err NotFoundHttpError
        /\ blobs (snd (VercelBlobDataAccessor.deleteResource id (snd r))) = blobs w).
Proof.
  intros id p w Hp Hq key meta deletes r.
  assert (Hr := deleteResource_run id p w Hp Hq). cbv zeta in Hr.
  fold key meta deletes r in Hr.
  repeat split.
  - rewrite Hr. now destruct deletes.
  - rewrite Hr. now destruct deletes.
  - rewrite Hr. destruct deletes; cbn [snd calls setBlobs advance];
      rewrite <- ?app_assoc; reflexivity.
  - rewrite Hr. unfold deletes. rewrite H0.
    now rewrite bool_decide_eq_false_2 by (intros [? ?]; discriminate).
  - rewrite Hr. unfold deletes. rewrite H0.
    rewrite bool_decide_eq_false_2 by (intros [? ?]; discriminate).
    cbn [andb snd blobs setBlobs advance]. now apply delete_id.
  - assert (Hr' : r = (Err NotFoundHttpError,
                       advance (CHead (statKey key))
                         (setBlobs (delete meta) (advance (CDel meta) w)))).
    { rewrite Hr. unfold deletes. rewrite H0.
      now rewrite bool_decide_eq_false_2 by (intros [? ?]; discriminate). }
    rewrite Hr'. cbn [snd].
    rewrite (deleteResource_run id p) by (trivial; cbn [faults setBlobs advance]; now rewrite Hq).
    cbn [blobs setBlobs advance]. fold key meta.
    rewrite delete_id by exact H. rewrite H0.
    now rewrite bool_decide_eq_false_2 by (intros [? ?]; discriminate).
  - assert (Hr' : r = (Err NotFoundHttpError,
                       advance (CHead (statKey key))
                         (setBlobs (delete meta) (advance (CDel meta) w)))).
    { rewrite Hr. unfold deletes. rewrite H0.
      now rewrite bool_decide_eq_false_2 by (intros [? ?]; discriminate). }
    rewrite Hr'. cbn [snd].
    rewrite (deleteResource_run id p) by (trivial; cbn [faults setBlobs advance]; now rewrite Hq).
    cbn [blobs setBlobs advance]. fold key meta.
    rewrite delete_id by exact H. rewrite H0.
    rewrite bool_decide_eq_false_2 by (intros [? ?]; discriminate).
    cbn [andb snd blobs setBlobs advance]. now rewrite !(delete_id (blobs w) meta H).
Qed.
End FimAccessor.

(** ** The content-type of a set of triples *)

Lemma qGetAll_app p l1 l2 : qGetAll p (l1 ++ l2) = qGetAll p l1 ++ qGetAll p l2.
Proof. unfold qGetAll. now rewrite List.filter_app, fmap_app. Qed.

Lemma qGetAll_qAdd_other p p' o g qs : p' <> p -> qGetAll p (qAdd p' o g qs) = qGetAll p qs.
Proof.
  intros Hp. unfold qAdd. destruct (bool_decide _); [reflexivity|].
  rewrite qGetAll_app. unfold qGetAll at 2. cbn [List.filter].
  unfold hasPredicate. cbn [predicate]. rewrite bool_decide_eq_false_2 by exact Hp.
  apply app_nil_r.
Qed.

Lemma qGetAll_qRemoveAll_other p p' qs :
  p' <> p -> qGetAll p (qRemoveAll p' qs) = qGetAll p qs.
Proof.
  intros Hp. unfold qGetAll, qRemoveAll. rewrite filter_filter_comm. f_equal.
  apply filter_id. intros q Hq. apply list_elem_of_In, List.filter_In in Hq.
  destruct Hq as [_ Hq]. unfold hasPredicate in *. apply bool_decide_eq_true in Hq.
  rewrite bool_decide_eq_false_2 by congruence. reflexivity.
Qed.

Lemma qGetAll_qRemoveAll_same p qs : qGetAll p (qRemoveAll p qs) = [].
Proof.
  unfold qGetAll, qRemoveAll. rewrite filter_filter.
  induction qs as [|q qs IH]; [reflexivity|]. cbn [List.filter].
  now destruct (hasPredicate p q).
Qed.

Lemma qGetAll_qSet_other p p' o qs : p' <> p -> qGetAll p (qSet p' o qs) = qGetAll p qs.
Proof.
  intros Hp. unfold qSet. destruct o.
  - now rewrite qGetAll_qAdd_other, qGetAll_qRemoveAll_other.
  - now apply qGetAll_qRemoveAll_other.
Qed.

Lemma not_elem_of_qRemoveAll p o g qs : mkQuad p o g ∉ qRemoveAll p qs.
Proof.
  unfold qRemoveAll. intros H. apply list_elem_of_In, List.filter_In in H.
  destruct H as [_ H]. unfold hasPredicate in H. cbn [predicate] in H.
  now rewrite bool_decide_eq_true_2 in H.
Qed.

Lemma qSet_some p o qs : qSet p (Some o) qs = qRemoveAll p qs ++ [mkQuad p o DefaultGraph].
Proof.
  unfold qSet, qAdd. now rewrite bool_decide_eq_false_2 by apply not_elem_of_qRemoveAll.
Qed.

Lemma qGetAll_qSet_same p o qs : qGetAll p (qSet p (Some o) qs) = [o].
Proof.
  rewrite qSet_some, qGetAll_app, qGetAll_qRemoveAll_same.
  unfold qGetAll. cbn [List.filter]. unfold hasPredicate. cbn [predicate].
  now rewrite bool_decide_eq_true_2.
Qed.

Lemma qGet_ext p qs qs' : qGetAll p qs' = qGetAll p qs -> qGet p qs' = qGet p qs.
Proof. intros H. unfold qGet. now rewrite H. Qed.

Lemma qGet_qAdd_other p p' o g qs : p' <> p -> qGet p (qAdd p' o g qs) = qGet p qs.
Proof. intros Hp. now apply qGet_ext, qGetAll_qAdd_other. Qed.


Lemma qGet_qSet_other p p' o qs : p' <> p -> qGet p (qSet p' o qs) = qGet p qs.
Proof. intros Hp. now apply qGet_ext, qGetAll_qSet_other. Qed.

Lemma qGet_qSet_same p o qs : qGet p (qSet p (Some o) qs) = Ok (Some o).
Proof. unfold qGet. now rewrite qGetAll_qSet_same. Qed.

Lemma qContentType_ext qs qs' :
  qGetAll CONTENT_TYPE_TERM qs' = qGetAll CONTENT_TYPE_TERM qs ->
  qContentType qs' = qContentType qs.
Proof. intros H. unfold qContentType. now rewrite (qGet_ext _ _ _ H). Qed.

Lemma qContentType_qAdd p o g qs :
  p <> CONTENT_TYPE_TERM -> qContentType (qAdd p o g qs) = qContentType qs.
Proof. intros Hp. now apply qContentType_ext, qGetAll_qAdd_other. Qed.

Lemma qContentType_qRemoveAll p qs :
  p <> CONTENT_TYPE_TERM -> qContentType (qRemoveAll p qs) = qContentType qs.
Proof. intros Hp. now apply qContentType_ext, qGetAll_qRemoveAll_other. Qed.

Lemma qContentType_qSet p o qs :
  p <> CONTENT_TYPE_TERM -> qContentType (qSet p o qs) = qContentType qs.
Proof. intros Hp. now apply qContentType_ext, qGetAll_qSet_other. Qed.

Lemma qContentType_unset qs : qContentType (qSet CONTENT_TYPE_TERM None qs) = Ok None.
Proof.
  unfold qContentType, qGet. cbn [qSet]. now rewrite qGetAll_qRemoveAll_same.
Qed.

(** [addQuads] keeps the first of equal triples, also among the triples of
    one predicate. *)
Lemma filter_qAdd (P : Quad -> bool) (q : Quad) (acc : list Quad) :
  List.filter P (qAdd (predicate q) (object q) (graph q) acc)
  = if P q then qAdd (predicate q) (object q) (graph q) (List.filter P acc)
    else List.filter P acc.
Proof.
  unfold qAdd. replace (mkQuad (predicate q) (object q) (graph q)) with q by now destruct q.
  destruct (P q) eqn:HP.
  - rewrite (bool_decide_ext (q ∈ List.filter P acc) (q ∈ acc)).
    2:{ rewrite !list_elem_of_In, List.filter_In. tauto. }
    destruct (bool_decide (q ∈ acc)); [reflexivity|].
    rewrite List.filter_app. cbn [List.filter]. now rewrite HP.
  - destruct (bool_decide (q ∈ acc)); [reflexivity|].
    rewrite List.filter_app. cbn [List.filter]. rewrite HP. apply app_nil_r.
Qed.

Lemma filter_addQuads (P : Quad -> bool) (qs acc : list Quad) :
  List.filter P (foldl (fun acc q => qAdd (predicate q) (object q) (graph q) acc) acc qs)
  = foldl (fun acc q => qAdd (predicate q) (object q) (graph q) acc)
          (List.filter P acc) (List.filter P qs).
Proof.
  revert acc. induction qs as [|q qs IH]; intros acc; [reflexivity|].
  cbn [foldl List.filter]. rewrite IH, filter_qAdd. now destruct (P q).
Qed.

Lemma qGet_addQuads p qs o :
  qGet p qs = Ok o ->
  qGet p (foldl (fun acc q => qAdd (predicate q) (object q) (graph q) acc) [] qs) = Ok o.
Proof.
  unfold qGet, qGetAll. rewrite filter_addQuads. cbn [List.filter].
  destruct (List.filter (hasPredicate p) qs) as [|q [|q' l]]; cbn [foldl fmap list_fmap].
  - auto.
  - unfold qAdd. rewrite bool_decide_eq_false_2 by apply not_elem_of_nil.
    cbn [app fmap list_fmap object]. auto.
  - discriminate.
Qed.

Lemma qContentType_addQuads qs c :
  qContentType qs = Ok c ->
  qContentType (foldl (fun acc q => qAdd (predicate q) (object q) (graph q) acc) [] qs)
  = Ok c.
Proof.
  unfold qContentType. destruct (qGet CONTENT_TYPE_TERM qs) as [o|e] eqn:E; [|discriminate].
  intros [= <-]. now rewrite (qGet_addQuads _ _ _ E).
Qed.

(** What the hardcoded mapper makes [writeMetadataFile] keep, on a document
    key: the content-type of the metadata stays in the triples. *)
Lemma kept_contentType (link : ResourceLink) (qs : list Quad) c :
  isContainerPath (filePath link) = false ->
  contentType link = None ->
  qContentType qs = Ok c ->
  qContentType (keptQuads (dropsContentType link c) qs) = Ok c.
Proof.
  intros Hc Hl E. unfold dropsContentType. rewrite Hc, Hl. cbn [orb].
  rewrite <- removals_keptQuads.
  destruct c as [c|].
  - rewrite bool_decide_eq_false_2 by discriminate.
    now rewrite qContentType_storageFacts.
  - rewrite bool_decide_eq_true_2 by reflexivity. apply qContentType_unset.
Qed.

(** ** Total correctness of heap-only steps *)

Lemma total_bind {A B} (P : World -> Prop) (m : M A) (Q : A -> World -> Prop)
    (f : A -> M B) (R : B -> World -> Prop) :
  total P m Q -> (forall a, total (Q a) (f a) R) -> total P (x <- m ;; f x) R.
Proof.
  intros Hm Hf w HP. destruct (Hm w HP) as (a & w1 & E & HQ).
  rewrite (bind_ok _ _ _ _ _ E). exact (Hf a w1 HQ).
Qed.

Lemma total_ret {A} (P : World -> Prop) (a : A) (Q : A -> World -> Prop) :
  (forall w, P w -> Q a w) -> total P (ret a) Q.
Proof. intros H w HP. exists a, w. split; [reflexivity|auto]. Qed.

Lemma total_weaken {A} (P P' : World -> Prop) (m : M A) (Q : A -> World -> Prop) :
  (forall w, P' w -> P w) -> total P m Q -> total P' m Q.
Proof. intros H Hm w HP. exact (Hm w (H w HP)). Qed.

Lemma quadsAt_alter_valid (f : list Quad -> list Quad) l h :
  (l < length h)%nat -> quadsAt (alter (updateQuads f) l h) l = f (quadsAt h l).
Proof.
  intros Hl. unfold quadsAt. rewrite list_lookup_alter_eq.
  destruct (lookup_lt_is_Some_2 h l Hl) as [o ->]. reflexivity.
Qed.

Lemma endsWith_meta (s : string) : endsWith (s +:+ ".meta") "/" = false.
Proof.
  induction s as [|c s IH]; [reflexivity|].
  change (String c s +:+ ".meta") with (String c (s +:+ ".meta")).
  cbn [endsWith]. rewrite IH.
  replace (String.eqb (String c (s +:+ ".meta")) "/") with false; [reflexivity|].
  symmetry. apply String.eqb_neq. intros [= _ H]. destruct s; discriminate.
Qed.

Lemma alter_fresh (f : RepresentationMetadata -> RepresentationMetadata)
    (h : list RepresentationMetadata) (o : RepresentationMetadata) :
  alter f (length h) (h ++ [o]) = h ++ [f o].
Proof. induction h as [|x h IH]; simpl; [reflexivity|]. now f_equal. Qed.


(** * The theorems at work on examples *)

(** C1, witness: the sidecar is written, the data write meets a service
    error, the sidecar is deleted again. *)
Lemma writeDocument_rolls_back_sidecar_witness :
  exists w',
    @VercelBlobDataAccessor.writeDocument (fim examplePathname) exampleSerialize
      exampleId (list_byte_of_string "hello") 0%nat
      (exampleWorld [] "text/plain" [None; Some (BlobServiceError "network")])
    = (Err (StorageFailure (BlobServiceError "network")), w')
    /\ blobs w' !! "x/docs/a.meta" = None.
Proof.
  pose proof (writeDocument_rolls_back_sidecar examplePathname exampleSerialize
                exampleId "/docs/a" (list_byte_of_string "hello") 0%nat
                (exampleWorld [] "text/plain" [None; Some (BlobServiceError "network")])
                (Some "text/plain") (BlobServiceError "network") []
                ltac:(vm_compute; reflexivity) ltac:(vm_compute; reflexivity)
                ltac:(vm_compute; reflexivity) eq_refl) as (w' & H1 & _ & H3).
  exists w'. split; [exact H1|exact H3].
Defined.

(** C1, counterexample: the sidecar write succeeds, the data write fails and
    so does the delete of the sidecar.  [writeDocument] fails with the error
    of the delete, not with the error of the data write, and the sidecar key
    exists afterwards. *)
Lemma writeDocument_rollback_can_fail :
  let w := exampleWorld [] "text/plain"
             [None; Some (BlobServiceError "write"); Some (BlobServiceError "delete")] in
  let r := @VercelBlobDataAccessor.writeDocument (fim examplePathname) exampleSerialize
             exampleId (list_byte_of_string "hello") 0%nat w in
  fst r = Err (StorageFailure (BlobServiceError "delete"))
  /\ fst r <> Err (StorageFailure (BlobServiceError "write"))
  /\ is_Some (blobs (snd r) !! "x/docs/a.meta")
  /\ exists sidecar,
       calls (snd r) = [CPut "x/docs/a.meta" sidecar;
                        CPut "x/docs/a" (list_byte_of_string "hello");
                        CDel "x/docs/a.meta"].
Proof.
  intros w r. split; [vm_compute; reflexivity|]. split; [vm_compute; discriminate|].
  split; vm_compute; eauto.
Qed.

(** C5, witness: a document with a sidecar is deleted, sidecar first. *)
Lemma deleteResource_sidecar_first_then_primary_witness :
  let w := exampleWorld [("x/docs/a", "hello"); ("x/docs/a.meta", "m")] "text/plain" [] in
  let r := @VercelBlobDataAccessor.deleteResource (fim examplePathname) exampleId w in
  fst r = Ok ()
  /\ calls (snd r) = [CDel "x/docs/a.meta"; CHead "x/docs/a"; CDel "x/docs/a"].
Proof.
  intros w r.
  pose proof (deleteResource_sidecar_first_then_primary examplePathname exampleId
                "/docs/a" w ltac:(vm_compute; reflexivity) eq_refl) as (H1 & _ & H3 & _).
  split; [exact H1|exact H3].
Defined.

(** C8, counterexample: the metadata [getMetadata] returns for a document
    carries the size and the modification time read from the store; handed
    back to [writeMetadata], both are written to the sidecar. *)
Lemma sidecar_persists_posix_facts :
  let w := {| blobs := storeOf [("x/docs/a", "hello")]; heap := []; faults := [];
              calls := []; clock := 1 |} in
  let readThenWrite :=
    (m <- @VercelBlobDataAccessor.getMetadata (fim examplePathname) exampleParse
            sameInstant exampleId ;;
     @VercelBlobDataAccessor.writeMetadata (fim examplePathname) exampleSerialize
       exampleId m) in
  fst (readThenWrite w) = Ok ()
  /\ (content <$> blobs (snd (readThenWrite w)) !! "x/docs/a.meta")
        ≫= (fun b => exampleParse b None "http://h/docs/a")
      = Some [mkQuad POSIX_mtime (IntLiteral 1700000000) ResponseMetadata;
              mkQuad POSIX_size (IntLiteral 5) ResponseMetadata].
Proof. split; vm_compute; reflexivity. Qed.

(** C8, witness: of the four triples of the example only the content-type
    and the title reach the sidecar. *)
Lemma sidecar_holds_filtered_triples_witness :
  let w := exampleWorld [] "text/plain" [] in
  let w' := snd (@VercelBlobDataAccessor.writeDocument (fim examplePathname)
                   exampleSerialize exampleId (list_byte_of_string "hello") 0%nat w) in
  content <$> blobs w' !! "x/docs/a.meta"
  = Some (exampleSerialize
            [mkQuad CONTENT_TYPE_TERM (Literal "text/plain") DefaultGraph;
             mkQuad (NamedNode "http://purl.org/dc/terms/title") (Literal "A") DefaultGraph]
            None).
Proof.
  intros w w'.
  pose proof (@sidecar_holds_filtered_triples (fim examplePathname) exampleSerialize
                (WriteDocument (list_byte_of_string "hello")) exampleId 0%nat w w'
                (fimLink exampleId "/docs/a") (fimMetaLink exampleId "/docs/a")
                ltac:(vm_compute; reflexivity) eq_refl ltac:(vm_compute; reflexivity)
                ltac:(intros data _; cbn; discriminate)
                ltac:(vm_compute; reflexivity)) as [_ H].
  exact H.
Defined.



(** * Further properties of the code *)

(** ** [VercelApi.ts] *)

Lemma stat_outcome (path : string) (w : World) :
  VercelApi.stat path w = (statOutcome path w, advance (CHead (statKey path)) w).
Proof.
  unfold statOutcome.
  destruct (hd None (faults w)) as [e|] eqn:Hq.
  - apply (stat_fault _ _ _ Hq).
  - rewrite (stat_run _ _ Hq). now destruct (blobs w !! statKey path).
Qed.

(** X1.  [stat] makes exactly one [head] call, on the marker key for a path
    that ends in the separator and on the path itself otherwise, and changes
    neither the store nor the metadata objects; it succeeds exactly when that
    call does not fail and finds an object, and every failure reaches the
    caller as [Error("ENOENT")]. *)
Theorem stat_single_probe :
  forall (path : string) (w : World),
    let r := VercelApi.stat path w in
    calls (snd r) = calls w ++ [CHead (statKey path)]
    /\ blobs (snd r) = blobs w
    /\ heap (snd r) = heap w
    /\ fst r = statOutcome path w
    /\ (forall e, fst r = Err e -> e = JsError "ENOENT").
Proof.
  intros path w r. unfold r. rewrite stat_outcome. cbn [fst snd calls blobs heap advance].
  repeat split. unfold statOutcome.
  destruct (hd None (faults w)); [now intros e [= <-]|].
  destruct (blobs w !! statKey path); [discriminate|now intros e [= <-]].
Qed.

Lemma append_fixed (s t : string) : s +:+ t = s -> t = "".
Proof.
  intros H. rewrite <- (append_empty s) in H at 2. exact (append_inj _ _ _ H).
Qed.

Lemma marker_key_fresh (path : string) : path +:+ FOLDER_MARKER <> path.
Proof. intros H. apply append_fixed in H. discriminate. Qed.

(** X2.  Data written under a key that does not end in the separator is
    seen by [stat] as a file whose size is the number of bytes written and
    whose modification time is the time of the upload. *)
Theorem written_object_stats_as_file :
  forall (path : string) (data : bytes) (w : World),
    endsWith path "/" = false ->
    faults w = [] ->
    exists w1,
      VercelApi.createWriteStream path data w = (Ok (), w1)
      /\ fst (VercelApi.stat path w1)
         = Ok {| isFile := true; isDirectory := false; mtime := clock w;
                 size := Z.of_nat (length data) |}.
Proof.
  intros path data w Hp Hq. eexists. split.
  - unfold VercelApi.createWriteStream. apply put_run. now rewrite Hq.
  - rewrite stat_outcome. unfold statOutcome, statKey, statsOf. rewrite Hp.
    cbn [fst faults blobs tick setBlobs advance]. rewrite Hq.
    cbn [tail hd]. now rewrite lookup_insert_eq.
Qed.

Lemma written_object_stats_as_file_witness :
  exists w1,
    VercelApi.createWriteStream "x/docs/a" (list_byte_of_string "hello") (worldOf [] [])
    = (Ok (), w1)
    /\ fst (VercelApi.stat "x/docs/a" w1)
       = Ok {| isFile := true; isDirectory := false; mtime := 1; size := 5 |}.
Proof.
  exact (written_object_stats_as_file "x/docs/a" (list_byte_of_string "hello")
           (worldOf [] []) eq_refl eq_refl).
Defined.

(** X3.  Data written under a key that ends in the separator is not seen by
    [stat]: [stat] probes the marker key of such a path, so unless a marker
    object exists the path still stats as absent although the object is
    stored. *)
Theorem object_under_container_key_is_not_seen :
  forall (path : string) (data : bytes) (w : World),
    endsWith path "/" = true ->
    faults w = [] ->
    blobs w !! (path +:+ FOLDER_MARKER) = None ->
    exists w1,
      VercelApi.createWriteStream path data w = (Ok (), w1)
      /\ is_Some (blobs w1 !! path)
      /\ fst (VercelApi.stat path w1) = Err (JsError "ENOENT").
Proof.
  intros path data w Hp Hq Hm. eexists. split; [|split].
  - unfold VercelApi.createWriteStream. apply put_run. now rewrite Hq.
  - cbn [blobs tick setBlobs advance]. rewrite lookup_insert_eq. eauto.
  - rewrite stat_outcome. unfold statOutcome, statKey. rewrite Hp.
    cbn [fst faults blobs tick setBlobs advance]. rewrite Hq. cbn [tail hd].
    rewrite lookup_insert_ne by (intros E; exact (marker_key_fresh path (eq_sym E))).
    now rewrite Hm.
Qed.

Lemma object_under_container_key_is_not_seen_witness :
  exists w1,
    VercelApi.createWriteStream "x/docs/" (list_byte_of_string "hello") (worldOf [] [])
    = (Ok (), w1)
    /\ is_Some (blobs w1 !! "x/docs/")
    /\ fst (VercelApi.stat "x/docs/" w1) = Err (JsError "ENOENT").
Proof.
  exact (object_under_container_key_is_not_seen "x/docs/" (list_byte_of_string "hello")
           (worldOf [] []) eq_refl eq_refl eq_refl).
Defined.

(** [ensureDir] when the store client does not fail *)
Lemma ensureDir_run path w :
  faults w = [] ->
  VercelApi.ensureDir path w
  = (Ok (),
     match blobs w !! statKey path with
     | Some _ => advance (CHead (statKey path)) w
     | None =>
         tick (setBlobs (insert (path +:+ FOLDER_MARKER) (mkBlob markerBytes (clock w)))
                 (advance (CPut (path +:+ FOLDER_MARKER) markerBytes)
                    (advance (CHead (statKey path)) w)))
     end).
Proof.
  intros Hq. unfold VercelApi.ensureDir, catch. unfold bind at 1.
  rewrite stat_outcome. unfold statOutcome. rewrite Hq. cbn [hd].
  destruct (blobs w !! statKey path) as [b|].
  - reflexivity.
  - change (isENOENT (JsError "ENOENT")) with true. cbv iota.
    rewrite put_run by (cbn [faults advance]; now rewrite Hq). reflexivity.
Qed.

(** X4.  Without store failures [ensureDir] on a container path makes the
    path stat as a directory, and it writes the folder marker at most once:
    a second [ensureDir] finds the marker, makes its one probe and leaves the
    store as it is. *)
Theorem ensureDir_creates_marker_once :
  forall (path : string) (w : World),
    endsWith path "/" = true ->
    faults w = [] ->
    let r1 := VercelApi.ensureDir path w in
    let r2 := VercelApi.ensureDir path (snd r1) in
    fst r1 = Ok ()
    /\ (exists t, fst (VercelApi.stat path (snd r1))
                  = Ok {| isFile := false; isDirectory := true; mtime := t; size := 0 |})
    /\ fst r2 = Ok ()
    /\ blobs (snd r2) = blobs (snd r1)
    /\ calls (snd r2) = calls (snd r1) ++ [CHead (path +:+ FOLDER_MARKER)].
Proof.
  intros path w Hp Hq r1 r2.
  assert (Hk : statKey path = path +:+ FOLDER_MARKER) by (unfold statKey; now rewrite Hp).
  assert (E1 := ensureDir_run path w Hq). fold r1 in E1. rewrite Hk in E1.
  assert (Hq1 : faults (snd r1) = []).
  { rewrite E1. destruct (blobs w !! _); cbn [snd faults tick setBlobs advance];
      now rewrite Hq. }
  assert (Hm : exists b, blobs (snd r1) !! (path +:+ FOLDER_MARKER) = Some b).
  { rewrite E1. destruct (blobs w !! _) as [b|] eqn:Hb;
      cbn [snd blobs tick setBlobs advance].
    - eauto.
    - rewrite lookup_insert_eq. eauto. }
  destruct Hm as (b & Hm).
  assert (E2 := ensureDir_run path (snd r1) Hq1). fold r2 in E2.
  rewrite Hk, Hm in E2.
  split; [now rewrite E1|]. split.
  - exists (uploadedAt b). rewrite stat_outcome. unfold statOutcome.
    rewrite Hq1, Hk, Hm. unfold statsOf. now rewrite Hp.
  - rewrite E2. auto.
Qed.

Lemma ensureDir_creates_marker_once_witness :
  let r1 := VercelApi.ensureDir "x/docs/" (worldOf [] []) in
  let r2 := VercelApi.ensureDir "x/docs/" (snd r1) in
  fst r1 = Ok () /\ fst r2 = Ok () /\ blobs (snd r2) = blobs (snd r1).
Proof.
  pose proof (ensureDir_creates_marker_once "x/docs/" (worldOf [] []) eq_refl eq_refl)
    as (H1 & _ & H2 & H3 & _).
  exact (conj H1 (conj H2 H3)).
Defined.

(** X5.  [ensureDir] takes a failed probe for absence: when the [head] call
    of its [stat] fails for any reason and the following [put] goes through,
    [ensureDir] succeeds and the folder marker is written anew, whether or
    not it existed. *)
Theorem ensureDir_rewrites_marker_after_failed_probe :
  forall (path : string) (w : World) (e : BlobError),
    hd None (faults w) = Some e ->
    hd None (tail (faults w)) = None ->
    exists w',
      VercelApi.ensureDir path w = (Ok (), w')
      /\ blobs w' !! (path +:+ FOLDER_MARKER) = Some (mkBlob markerBytes (clock w))
      /\ calls w' = calls w ++ [CHead (statKey path); CPut (path +:+ FOLDER_MARKER) markerBytes].
Proof.
  intros path w e H1 H2. unfold VercelApi.ensureDir, catch. unfold bind at 1.
  rewrite stat_outcome. unfold statOutcome. rewrite H1.
  change (isENOENT (JsError "ENOENT")) with true. cbv iota.
  rewrite put_run by exact H2. eexists. split; [reflexivity|]. split.
  - cbn [blobs tick setBlobs advance]. apply lookup_insert_eq.
  - cbn [calls tick setBlobs advance]. now rewrite <- app_assoc.
Qed.

Lemma ensureDir_rewrites_marker_after_failed_probe_witness :
  exists w',
    VercelApi.ensureDir "x/docs/"
      (worldOf [("x/docs/.FOLDER_MARKER_META_FILE", "nothing here")]
               [Some (BlobServiceError "network")])
    = (Ok (), w')
    /\ blobs w' !! "x/docs/.FOLDER_MARKER_META_FILE" = Some (mkBlob markerBytes 1).
Proof.
  pose proof (ensureDir_rewrites_marker_after_failed_probe "x/docs/"
                (worldOf [("x/docs/.FOLDER_MARKER_META_FILE", "nothing here")]
                         [Some (BlobServiceError "network")])
                (BlobServiceError "network") eq_refl eq_refl) as (w' & H1 & H2 & _).
  exists w'. exact (conj H1 H2).
Defined.

(** ** [VercelBlobDataAccessor.ts]: reading *)

Lemma getStats_single_probe path w :
  VercelBlobDataAccessor.getStats path w
  = (match statOutcome path w with
     | Ok s => Ok s
     | Err _ => Err NotFoundHttpError
     end, advance (CHead (statKey path)) w).
Proof.
  unfold VercelBlobDataAccessor.getStats, catch. rewrite stat_outcome.
  unfold statOutcome. destruct (hd None (faults w)); [reflexivity|].
  now destruct (blobs w !! statKey path).
Qed.

Section Reading.
Context {resourceMapper : FileIdentifierMapper}.
Variable parseQuads : bytes -> option string -> string -> option (list Quad).
Variable lastModified : Z -> Z.

(** X6.  [getData] returns the content of the object under the key of the
    identifier when that key does not end in the separator and the object
    exists; for a key that ends in the separator, whatever the store holds,
    and for a missing object it fails with [NotFoundHttpError].  It never
    changes the store. *)
Theorem getData_reads_document_keys_only :
  forall (id : ResourceIdentifier) (link : ResourceLink) (w : World),
    mapUrlToFilePath id false None = Ok link ->
    faults w = [] ->
    let r := VercelBlobDataAccessor.getData id w in
    fst r = (if endsWith (filePath link) "/" then Err NotFoundHttpError
             else match blobs w !! filePath link with
                  | Some b => Ok (content b)
                  | None => Err NotFoundHttpError
                  end)
    /\ blobs (snd r) = blobs w.
Proof.
  intros id link w Hl Hq r.
  assert (E : exists w',
             r = (if endsWith (filePath link) "/" then Err NotFoundHttpError
                  else match blobs w !! filePath link with
                       | Some b => Ok (content b)
                       | None => Err NotFoundHttpError
                       end, w')
             /\ blobs w' = blobs w).
  { unfold r, VercelBlobDataAccessor.getData.
    erewrite bind_ok by (unfold await; now rewrite Hl).
    unfold bind at 1. rewrite getStats_single_probe. unfold statOutcome, statKey, statsOf.
    rewrite Hq. cbn [hd].
    destruct (endsWith (filePath link) "/") eqn:Hp.
    - destruct (blobs w !! _); cbn [isFile]; eexists; split; reflexivity.
    - destruct (blobs w !! filePath link) as [b|] eqn:Hb;
        [|eexists; split; reflexivity].
      cbn [isFile]. unfold VercelApi.createReadStream.
      erewrite bind_ok
        by (rewrite head_run by (cbn [faults advance]; now rewrite Hq);
            cbn [blobs advance]; now rewrite Hb).
      cbn [hb_url headOf].
      rewrite fetch_run by (cbn [faults advance]; now rewrite Hq).
      cbn [blobs advance]. rewrite Hb. eexists. split; reflexivity. }
  destruct E as (w' & -> & Hb). split; [reflexivity|exact Hb].
Qed.

(** X7.  [getMetadata] fails with [NotFoundHttpError] whenever the kind of
    the identifier and the kind of its key differ (a document identifier
    whose key ends in the separator, or a container identifier whose key does
    not), after its single probe and whatever the store holds or answers. *)
Theorem getMetadata_kind_mismatch_is_NotFound :
  forall (id : ResourceIdentifier) (link : ResourceLink) (w : World),
    mapUrlToFilePath id false None = Ok link ->
    isContainerIdentifier id <> endsWith (filePath link) "/" ->
    VercelBlobDataAccessor.getMetadata parseQuads lastModified id w
    = (Err NotFoundHttpError, advance (CHead (statKey (filePath link))) w).
Proof.
  intros id link w Hl Hk. unfold VercelBlobDataAccessor.getMetadata.
  erewrite bind_ok by (unfold await; now rewrite Hl).
  unfold bind at 1. rewrite getStats_single_probe. unfold statOutcome, statsOf.
  destruct (hd None (faults w)); [reflexivity|].
  destruct (blobs w !! _); [|reflexivity].
  destruct (isContainerIdentifier id), (endsWith (filePath link) "/");
    try reflexivity; congruence.
Qed.
End Reading.

Lemma getData_reads_document_keys_only_witness :
  let w := worldOf [("x/docs/a", "hello")] [] in
  fst (@VercelBlobDataAccessor.getData (fim examplePathname) exampleId w)
  = Ok (list_byte_of_string "hello").
Proof.
  intros w.
  pose proof (@getData_reads_document_keys_only (fim examplePathname) exampleId
                (fimLink exampleId "/docs/a") w ltac:(vm_compute; reflexivity) eq_refl)
    as [H _].
  rewrite H. vm_compute. reflexivity.
Defined.

Lemma getMetadata_kind_mismatch_is_NotFound_witness :
  let id := mkId "http://h/docs/?page=2" in
  let w := worldOf [("x/docs/.FOLDER_MARKER_META_FILE", "nothing here")] [] in
  fst (@VercelBlobDataAccessor.getMetadata (fim queryPathname) exampleParse sameInstant id w)
  = Err NotFoundHttpError.
Proof.
  intros id w.
  rewrite (@getMetadata_kind_mismatch_is_NotFound (fim queryPathname) exampleParse sameInstant id
             (fimLink id "/docs/") w
             ltac:(vm_compute; reflexivity) ltac:(vm_compute; discriminate)).
  reflexivity.
Defined.

(** ** Triples of a metadata object, step by step *)

Lemma totalP_mutate (P Q : list Quad -> Prop) l w0 (f : list Quad -> list Quad) :
  (forall qs, P qs -> Q (f qs)) ->
  total (holdsP P l w0) (mutate l f) (fun _ => holdsP Q l w0).
Proof.
  intros Hf w (Hl & HP & Hb & Hq). exists (), (setHeap (alter (updateQuads f) l) w).
  split; [reflexivity|]. unfold holdsP. cbn [heap blobs faults setHeap].
  rewrite length_alter, quadsAt_alter_valid by exact Hl. auto.
Qed.

Lemma totalP_read {A} (P : list Quad -> Prop) l w0 (g : list Quad -> A) :
  total (holdsP P l w0) (qs <- quads l ;; ret (g qs))
        (fun a w => holdsP (fun qs => P qs /\ a = g qs) l w0 w).
Proof.
  intros w (Hl & HP & Hb & Hq). exists (g (quadsAt (heap w) l)), w.
  split; [reflexivity|]. unfold holdsP. auto.
Qed.

Lemma totalP_ret {A} (P Q : list Quad -> Prop) l w0 (a : A) :
  (forall qs, P qs -> Q qs) -> total (holdsP P l w0) (ret a) (fun _ => holdsP Q l w0).
Proof.
  intros H. apply total_ret. intros w (Hl & HP & Hb & Hq). unfold holdsP. auto.
Qed.






(** The steps on a metadata object leave the client alone. *)
Lemma heapOnly_mutate l f w r w' : mutate l f w = (r, w') -> calls w' = calls w.
Proof. unfold mutate. now intros [= _ <-]. Qed.

Lemma heapOnly_addResourceMetadata l c w r w' :
  addResourceMetadata l c w = (r, w') -> calls w' = calls w.
Proof.
  unfold addResourceMetadata, metadataAdd, mutate, bind, ret.
  destruct c; now intros [= _ <-].
Qed.

Lemma heapOnly_addPosixMetadata lastModified l stats w r w' :
  VercelBlobDataAccessor.addPosixMetadata lastModified l stats w = (r, w') ->
  calls w' = calls w.
Proof.
  unfold VercelBlobDataAccessor.addPosixMetadata, metadataGet, metadataAdd,
    updateModifiedDate, metadataSet, mutate, quads, bind, ret, await.
  destruct (qGet DC_modified (quadsAt (heap w) l)) as [m|e]; [|now intros [= _ <-]].
  destruct (match match m with Some t => termTime t | None => Some 0 end with
            | Some t => t <? mtime stats | None => false end);
    destruct (negb (isDirectory stats)); now intros [= _ <-].
Qed.

Lemma totalP_get {A} (P : list Quad -> Prop) l w0 (g : list Quad -> Result A) (a : A) :
  (forall qs, P qs -> g qs = Ok a) ->
  total (holdsP P l w0) (qs <- quads l ;; await (g qs))
        (fun a' w => a' = a /\ holdsP P l w0 w).
Proof.
  intros Hg w (Hl & HP & Hb & Hq). exists a, w.
  unfold bind, quads, await. rewrite (Hg _ HP).
  split; [reflexivity|]. unfold holdsP. auto.
Qed.

Lemma totalP_mutate_eq qs0 l w0 (f : list Quad -> list Quad) :
  total (holdsP (eq qs0) l w0) (mutate l f) (fun _ => holdsP (eq (f qs0)) l w0).
Proof. apply totalP_mutate. now intros qs <-. Qed.

Lemma total_addResourceMetadata_exact l w0 isContainer qs0 :
  total (holdsP (eq qs0) l w0) (addResourceMetadata l isContainer)
        (fun _ => holdsP (eq (withResourceTypes isContainer qs0)) l w0).
Proof.
  unfold addResourceMetadata, metadataAdd, withResourceTypes.
  eapply total_bind with
    (Q := fun _ => holdsP (eq (if isContainer
                                then qAdd RDF_type LDP_BasicContainer DefaultGraph
                                       (qAdd RDF_type LDP_Container DefaultGraph qs0)
                                else qs0)) l w0).
  - destruct isContainer.
    + eapply total_bind; [apply totalP_mutate_eq|].
      intros ?. apply totalP_mutate_eq.
    + apply totalP_ret. auto.
  - intros ?. apply totalP_mutate_eq.
Qed.

Lemma total_addPosixMetadata_exact lastModified l w0 stats qs0 o :
  qGet DC_modified qs0 = Ok o ->
  total (holdsP (eq qs0) l w0) (VercelBlobDataAccessor.addPosixMetadata lastModified l stats)
        (fun _ => holdsP (eq (withPosixFacts lastModified stats qs0)) l w0).
Proof.
  intros Ho.
  unfold VercelBlobDataAccessor.addPosixMetadata, metadataGet, metadataAdd, withPosixFacts.
  rewrite Ho.
  eapply total_bind;
    [apply (totalP_get (eq qs0) l w0 (qGet DC_modified) o); now intros qs <-|].
  intros m. cbv zeta.
  set (q1 := if match match o with Some t => termTime t | None => Some 0 end with
                | Some t => t <? mtime stats | None => false end
             then qSet DC_modified (Some (DateLiteral (lastModified (mtime stats)))) qs0
             else qs0).
  eapply total_bind with (Q := fun _ => holdsP (eq q1) l w0).
  - intros w (-> & H0). unfold q1.
    destruct (match match o with Some t => termTime t | None => Some 0 end with
              | Some t => t <? mtime stats | None => false end).
    + unfold updateModifiedDate, metadataSet.
      exact (totalP_mutate_eq _ l w0 _ w H0).
    + exists (), w. split; [reflexivity|]. exact H0.
  - intros ?. eapply total_bind; [apply totalP_mutate_eq|].
    intros ?. destruct (negb (isDirectory stats)).
    + apply totalP_mutate_eq.
    + apply totalP_ret. auto.
Qed.

(** ** What [getMetadata] returns *)

Lemma liveQuads_spec lastModified path b :
  withPosixFacts lastModified (statsOf path b) (withResourceTypes (endsWith path "/") [])
  = liveQuads lastModified (endsWith path "/") (uploadedAt b) (blobSize b).
Proof.
  unfold statsOf, liveQuads, withPosixFacts.
  destruct (endsWith path "/"); cbn [mtime size isDirectory negb];
    change (qGet DC_modified (withResourceTypes _ [])) with (Ok (@None Term));
    cbv iota; destruct (0 <? uploadedAt b); reflexivity.
Qed.

Lemma liveQuads_no_contentType lastModified c t sz :
  qSet CONTENT_TYPE_TERM None (liveQuads lastModified c t sz) = liveQuads lastModified c t sz
  /\ qContentType (liveQuads lastModified c t sz) = Ok None.
Proof. unfold liveQuads. destruct c, (0 <? t); split; reflexivity. Qed.

Lemma qGet_withResourceTypes c qs :
  qGet DC_modified (withResourceTypes c qs) = qGet DC_modified qs.
Proof.
  unfold withResourceTypes. rewrite qGet_qAdd_other by discriminate.
  destruct c; [|reflexivity]. now rewrite !qGet_qAdd_other by discriminate.
Qed.





Lemma qContentType_withResourceTypes c qs :
  qContentType (withResourceTypes c qs) = qContentType qs.
Proof.
  unfold withResourceTypes. rewrite qContentType_qAdd by discriminate.
  destruct c; [|reflexivity]. now rewrite !qContentType_qAdd by discriminate.
Qed.

Lemma qContentType_withPosixFacts lastModified stats qs :
  qContentType (withPosixFacts lastModified stats qs) = qContentType qs.
Proof.
  unfold withPosixFacts. cbv zeta.
  destruct (negb (isDirectory stats));
    rewrite !qContentType_qAdd by discriminate;
    destruct (match _ with Some t => t <? mtime stats | None => false end);
    try reflexivity; now rewrite qContentType_qSet by discriminate.
Qed.

Section MetadataAssembly.
Context {resourceMapper : FileIdentifierMapper}.
Variable parseQuads : bytes -> option string -> string -> option (list Quad).
Variable lastModified : Z -> Z.

Lemma getBaseMetadata_from_raw link stats isContainer w w0 m w1 raw o :
  VercelBlobDataAccessor.getRawMetadata parseQuads lastModified (identifier link) w
  = (Ok m, w1) ->
  holdsP (eq raw) m w0 w1 ->
  qGet DC_modified raw = Ok o ->
  exists w',
    VercelBlobDataAccessor.getBaseMetadata parseQuads lastModified link stats isContainer w
    = (Ok m, w')
    /\ holdsP (eq (withPosixFacts lastModified stats (withResourceTypes isContainer raw)))
              m w0 w'
    /\ calls w' = calls w1.
Proof.
  intros E1 H1 Ho. unfold VercelBlobDataAccessor.getBaseMetadata.
  rewrite (bind_ok _ _ _ _ _ E1).
  destruct (total_addResourceMetadata_exact m w0 isContainer raw w1 H1)
    as ([] & w2 & E2 & H2).
  rewrite (bind_ok _ _ _ _ _ E2).
  assert (Ho' : qGet DC_modified (withResourceTypes isContainer raw) = Ok o)
    by now rewrite qGet_withResourceTypes.
  destruct (total_addPosixMetadata_exact lastModified m w0 stats _ o Ho' w2 H2)
    as ([] & w3 & E3 & H3).
  rewrite (bind_ok _ _ _ _ _ E3). exists w3. split; [reflexivity|]. split; [exact H3|].
  rewrite (heapOnly_addPosixMetadata _ _ _ _ _ _ E3).
  now rewrite (heapOnly_addResourceMetadata _ _ _ _ _ E2).
Qed.

Lemma getFileMetadata_from_raw link stats w w0 m w1 raw o c :
  VercelBlobDataAccessor.getRawMetadata parseQuads lastModified (identifier link) w
  = (Ok m, w1) ->
  holdsP (eq raw) m w0 w1 ->
  qGet DC_modified raw = Ok o ->
  qContentType raw = Ok c ->
  exists w',
    VercelBlobDataAccessor.getFileMetadata parseQuads lastModified link stats w = (Ok m, w')
    /\ holdsP (eq (let qs := withPosixFacts lastModified stats
                               (withResourceTypes false raw) in
                   match c with
                   | None => qSet CONTENT_TYPE_TERM (stringObject (contentType link)) qs
                   | Some _ => qs
                   end)) m w0 w'
    /\ calls w' = calls w1.
Proof.
  intros E0 H0 Ho Hc. unfold VercelBlobDataAccessor.getFileMetadata.
  destruct (getBaseMetadata_from_raw link stats false w w0 m w1 raw o E0 H0 Ho)
    as (w2 & E1 & H1 & C1).
  rewrite (bind_ok _ _ _ _ _ E1). unfold metadataContentType.
  assert (Hg : forall qs,
            withPosixFacts lastModified stats (withResourceTypes false raw) = qs ->
            qContentType qs = Ok c).
  { intros qs <-.
    now rewrite qContentType_withPosixFacts, qContentType_withResourceTypes. }
  destruct (totalP_get _ m w0 qContentType c Hg w2 H1) as (ct & w3 & E2 & -> & H2).
  rewrite (bind_ok _ _ _ _ _ E2).
  assert (C2 : w3 = w2)
    by (unfold quads, bind, await in E2;
        destruct (qContentType (quadsAt (heap w2) m)); congruence).
  subst w3. cbv zeta. destruct c.
  - erewrite bind_ok by reflexivity. eauto.
  - unfold metadataSet.
    destruct (totalP_mutate_eq _ m w0
                (qSet CONTENT_TYPE_TERM (stringObject (contentType link))) w2 H2)
      as ([] & w4 & E4 & H4).
    rewrite (bind_ok _ _ _ _ _ E4). exists w4. split; [reflexivity|].
    split; [exact H4|]. unfold mutate in E4. injection E4 as <-. now rewrite <- C1.
Qed.
End MetadataAssembly.

Section FimMetadata.
Variable pathname : string -> option string.
Variable parseQuads : bytes -> option string -> string -> option (list Quad).
Variable lastModified : Z -> Z.

Let mapper : FileIdentifierMapper := fim pathname.
Existing Instance mapper.

Lemma getRawMetadata_exact id p w raw :
  pathname (path id) = Some p ->
  faults w = [] ->
  match blobs w !! ("x" +:+ (p +:+ ".meta")) with
  | None => raw = []
  | Some b => exists kept, parseQuads (content b) None (path id) = Some kept
                           /\ raw = rawQuads lastModified (uploadedAt b) kept
  end ->
  exists m w', VercelBlobDataAccessor.getRawMetadata parseQuads lastModified id w = (Ok m, w')
               /\ holdsP (eq raw) m w w'.
Proof.
  intros Hp Hq Hside. unfold VercelBlobDataAccessor.getRawMetadata, catch.
  erewrite bind_ok by (unfold await; now rewrite (fim_metaLink _ _ _ _ Hp)).
  cbn [filePath contentType fimMetaLink]. unfold VercelApi.lstat.
  unfold bind at 1. rewrite stat_run by (now rewrite Hq).
  assert (Hk : statKey ("x" +:+ (p +:+ ".meta")) = "x" +:+ (p +:+ ".meta")).
  { unfold statKey.
    change ("x" +:+ (p +:+ ".meta")) with (("x" +:+ p) +:+ ".meta").
    now rewrite endsWith_meta. }
  rewrite Hk. destruct (blobs w !! ("x" +:+ (p +:+ ".meta"))) as [b|] eqn:Hb.
  - destruct Hside as (kept & Hparse & ->).
    set (w1 := advance (CHead ("x" +:+ (p +:+ ".meta"))) w).
    assert (Hread : VercelApi.createReadStream ("x" +:+ (p +:+ ".meta")) w1
                    = (Ok (content b),
                       advance (CFetch ("x" +:+ (p +:+ ".meta")))
                         (advance (CHead ("x" +:+ (p +:+ ".meta"))) w1))).
    { unfold VercelApi.createReadStream.
      erewrite bind_ok
        by (rewrite head_run by (unfold w1; cbn [faults advance]; now rewrite Hq);
            unfold w1; cbn [blobs advance]; now rewrite Hb).
      cbn [hb_url headOf].
      rewrite fetch_run by (unfold w1; cbn [faults advance]; now rewrite Hq).
      unfold w1. cbn [blobs advance]. now rewrite Hb. }
    rewrite (bind_ok _ _ _ _ _ Hread). rewrite Hparse.
    set (w3 := advance _ (advance _ w1)).
    set (m := length (heap w3)).
    set (w4 := setHeap (fun h => h ++ [mkMeta id (addAll kept)]) w3).
    assert (H4 : holdsP (eq (addAll kept)) m w w4).
    { unfold holdsP, w4, m. cbn [heap blobs faults setHeap]. rewrite length_app.
      cbn [length]. split; [lia|]. split.
      - unfold quadsAt. rewrite lookup_app_r by lia. now rewrite Nat.sub_diag.
      - unfold w3, w1. cbn [blobs faults advance]. rewrite Hq. auto. }
    erewrite bind_ok by reflexivity. fold m.
    assert (E4 : metadataAddQuads m kept
                   (setHeap (fun h => h ++ [mkMeta id []]) w3) = (Ok (), w4)).
    { unfold metadataAddQuads, mutate, w4. rewrite setHeap_setHeap. f_equal.
      apply setHeap_ext. unfold m. exact (alter_fresh _ _ _). }
    rewrite (bind_ok _ _ _ _ _ E4).
    unfold updateModifiedDate, metadataSet.
    destruct (totalP_mutate_eq (addAll kept) m w
                (qSet DC_modified
                   (Some (DateLiteral
                      (lastModified (mtime (statsOf ("x" +:+ (p +:+ ".meta")) b))))))
                w4 H4) as ([] & w5 & E5 & H5).
    rewrite (bind_ok _ _ _ _ _ E5). exists m, w5. split; [reflexivity|].
    replace (mtime (statsOf ("x" +:+ (p +:+ ".meta")) b)) with (uploadedAt b) in H5
      by (unfold statsOf; now destruct (endsWith _ "/")).
    exact H5.
  - subst raw. change (isENOENT (JsError "ENOENT")) with true. cbn [negb].
    exists (length (heap w)),
           (setHeap (fun h => h ++ [mkMeta id []])
              (advance (CHead ("x" +:+ (p +:+ ".meta"))) w)).
    split; [reflexivity|]. unfold holdsP. cbn [heap blobs faults setHeap advance].
    rewrite length_app. cbn [length]. split; [lia|]. split.
    + unfold quadsAt. rewrite lookup_app_r by lia. now rewrite Nat.sub_diag.
    + rewrite Hq. auto.
Qed.

Lemma raw_modified (o : option Blob) (id : ResourceIdentifier) (raw : list Quad) :
  match o with
  | None => raw = []
  | Some b => exists kept, parseQuads (content b) None (path id) = Some kept
                           /\ raw = rawQuads lastModified (uploadedAt b) kept
  end ->
  exists t, qGet DC_modified raw = Ok t.
Proof.
  destruct o as [b|].
  - intros (kept & _ & ->). unfold rawQuads. rewrite qGet_qSet_same. eauto.
  - intros ->. now exists None.
Qed.

Lemma getFileMetadata_exact id p stats w raw c :
  pathname (path id) = Some p ->
  faults w = [] ->
  match blobs w !! ("x" +:+ (p +:+ ".meta")) with
  | None => raw = []
  | Some b => exists kept, parseQuads (content b) None (path id) = Some kept
                           /\ raw = rawQuads lastModified (uploadedAt b) kept
  end ->
  qContentType raw = Ok c ->
  exists m w',
    VercelBlobDataAccessor.getFileMetadata parseQuads lastModified (fimLink id p) stats w
    = (Ok m, w')
    /\ holdsP (eq (let qs := withPosixFacts lastModified stats
                               (withResourceTypes false raw) in
                   match c with
                   | None => qSet CONTENT_TYPE_TERM None qs
                   | Some _ => qs
                   end)) m w w'.
Proof.
  intros Hp Hq Hside Hc.
  destruct (raw_modified _ _ _ Hside) as (t & Ht).
  destruct (getRawMetadata_exact id p w raw Hp Hq Hside) as (m & w1 & E1 & H1).
  destruct (getFileMetadata_from_raw parseQuads lastModified (fimLink id p) stats
              w w m w1 raw t c E1 H1 Ht Hc) as (w' & E & H & _).
  eauto.
Qed.

Lemma getBaseMetadata_exact id p stats isContainer w raw :
  pathname (path id) = Some p ->
  faults w = [] ->
  match blobs w !! ("x" +:+ (p +:+ ".meta")) with
  | None => raw = []
  | Some b => exists kept, parseQuads (content b) None (path id) = Some kept
                           /\ raw = rawQuads lastModified (uploadedAt b) kept
  end ->
  exists m w',
    VercelBlobDataAccessor.getBaseMetadata parseQuads lastModified (fimLink id p) stats
      isContainer w
    = (Ok m, w')
    /\ holdsP (eq (withPosixFacts lastModified stats (withResourceTypes isContainer raw)))
              m w w'.
Proof.
  intros Hp Hq Hside.
  destruct (raw_modified _ _ _ Hside) as (t & Ht).
  destruct (getRawMetadata_exact id p w raw Hp Hq Hside) as (m & w1 & E1 & H1).
  destruct (getBaseMetadata_from_raw parseQuads lastModified (fimLink id p) stats
              isContainer w w m w1 raw t E1 H1 Ht) as (w' & E & H & _).
  eauto.
Qed.

(** X8.  For a resource that has no sidecar, [getMetadata] returns exactly
    the triples built from what the store reports: the resource types, the
    modification date the library records for the upload time (only when
    the upload time is positive), and the posix facts; no content-type
    triple.  The store is left unchanged. *)
Theorem getMetadata_without_sidecar :
  forall (id : ResourceIdentifier) (p : string) (b : Blob) (w : World),
    pathname (path id) = Some p ->
    faults w = [] ->
    isContainerIdentifier id = endsWith ("x" +:+ p) "/" ->
    blobs w !! statKey ("x" +:+ p) = Some b ->
    blobs w !! ("x" +:+ (p +:+ ".meta")) = None ->
    exists m w',
      VercelBlobDataAccessor.getMetadata parseQuads lastModified id w = (Ok m, w')
      /\ quadsAt (heap w') m
         = liveQuads lastModified (isContainerIdentifier id) (uploadedAt b) (blobSize b)
      /\ blobs w' = blobs w.
Proof.
  intros id p b w Hp Hq Hkind Hb Hm. unfold VercelBlobDataAccessor.getMetadata.
  erewrite bind_ok by (unfold await; now rewrite (fim_link _ _ _ _ Hp)).
  cbn [filePath fimLink].
  erewrite bind_ok by (rewrite getStats_run by (now rewrite Hq); now rewrite Hb).
  set (w1 := advance _ w).
  assert (Hq1 : faults w1 = []) by (unfold w1; cbn [faults advance]; now rewrite Hq).
  assert (Hs : match blobs w1 !! ("x" +:+ (p +:+ ".meta")) with
               | None => @nil Quad = []
               | Some b0 => exists kept,
                   parseQuads (content b0) None (path id) = Some kept
                   /\ @nil Quad = rawQuads lastModified (uploadedAt b0) kept
               end).
  { unfold w1. cbn [blobs advance]. now rewrite Hm. }
  assert (Hfile : isFile (statsOf ("x" +:+ p) b) = negb (endsWith ("x" +:+ p) "/"))
    by (unfold statsOf; now destruct (endsWith _ "/")).
  assert (Hdir : isDirectory (statsOf ("x" +:+ p) b) = endsWith ("x" +:+ p) "/")
    by (unfold statsOf; now destruct (endsWith _ "/")).
  rewrite Hkind, Hfile, Hdir.
  destruct (endsWith ("x" +:+ p) "/") eqn:Hc; cbn [negb andb].
  - unfold VercelBlobDataAccessor.getDirectoryMetadata.
    destruct (getBaseMetadata_exact id p (statsOf ("x" +:+ p) b) true w1 [] Hp Hq1 Hs)
      as (m & w' & E & (Hl & Hqs & Hbl & Hf)).
    exists m, w'. split; [exact E|]. split; [|exact Hbl].
    rewrite <- Hqs. pose proof (liveQuads_spec lastModified ("x" +:+ p) b) as L.
    rewrite Hc in L. exact L.
  - destruct (getFileMetadata_exact id p (statsOf ("x" +:+ p) b) w1 [] None Hp Hq1 Hs
                eq_refl)
      as (m & w' & E & (Hl & Hqs & Hbl & Hf)).
    exists m, w'. split; [exact E|]. split; [|exact Hbl].
    rewrite <- Hqs. cbv zeta. pose proof (liveQuads_spec lastModified ("x" +:+ p) b) as L.
    rewrite Hc in L. rewrite L.
    now destruct (liveQuads_no_contentType lastModified false (uploadedAt b) (blobSize b)).
Qed.


End FimMetadata.

(** X8, at work: a document without a sidecar. *)
Lemma getMetadata_without_sidecar_witness :
  let w := worldOf [("x/docs/a", "hello")] [] in
  exists m w',
    @VercelBlobDataAccessor.getMetadata (fim examplePathname) exampleParse sameInstant
      exampleId w
    = (Ok m, w')
    /\ quadsAt (heap w') m = liveQuads sameInstant false 1700000000000 5
    /\ blobs w' = blobs w.
Proof.
  intros w.
  exact (getMetadata_without_sidecar examplePathname exampleParse sameInstant exampleId
           "/docs/a" (mkBlob (list_byte_of_string "hello") 1700000000000) w
           ltac:(vm_compute; reflexivity) eq_refl ltac:(vm_compute; reflexivity)
           ltac:(vm_compute; reflexivity) ltac:(vm_compute; reflexivity)).
Defined.


(** ** Reading back what [writeDocument] wrote *)

Section FimRoundTrip.
Variable pathname : string -> option string.
Variable serializeQuads : list Quad -> option string -> bytes.
Variable parseQuads : bytes -> option string -> string -> option (list Quad).
Variable lastModified : Z -> Z.

Let mapper : FileIdentifierMapper := fim pathname.
Existing Instance mapper.

Lemma writeDocument_ok_contentType id data md w w1 :
  VercelBlobDataAccessor.writeDocument serializeQuads id data md w = (Ok (), w1) ->
  exists ct, qContentType (quadsAt (heap w) md) = Ok ct.
Proof.
  unfold VercelBlobDataAccessor.writeDocument. unfold bind at 1.
  rewrite metadataContentType_run.
  destruct (qContentType (quadsAt (heap w) md)) as [ct|e]; [eauto|discriminate].
Qed.

(** C2, as amended.  After a successful [writeDocument] of a document whose
    storage key does not end in the separator, and with a store client that
    does not fail, [getData] returns exactly the bytes that were written and
    [getMetadata] returns a metadata object with the content-type the
    metadata had when it was written.  The codec is assumed to read back the
    triples it wrote to the sidecar. *)
Theorem writeDocument_then_read_back :
  forall (id : ResourceIdentifier) (p : string) (data : bytes) (md : nat)
         (w w1 : World),
    pathname (path id) = Some p ->
    isContainerIdentifier id = false ->
    endsWith ("x" +:+ p) "/" = false ->
    (let qs := quadsAt (heap w) md in
     let kept := keptQuads (dropsContentType (fimLink id p) (contentTypeOf qs)) qs in
     kept <> [] -> parseQuads (serializeQuads kept None) None (path id) = Some kept) ->
    VercelBlobDataAccessor.writeDocument serializeQuads id data md w = (Ok (), w1) ->
    faults w1 = [] ->
    exists w2 m w3 ct,
      VercelBlobDataAccessor.getData id w1 = (Ok data, w2)
      /\ VercelBlobDataAccessor.getMetadata parseQuads lastModified id w2 = (Ok m, w3)
      /\ qContentType (quadsAt (heap w) md) = Ok ct
      /\ qContentType (quadsAt (heap w3) m) = Ok ct.
Proof.
  intros id p data md w w1 Hp Hdoc Hkey Hcodec Hrun Hq.
  destruct (writeDocument_ok_contentType _ _ _ _ _ Hrun) as (ct & Hct).
  pose proof (contentTypeOf_Ok _ _ Hct) as Hof.
  set (key := "x" +:+ p) in *. set (meta := "x" +:+ (p +:+ ".meta")).
  destruct (writeDocument_inv_ok serializeQuads id data md (fimLink id p)
              (fimMetaLink id p) w w1 (fim_link pathname _ _ _ Hp) eq_refl
              (fim_metaLink pathname _ _ _ Hp) Hrun) as (w0 & Hv & _ & Hw1).
  rewrite (fim_verifyExistingExtension pathname _ _ _ Hp) in Hv.
  injection Hv as <-. cbn [filePath contentType fimLink fimMetaLink] in Hw1.
  fold key meta in Hw1.
  cbv zeta in Hcodec. rewrite Hof in Hcodec.
  pose proof (afterSidecar_sidecar serializeQuads (fimLink id p) (fimMetaLink id p) md w)
    as Hs.
  cbn [filePath contentType fimMetaLink] in Hs. fold meta in Hs. rewrite Hof in Hs.
  set (qs := quadsAt (heap w) md) in *.
  set (kept := keptQuads (dropsContentType (fimLink id p) ct) qs) in *.
  assert (Hkept : qContentType kept = Ok ct)
    by (apply kept_contentType; [exact Hkey|reflexivity|exact Hct]).
  assert (Hdata : exists t, blobs w1 !! key = Some (mkBlob data t)).
  { rewrite Hw1. cbn [blobs tick setBlobs advance]. rewrite lookup_insert_eq. eauto. }
  destruct Hdata as (t & Hdata).
  assert (Hb : blobs w1 !! meta
               = blobs (afterSidecar serializeQuads (fimLink id p) (fimMetaLink id p) md w)
                   !! meta).
  { rewrite Hw1. cbn [blobs tick setBlobs advance].
    apply lookup_insert_ne. intros E. symmetry in E. revert E.
    apply sidecar_key_fresh. }
  rewrite <- Hb in Hs. clear Hb.
  assert (Hstat : statKey key = key) by (unfold statKey; now rewrite Hkey).
  set (w2 := advance (CFetch key) (advance (CHead key) (advance (CHead key) w1))).
  assert (Hget : VercelBlobDataAccessor.getData id w1 = (Ok data, w2)).
  { unfold VercelBlobDataAccessor.getData.
    erewrite bind_ok by (unfold await; now rewrite (fim_link pathname _ _ _ Hp)).
    cbn [filePath fimLink]. fold key.
    unfold bind at 1. rewrite getStats_run by (now rewrite Hq).
    rewrite Hstat, Hdata. unfold statsOf. rewrite Hkey. cbn [isFile].
    unfold VercelApi.createReadStream.
    erewrite bind_ok
      by (rewrite head_run by (cbn [faults advance]; now rewrite Hq);
          cbn [blobs advance]; now rewrite Hdata).
    cbn [hb_url headOf].
    rewrite fetch_run by (cbn [faults advance]; now rewrite Hq).
    cbn [blobs advance]. now rewrite Hdata. }
  set (wp := advance (CHead key) w2).
  assert (Hqp : faults wp = []) by (unfold wp, w2; cbn [faults advance]; now rewrite Hq).
  set (raw := match blobs w1 !! meta with
              | Some bm => rawQuads lastModified (uploadedAt bm) kept
              | None => []
              end).
  assert (Hraw : match blobs wp !! meta with
                 | None => raw = []
                 | Some b0 => exists kept0,
                     parseQuads (content b0) None (path id) = Some kept0
                     /\ raw = rawQuads lastModified (uploadedAt b0) kept0
                 end).
  { unfold raw, wp, w2. cbn [blobs advance].
    destruct (blobs w1 !! meta) as [bm|]; [|reflexivity].
    exists kept. split; [|reflexivity]. cbn in Hs.
    destruct kept as [|q kept'] eqn:Ek; [discriminate|].
    injection Hs as ->. apply Hcodec. discriminate. }
  assert (Hrawct : qContentType raw = Ok ct).
  { unfold raw. destruct (blobs w1 !! meta) as [bm|].
    - unfold rawQuads. rewrite qContentType_qSet by discriminate.
      exact (qContentType_addQuads _ _ Hkept).
    - cbn in Hs. destruct kept; [exact Hkept|discriminate]. }
  set (stats := {| isFile := true; isDirectory := false; mtime := t;
                   size := blobSize (mkBlob data t) |}).
  destruct (getFileMetadata_exact pathname parseQuads lastModified id p stats wp raw ct
              Hp Hqp Hraw Hrawct) as (m & w3 & E & (Hl & Hqs & _)).
  exists w2, m, w3, ct. split; [exact Hget|]. split; [|split; [exact Hct|]].
  - unfold VercelBlobDataAccessor.getMetadata.
    erewrite bind_ok by (unfold await; now rewrite (fim_link pathname _ _ _ Hp)).
    cbn [filePath fimLink]. fold key.
    unfold bind at 1.
    rewrite getStats_run by (unfold w2; cbn [faults advance]; now rewrite Hq).
    replace (blobs w2) with (blobs w1) by reflexivity.
    rewrite Hstat, Hdata. unfold statsOf. rewrite Hkey, Hdoc. cbn [isFile negb andb].
    exact E.
  - rewrite <- Hqs. cbv zeta. destruct ct.
    + rewrite qContentType_withPosixFacts, qContentType_withResourceTypes. exact Hrawct.
    + apply qContentType_unset.
Qed.
End FimRoundTrip.

(** C2, witness: a document written with content-type [text/plain] and read
    back. *)
Lemma writeDocument_then_read_back_witness :
  let w := exampleWorld [] "text/plain" [] in
  let write := @VercelBlobDataAccessor.writeDocument (fim examplePathname)
                 exampleSerialize exampleId (list_byte_of_string "hello") 0%nat in
  exists w2 m w3,
    @VercelBlobDataAccessor.getData (fim examplePathname) exampleId (snd (write w))
    = (Ok (list_byte_of_string "hello"), w2)
    /\ @VercelBlobDataAccessor.getMetadata (fim examplePathname) exampleParse sameInstant
         exampleId w2
       = (Ok m, w3)
    /\ qContentType (quadsAt (heap w3) m) = Ok (Some "text/plain").
Proof.
  intros w write.
  destruct (writeDocument_then_read_back examplePathname exampleSerialize exampleParse
              sameInstant exampleId "/docs/a" (list_byte_of_string "hello") 0%nat w
              (snd (write w))
              ltac:(vm_compute; reflexivity) ltac:(vm_compute; reflexivity)
              ltac:(vm_compute; reflexivity)
              ltac:(vm_compute; reflexivity)
              ltac:(vm_compute; reflexivity) ltac:(vm_compute; reflexivity))
    as (w2 & m & w3 & ct & H1 & H2 & H3 & H4).
  exists w2, m, w3. split; [exact H1|]. split; [exact H2|].
  rewrite H4, <- H3. vm_compute. reflexivity.
Defined.

(** C2, counterexample: the document identifier [http://h/docs/?page=2] does
    not end in the separator, its storage key [x/docs/] does.  The document
    is written, and neither [getData] nor [getMetadata] finds it
    afterwards. *)
Lemma writeDocument_under_container_key_not_read_back :
  let id := mkId "http://h/docs/?page=2" in
  let w := exampleWorld [] "text/plain" [] in
  let r := @VercelBlobDataAccessor.writeDocument (fim queryPathname) exampleSerialize
             id (list_byte_of_string "hello") 0%nat w in
  isContainerIdentifier id = false
  /\ fst r = Ok ()
  /\ content <$> blobs (snd r) !! "x/docs/" = Some (list_byte_of_string "hello")
  /\ fst (@VercelBlobDataAccessor.getData (fim queryPathname) id (snd r))
     = Err NotFoundHttpError
  /\ fst (@VercelBlobDataAccessor.getMetadata (fim queryPathname) exampleParse
            sameInstant id (snd r))
     = Err NotFoundHttpError.
Proof. repeat split; vm_compute; reflexivity. Qed.

(** ** Failures while the sidecar is read *)

Lemma storageFailure_not_ENOENT e : isENOENT (StorageFailure e) = false.
Proof. now destruct e. Qed.

Lemma statKey_meta (p : string) :
  statKey ("x" +:+ (p +:+ ".meta")) = "x" +:+ (p +:+ ".meta").
Proof.
  unfold statKey. change ("x" +:+ (p +:+ ".meta")) with (("x" +:+ p) +:+ ".meta").
  now rewrite endsWith_meta.
Qed.

Section FimMetadataFailures.
Variable pathname : string -> option string.
Variable parseQuads : bytes -> option string -> string -> option (list Quad).
Variable lastModified : Z -> Z.

Let mapper : FileIdentifierMapper := fim pathname.
Existing Instance mapper.

Lemma getRawMetadata_probe_fault id p w e :
  pathname (path id) = Some p ->
  hd None (faults w) = Some e ->
  VercelBlobDataAccessor.getRawMetadata parseQuads lastModified id w
  = (Ok (length (heap w)),
     setHeap (fun h => h ++ [mkMeta id []])
       (advance (CHead ("x" +:+ (p +:+ ".meta"))) w)).
Proof.
  intros Hp Hq. unfold VercelBlobDataAccessor.getRawMetadata, catch.
  erewrite bind_ok by (unfold await; now rewrite (fim_metaLink _ _ _ _ Hp)).
  cbn [filePath fimMetaLink]. unfold VercelApi.lstat. unfold bind at 1.
  rewrite (stat_fault _ _ _ Hq), statKey_meta. reflexivity.
Qed.

Lemma getRawMetadata_read_fault id p bm w e :
  pathname (path id) = Some p ->
  hd None (faults w) = None ->
  hd None (tail (faults w)) = Some e ->
  blobs w !! ("x" +:+ (p +:+ ".meta")) = Some bm ->
  VercelBlobDataAccessor.getRawMetadata parseQuads lastModified id w
  = (Err (StorageFailure e),
     advance (CHead ("x" +:+ (p +:+ ".meta")))
       (advance (CHead ("x" +:+ (p +:+ ".meta"))) w)).
Proof.
  intros Hp Hq He Hb. unfold VercelBlobDataAccessor.getRawMetadata, catch.
  erewrite bind_ok by (unfold await; now rewrite (fim_metaLink _ _ _ _ Hp)).
  cbn [filePath fimMetaLink]. unfold VercelApi.lstat. unfold bind at 1.
  rewrite (stat_run _ _ Hq), statKey_meta, Hb.
  unfold VercelApi.createReadStream.
  erewrite bind_err by (erewrite bind_err by (apply (head_fault _ _ e); exact He);
                        reflexivity).
  now rewrite storageFailure_not_ENOENT.
Qed.

Lemma getRawMetadata_parse_error id p bm w :
  pathname (path id) = Some p ->
  faults w = [] ->
  blobs w !! ("x" +:+ (p +:+ ".meta")) = Some bm ->
  parseQuads (content bm) None (path id) = None ->
  exists w', VercelBlobDataAccessor.getRawMetadata parseQuads lastModified id w = (Err ParseError, w')
             /\ blobs w' = blobs w.
Proof.
  intros Hp Hq Hb Hparse. unfold VercelBlobDataAccessor.getRawMetadata, catch.
  erewrite bind_ok by (unfold await; now rewrite (fim_metaLink _ _ _ _ Hp)).
  cbn [filePath contentType fimMetaLink]. unfold VercelApi.lstat. unfold bind at 1.
  rewrite stat_run by (now rewrite Hq). rewrite statKey_meta, Hb.
  set (w1 := advance (CHead ("x" +:+ (p +:+ ".meta"))) w).
  assert (Hread : VercelApi.createReadStream ("x" +:+ (p +:+ ".meta")) w1
                  = (Ok (content bm),
                     advance (CFetch ("x" +:+ (p +:+ ".meta")))
                       (advance (CHead ("x" +:+ (p +:+ ".meta"))) w1))).
  { unfold VercelApi.createReadStream.
    erewrite bind_ok
      by (rewrite head_run by (unfold w1; cbn [faults advance]; now rewrite Hq);
          unfold w1; cbn [blobs advance]; now rewrite Hb).
    cbn [hb_url headOf].
    rewrite fetch_run by (unfold w1; cbn [faults advance]; now rewrite Hq).
    unfold w1. cbn [blobs advance]. now rewrite Hb. }
  rewrite (bind_ok _ _ _ _ _ Hread). rewrite Hparse.
  eexists. split; reflexivity.
Qed.

(** [getMetadata] once the primary object has been found, in terms of what
    [getRawMetadata] does next. *)
Lemma getMetadata_after_probe id p b w :
  pathname (path id) = Some p ->
  hd None (faults w) = None ->
  isContainerIdentifier id = endsWith ("x" +:+ p) "/" ->
  blobs w !! statKey ("x" +:+ p) = Some b ->
  VercelBlobDataAccessor.getMetadata parseQuads lastModified id w
  = (if isContainerIdentifier id
     then VercelBlobDataAccessor.getBaseMetadata parseQuads lastModified (fimLink id p)
            (statsOf ("x" +:+ p) b) true
     else VercelBlobDataAccessor.getFileMetadata parseQuads lastModified (fimLink id p)
            (statsOf ("x" +:+ p) b))
      (advance (CHead (statKey ("x" +:+ p))) w).
Proof.
  intros Hp Hq Hkind Hb. unfold VercelBlobDataAccessor.getMetadata.
  erewrite bind_ok by (unfold await; now rewrite (fim_link _ _ _ _ Hp)).
  cbn [filePath fimLink].
  erewrite bind_ok by (rewrite getStats_run by exact Hq; now rewrite Hb).
  assert (Hfile : isFile (statsOf ("x" +:+ p) b) = negb (endsWith ("x" +:+ p) "/"))
    by (unfold statsOf; now destruct (endsWith _ "/")).
  assert (Hdir : isDirectory (statsOf ("x" +:+ p) b) = endsWith ("x" +:+ p) "/")
    by (unfold statsOf; now destruct (endsWith _ "/")).
  rewrite Hfile, Hdir, Hkind. now destruct (endsWith ("x" +:+ p) "/").
Qed.

Lemma getMetadata_raw_error id p b w e w2 :
  pathname (path id) = Some p ->
  hd None (faults w) = None ->
  isContainerIdentifier id = endsWith ("x" +:+ p) "/" ->
  blobs w !! statKey ("x" +:+ p) = Some b ->
  VercelBlobDataAccessor.getRawMetadata parseQuads lastModified id
    (advance (CHead (statKey ("x" +:+ p))) w) = (Err e, w2) ->
  VercelBlobDataAccessor.getMetadata parseQuads lastModified id w = (Err e, w2).
Proof.
  intros Hp Hq Hkind Hb Hraw.
  rewrite (getMetadata_after_probe id p b w Hp Hq Hkind Hb).
  destruct (isContainerIdentifier id).
  - unfold VercelBlobDataAccessor.getBaseMetadata. cbn [identifier fimLink].
    now rewrite (bind_err _ _ _ _ _ Hraw).
  - unfold VercelBlobDataAccessor.getFileMetadata, VercelBlobDataAccessor.getBaseMetadata.
    cbn [identifier fimLink].
    erewrite bind_err by (now rewrite (bind_err _ _ _ _ _ Hraw)). reflexivity.
Qed.

(** X10.  When the probe of the sidecar fails, for whatever reason,
    [getMetadata] treats the sidecar as absent: it makes no further call and
    returns the triples built from the store's facts alone, whatever the
    sidecar holds. *)
Theorem getMetadata_ignores_sidecar_when_probe_fails :
  forall (id : ResourceIdentifier) (p : string) (b : Blob) (w : World)
         (e : BlobError) (rest : list (option BlobError)),
    pathname (path id) = Some p ->
    isContainerIdentifier id = endsWith ("x" +:+ p) "/" ->
    blobs w !! statKey ("x" +:+ p) = Some b ->
    faults w = None :: Some e :: rest ->
    exists m w',
      VercelBlobDataAccessor.getMetadata parseQuads lastModified id w = (Ok m, w')
      /\ quadsAt (heap w') m
         = liveQuads lastModified (isContainerIdentifier id) (uploadedAt b) (blobSize b)
      /\ calls w' = calls w ++ [CHead (statKey ("x" +:+ p));
                                CHead ("x" +:+ (p +:+ ".meta"))]
      /\ blobs w' = blobs w.
Proof.
  intros id p b w e rest Hp Hkind Hb Hf.
  rewrite (getMetadata_after_probe id p b w Hp ltac:(now rewrite Hf) Hkind Hb).
  set (w1 := advance (CHead (statKey ("x" +:+ p))) w).
  assert (Hraw := getRawMetadata_probe_fault id p w1 e Hp
                    ltac:(unfold w1; cbn [faults advance]; now rewrite Hf)).
  set (w1' := advance (CHead ("x" +:+ (p +:+ ".meta"))) w1) in Hraw.
  set (w2 := setHeap _ w1') in Hraw.
  assert (H2 : holdsP (eq []) (length (heap w1)) w1' w2).
  { unfold holdsP, w2, w1'. cbn [heap blobs faults setHeap advance].
    rewrite length_app. cbn [length]. split; [lia|]. split; [|auto].
    unfold quadsAt. rewrite lookup_app_r by lia. now rewrite Nat.sub_diag. }
  assert (Hc2 : calls w2 = calls w ++ [CHead (statKey ("x" +:+ p));
                                       CHead ("x" +:+ (p +:+ ".meta"))]).
  { unfold w2, w1', w1. cbn [calls setHeap advance]. now rewrite <- app_assoc. }
  pose proof (liveQuads_spec lastModified ("x" +:+ p) b) as L.
  rewrite Hkind. destruct (endsWith ("x" +:+ p) "/") eqn:Hc.
  - destruct (getBaseMetadata_from_raw parseQuads lastModified (fimLink id p)
                (statsOf ("x" +:+ p) b) true w1 w1' _ w2 [] None Hraw H2 eq_refl)
      as (w' & E & (Hl & Hqs & Hbl & _) & Hcalls).
    exists (length (heap w1)), w'. split; [exact E|]. split; [now rewrite <- Hqs|].
    split; [now rewrite Hcalls|exact Hbl].
  - destruct (getFileMetadata_from_raw parseQuads lastModified (fimLink id p)
                (statsOf ("x" +:+ p) b) w1 w1' _ w2 [] None None Hraw H2 eq_refl eq_refl)
      as (w' & E & (Hl & Hqs & Hbl & _) & Hcalls).
    exists (length (heap w1)), w'. split; [exact E|].
    split; [|split; [now rewrite Hcalls|exact Hbl]].
    rewrite <- Hqs. cbv zeta. rewrite L.
    now destruct (liveQuads_no_contentType lastModified false (uploadedAt b) (blobSize b)).
Qed.

(** X11.  A sidecar that cannot be parsed makes [getMetadata] fail with the
    parser's error, although the primary object exists; nothing is changed in
    the store. *)
Theorem getMetadata_unparsable_sidecar :
  forall (id : ResourceIdentifier) (p : string) (b bm : Blob) (w : World),
    pathname (path id) = Some p ->
    faults w = [] ->
    isContainerIdentifier id = endsWith ("x" +:+ p) "/" ->
    blobs w !! statKey ("x" +:+ p) = Some b ->
    blobs w !! ("x" +:+ (p +:+ ".meta")) = Some bm ->
    parseQuads (content bm) None (path id) = None ->
    exists w',
      VercelBlobDataAccessor.getMetadata parseQuads lastModified id w = (Err ParseError, w')
      /\ blobs w' = blobs w.
Proof.
  intros id p b bm w Hp Hq Hkind Hb Hbm Hparse.
  destruct (getRawMetadata_parse_error id p bm
              (advance (CHead (statKey ("x" +:+ p))) w) Hp
              ltac:(cbn [faults advance]; now rewrite Hq) Hbm Hparse)
    as (w' & E & Hbl).
  exists w'. split; [|exact Hbl].
  apply (getMetadata_raw_error id p b w ParseError w' Hp ltac:(now rewrite Hq) Hkind Hb E).
Qed.

(** X12.  A store failure while the sidecar is read, after its probe has
    succeeded, reaches the caller of [getMetadata] as it is: it is not turned
    into [NotFoundHttpError] and the sidecar is not treated as absent. *)
Theorem getMetadata_sidecar_read_failure :
  forall (id : ResourceIdentifier) (p : string) (b bm : Blob) (w : World)
         (e : BlobError) (rest : list (option BlobError)),
    pathname (path id) = Some p ->
    isContainerIdentifier id = endsWith ("x" +:+ p) "/" ->
    blobs w !! statKey ("x" +:+ p) = Some b ->
    blobs w !! ("x" +:+ (p +:+ ".meta")) = Some bm ->
    faults w = None :: None :: Some e :: rest ->
    fst (VercelBlobDataAccessor.getMetadata parseQuads lastModified id w) = Err (StorageFailure e).
Proof.
  intros id p b bm w e rest Hp Hkind Hb Hbm Hf.
  erewrite (getMetadata_raw_error id p b w (StorageFailure e) _ Hp
              ltac:(now rewrite Hf) Hkind Hb); [reflexivity|].
  apply (getRawMetadata_read_fault id p bm); cbn [faults blobs advance];
    try rewrite Hf; auto.
Qed.

End FimMetadataFailures.

(** X10, at work: the sidecar holds a title, and its probe is refused. *)
Lemma getMetadata_ignores_sidecar_when_probe_fails_witness :
  let w := worldOf [("x/docs/a", "hello");
                    ("x/docs/a.meta", "Nhttp://purl.org/dc/terms/title LA N")]
             [None; Some (BlobServiceError "rate limited")] in
  exists m w',
    @VercelBlobDataAccessor.getMetadata (fim examplePathname) exampleParse sameInstant exampleId w
    = (Ok m, w')
    /\ quadsAt (heap w') m = liveQuads sameInstant false 1700000000000 5.
Proof.
  intros w.
  destruct (getMetadata_ignores_sidecar_when_probe_fails examplePathname exampleParse sameInstant
              exampleId "/docs/a" (mkBlob (list_byte_of_string "hello") 1700000000000) w
              (BlobServiceError "rate limited") []
              ltac:(vm_compute; reflexivity) ltac:(vm_compute; reflexivity)
              ltac:(vm_compute; reflexivity) eq_refl)
    as (m & w' & E & Hqs & _).
  exists m, w'. split; [exact E|exact Hqs].
Defined.

(** X11, at work: a sidecar that is not in the codec's format. *)
Lemma getMetadata_unparsable_sidecar_witness :
  let w := worldOf [("x/docs/a", "hello"); ("x/docs/a.meta", "garbage")] [] in
  fst (@VercelBlobDataAccessor.getMetadata (fim examplePathname) exampleParse sameInstant exampleId w)
  = Err ParseError.
Proof.
  intros w.
  destruct (getMetadata_unparsable_sidecar examplePathname exampleParse sameInstant exampleId
              "/docs/a" (mkBlob (list_byte_of_string "hello") 1700000000000)
              (mkBlob (list_byte_of_string "garbage") 1700000000000) w
              ltac:(vm_compute; reflexivity) eq_refl ltac:(vm_compute; reflexivity)
              ltac:(vm_compute; reflexivity) ltac:(vm_compute; reflexivity)
              ltac:(vm_compute; reflexivity))
    as (w' & E & _).
  now rewrite E.
Defined.

(** X12, at work: the third call, the read of the sidecar, is refused. *)
Lemma getMetadata_sidecar_read_failure_witness :
  let w := worldOf [("x/docs/a", "hello");
                    ("x/docs/a.meta", "Nhttp://purl.org/dc/terms/title LA N")]
             [None; None; Some (BlobServiceError "network")] in
  fst (@VercelBlobDataAccessor.getMetadata (fim examplePathname) exampleParse sameInstant exampleId w)
  = Err (StorageFailure (BlobServiceError "network")).
Proof.
  intros w.
  exact (getMetadata_sidecar_read_failure examplePathname exampleParse sameInstant exampleId
           "/docs/a" (mkBlob (list_byte_of_string "hello") 1700000000000)
           (mkBlob (list_byte_of_string "Nhttp://purl.org/dc/terms/title LA N")
              1700000000000) w (BlobServiceError "network") []
           ltac:(vm_compute; reflexivity) ltac:(vm_compute; reflexivity)
           ltac:(vm_compute; reflexivity) ltac:(vm_compute; reflexivity) eq_refl).
Defined.

(** ** Deleting *)

Section FimDeleting.
Variable pathname : string -> option string.
Variable parseQuads : bytes -> option string -> string -> option (list Quad).
Variable lastModified : Z -> Z.

Let mapper : FileIdentifierMapper := fim pathname.
Existing Instance mapper.

(** X13.  Once [deleteResource] has deleted a document, the document is
    gone for every operation of the accessor: [getData], [getMetadata] and a
    second [deleteResource] fail with [NotFoundHttpError], and no sidecar is
    left behind. *)
Theorem deleted_document_is_gone :
  forall (id : ResourceIdentifier) (p : string) (b : Blob) (w : World),
    pathname (path id) = Some p ->
    faults w = [] ->
    isContainerIdentifier id = false ->
    endsWith ("x" +:+ p) "/" = false ->
    blobs w !! ("x" +:+ p) = Some b ->
    exists w1,
      VercelBlobDataAccessor.deleteResource id w = (Ok (), w1)
      /\ blobs w1 !! ("x" +:+ p) = None
      /\ blobs w1 !! ("x" +:+ (p +:+ ".meta")) = None
      /\ fst (VercelBlobDataAccessor.getData id w1) = Err NotFoundHttpError
      /\ fst (VercelBlobDataAccessor.getMetadata parseQuads lastModified id w1) = Err NotFoundHttpError
      /\ fst (VercelBlobDataAccessor.deleteResource id w1) = Err NotFoundHttpError.
Proof.
  intros id p b w Hp Hq Hid Hc Hb.
  assert (Hk : statKey ("x" +:+ p) = "x" +:+ p) by (unfold statKey; now rewrite Hc).
  pose proof (deleteResource_run pathname id p w Hp Hq) as Hr. cbv zeta in Hr.
  rewrite Hk, Hb, Hid, Hc in Hr.
  rewrite bool_decide_eq_true_2 in Hr by eauto. cbn [andb Bool.eqb] in Hr.
  eexists. split; [exact Hr|].
  set (w1 := setBlobs _ _).
  assert (Hq1 : faults w1 = []) by (unfold w1; cbn [faults setBlobs advance]; now rewrite Hq).
  assert (Hgone : blobs w1 !! ("x" +:+ p) = None)
    by (unfold w1; cbn [blobs setBlobs advance]; apply lookup_delete_eq).
  assert (Hmeta : blobs w1 !! ("x" +:+ (p +:+ ".meta")) = None).
  { unfold w1. cbn [blobs setBlobs advance].
    rewrite lookup_delete_ne by (intros H; symmetry in H; now apply sidecar_key_fresh in H).
    apply lookup_delete_eq. }
  split; [exact Hgone|]. split; [exact Hmeta|]. split; [|split].
  - unfold VercelBlobDataAccessor.getData.
    erewrite bind_ok by (unfold await; now rewrite (fim_link _ _ _ _ Hp)).
    cbn [filePath fimLink].
    erewrite bind_err by (rewrite getStats_run by (now rewrite Hq1);
                          rewrite Hk, Hgone; reflexivity).
    reflexivity.
  - unfold VercelBlobDataAccessor.getMetadata.
    erewrite bind_ok by (unfold await; now rewrite (fim_link _ _ _ _ Hp)).
    cbn [filePath fimLink].
    erewrite bind_err by (rewrite getStats_run by (now rewrite Hq1);
                          rewrite Hk, Hgone; reflexivity).
    reflexivity.
  - pose proof (deleteResource_run pathname id p w1 Hp Hq1) as Hr1. cbv zeta in Hr1.
    rewrite Hk, Hgone in Hr1.
    rewrite bool_decide_eq_false_2 in Hr1 by (intros [? ?]; discriminate).
    cbn [andb] in Hr1. exact (f_equal fst Hr1).
Qed.

(** X14.  [deleteResource] on a container deletes the container's own key
    and its sidecar, never the folder marker: after a successful call the
    marker is unchanged, the container still stats as a directory, and the
    same call succeeds again. *)
Theorem deleted_container_keeps_marker :
  forall (id : ResourceIdentifier) (p : string) (b : Blob) (w : World),
    pathname (path id) = Some p ->
    faults w = [] ->
    isContainerIdentifier id = true ->
    endsWith ("x" +:+ p) "/" = true ->
    blobs w !! (("x" +:+ p) +:+ FOLDER_MARKER) = Some b ->
    exists w1,
      VercelBlobDataAccessor.deleteResource id w = (Ok (), w1)
      /\ calls w1 = calls w ++ [CDel ("x" +:+ (p +:+ ".meta"));
                                CHead (("x" +:+ p) +:+ FOLDER_MARKER);
                                CDel ("x" +:+ p)]
      /\ blobs w1 !! (("x" +:+ p) +:+ FOLDER_MARKER) = Some b
      /\ fst (VercelBlobDataAccessor.getStats ("x" +:+ p) w1)
         = Ok {| isFile := false; isDirectory := true; mtime := uploadedAt b; size := 0 |}
      /\ fst (VercelBlobDataAccessor.deleteResource id w1) = Ok ().
Proof.
  intros id p b w Hp Hq Hid Hc Hb.
  assert (Hk : statKey ("x" +:+ p) = ("x" +:+ p) +:+ FOLDER_MARKER)
    by (unfold statKey; now rewrite Hc).
  pose proof (deleteResource_run pathname id p w Hp Hq) as Hr. cbv zeta in Hr.
  rewrite Hk, Hb, Hid, Hc in Hr.
  rewrite bool_decide_eq_true_2 in Hr by eauto. cbn [andb Bool.eqb] in Hr.
  eexists. split; [exact Hr|].
  set (w1 := setBlobs _ _).
  assert (Hq1 : faults w1 = []) by (unfold w1; cbn [faults setBlobs advance]; now rewrite Hq).
  assert (Hkept : blobs w1 !! (("x" +:+ p) +:+ FOLDER_MARKER) = Some b).
  { unfold w1. cbn [blobs setBlobs advance].
    rewrite lookup_delete_ne by (intros H; symmetry in H; now apply marker_key_fresh in H).
    rewrite lookup_delete_ne by (apply sidecar_key_fresh). exact Hb. }
  split; [unfold w1; cbn [calls setBlobs advance]; now rewrite <- !app_assoc|].
  split; [exact Hkept|]. split.
  - rewrite getStats_run by (now rewrite Hq1). rewrite Hk, Hkept.
    unfold statsOf. now rewrite Hc.
  - pose proof (deleteResource_run pathname id p w1 Hp Hq1) as Hr1. cbv zeta in Hr1.
    rewrite Hk, Hkept, Hid, Hc in Hr1.
    rewrite bool_decide_eq_true_2 in Hr1 by eauto. cbn [andb Bool.eqb] in Hr1.
    exact (f_equal fst Hr1).
Qed.

End FimDeleting.

(** X13, at work *)
Lemma deleted_document_is_gone_witness :
  let w := worldOf [("x/docs/a", "hello");
                    ("x/docs/a.meta", "Nhttp://purl.org/dc/terms/title LA N")] [] in
  exists w1,
    @VercelBlobDataAccessor.deleteResource (fim examplePathname) exampleId w = (Ok (), w1)
    /\ fst (@VercelBlobDataAccessor.getData (fim examplePathname) exampleId w1)
       = Err NotFoundHttpError.
Proof.
  intros w.
  destruct (deleted_document_is_gone examplePathname exampleParse sameInstant exampleId "/docs/a"
              (mkBlob (list_byte_of_string "hello") 1700000000000) w
              ltac:(vm_compute; reflexivity) eq_refl ltac:(vm_compute; reflexivity)
              ltac:(vm_compute; reflexivity) ltac:(vm_compute; reflexivity))
    as (w1 & E & _ & _ & Hd & _).
  exists w1. split; [exact E|exact Hd].
Defined.

(** X14, at work *)
Lemma deleted_container_keeps_marker_witness :
  let id := mkId "http://h/docs/" in
  let w := worldOf [("x/docs/.FOLDER_MARKER_META_FILE", "nothing here")] [] in
  exists w1,
    @VercelBlobDataAccessor.deleteResource (fim examplePathname) id w = (Ok (), w1)
    /\ is_Some (blobs w1 !! "x/docs/.FOLDER_MARKER_META_FILE")
    /\ fst (@VercelBlobDataAccessor.deleteResource (fim examplePathname) id w1) = Ok ().
Proof.
  intros id w.
  destruct (deleted_container_keeps_marker examplePathname id "/docs/"
              (mkBlob (list_byte_of_string "nothing here") 1700000000000) w
              ltac:(vm_compute; reflexivity) eq_refl ltac:(vm_compute; reflexivity)
              ltac:(vm_compute; reflexivity) ltac:(vm_compute; reflexivity))
    as (w1 & E & _ & Hm & _ & Hd).
  exists w1. split; [exact E|]. split; [|exact Hd].
  change (is_Some (blobs w1 !! (("x" +:+ "/docs/") +:+ FOLDER_MARKER))). eauto.
Defined.

(** ** Writing containers and metadata *)



Section FimWriting.
Variable pathname : string -> option string.
Variable serializeQuads : list Quad -> option string -> bytes.
Variable parseQuads : bytes -> option string -> string -> option (list Quad).
Variable lastModified : Z -> Z.

Let mapper : FileIdentifierMapper := fim pathname.
Existing Instance mapper.





(** X17.  [writeMetadata] on the hardcoded mapper keeps the content-type
    of the metadata in the triples it stores, also for a container, whose
    content-type [writeContainer] would drop.  Every other triple that is not
    a resource kind or a modification time is stored as well, and the sidecar
    holds exactly the triples left in the metadata object.  When the
    metadata has several content-types, [writeMetadata] fails with the error
    of the getter and makes no call. *)
Theorem writeMetadata_stores_contentType :
  forall (id : ResourceIdentifier) (p : string) (md : nat) (w : World),
    pathname (path id) = Some p ->
    hd None (faults w) = None ->
    match qContentType (quadsAt (heap w) md) with
    | Ok ct =>
        exists w',
          VercelBlobDataAccessor.writeMetadata serializeQuads id md w = (Ok (), w')
          /\ qContentType (quadsAt (heap w') md) = Ok ct
          /\ (forall q, q ∈ quadsAt (heap w) md -> storageFact q = false ->
                        predicate q <> CONTENT_TYPE_TERM -> q ∈ quadsAt (heap w') md)
          /\ content <$> blobs w' !! ("x" +:+ (p +:+ ".meta"))
             = match quadsAt (heap w') md with
               | [] => None
               | stored => Some (serializeQuads stored None)
               end
    | Err e =>
        exists w',
          VercelBlobDataAccessor.writeMetadata serializeQuads id md w = (Err e, w')
          /\ calls w' = calls w /\ blobs w' = blobs w
    end.
Proof.
  intros id p md w Hp Hq.
  assert (Hc : isContainerPath (filePath (fimMetaLink id p)) = false).
  { unfold isContainerPath. cbn [filePath fimMetaLink].
    change ("x" +:+ (p +:+ ".meta")) with (("x" +:+ p) +:+ ".meta").
    apply endsWith_meta. }
  unfold VercelBlobDataAccessor.writeMetadata.
  erewrite bind_ok by (unfold await; now rewrite (fim_metaLink _ _ _ _ Hp)).
  destruct (qContentType (quadsAt (heap w) md)) as [ct|e] eqn:Hct.
  - erewrite bind_ok
      by (apply (writeMetadataFile_run serializeQuads _ _ (fimMetaLink id p));
          [cbn [identifier fimMetaLink]; now apply fim_metaLink
          |exact (testable_Ok _ _ _ Hct) | exact Hq]).
    eexists. split; [reflexivity|]. rewrite afterSidecar_heap.
    rewrite (contentTypeOf_Ok _ _ Hct).
    split; [exact (kept_contentType (fimMetaLink id p) _ _ Hc eq_refl Hct)|]. split.
    + intros q Hin Hs Hn. apply (keptQuads_spec serializeQuads).
      split; [exact Hin|]. split; [exact Hs|].
      intros _. unfold hasPredicate. now apply bool_decide_eq_false_2.
    + pose proof (afterSidecar_sidecar serializeQuads (fimMetaLink id p)
                    (fimMetaLink id p) md w) as Hs.
      now rewrite (contentTypeOf_Ok _ _ Hct) in Hs.
  - erewrite bind_err by (exact (writeMetadataFile_getter_error serializeQuads _ _ _ _ Hc Hct)).
    eexists. split; [reflexivity|]. split; reflexivity.
Qed.

End FimWriting.



(** X17, at work: the content-type of the metadata stays in what is
    stored for a container. *)
Lemma writeMetadata_stores_contentType_witness :
  let id := mkId "http://h/docs/" in
  let w := exampleWorld [] "text/turtle" [] in
  exists w',
    @VercelBlobDataAccessor.writeMetadata (fim examplePathname) exampleSerialize id 0%nat w
    = (Ok (), w')
    /\ qContentType (quadsAt (heap w') 0%nat) = Ok (Some "text/turtle").
Proof.
  intros id w.
  pose proof (writeMetadata_stores_contentType examplePathname exampleSerialize id "/docs/"
                0%nat w ltac:(vm_compute; reflexivity) eq_refl) as H.
  change (qContentType (quadsAt (heap w) 0)) with (Ok (A := option string) (Some "text/turtle"))
    in H.
  destruct H as (w' & E & Hct & _).
  exists w'. split; [exact E|exact Hct].
Defined.

(** ** A failed data write when no sidecar was written *)

Section FimFailedWrite.
Variable pathname : string -> option string.
Variable serializeQuads : list Quad -> option string -> bytes.

Let mapper : FileIdentifierMapper := fim pathname.
Existing Instance mapper.

(** X18.  When the metadata leaves no triple to store, [writeDocument]
    deletes the sidecar key before it writes the data.  If the data write
    then fails, the error is raised again and nothing is rolled back: the
    calls are the delete and the failed write, the old sidecar is gone and
    every other object is as before.  Metadata with several content-types
    makes [writeDocument] fail before any call, with the error of the
    getter. *)
Theorem writeDocument_failure_without_sidecar :
  forall (id : ResourceIdentifier) (p : string) (data : bytes) (md : nat)
         (w : World) (e : BlobError) (rest : list (option BlobError)),
    pathname (path id) = Some p ->
    wroteSidecar (fimLink id p) md w = false ->
    faults w = None :: Some e :: rest ->
    let meta := "x" +:+ (p +:+ ".meta") in
    match qContentType (quadsAt (heap w) md) with
    | Ok _ =>
        exists w',
          VercelBlobDataAccessor.writeDocument serializeQuads id data md w
          = (Err (StorageFailure e), w')
          /\ calls w' = calls w ++ [CDel meta; CPut ("x" +:+ p) data]
          /\ blobs w' = delete meta (blobs w)
    | Err e' =>
        VercelBlobDataAccessor.writeDocument serializeQuads id data md w = (Err e', w)
    end.
Proof.
  intros id p data md w e rest Hp Hwrote Hf meta.
  unfold VercelBlobDataAccessor.writeDocument.
  destruct (qContentType (quadsAt (heap w) md)) as [ct|e'] eqn:Hct.
  2:{ erewrite bind_err by (rewrite metadataContentType_run, Hct; reflexivity).
      reflexivity. }
  erewrite bind_ok by (rewrite metadataContentType_run, Hct; reflexivity).
  erewrite bind_ok by (unfold await; now rewrite (fim_link _ _ _ _ Hp)).
  erewrite bind_ok by (now apply fim_verifyExistingExtension).
  erewrite bind_ok
    by (apply (writeMetadataFile_run serializeQuads _ _ (fimMetaLink id p));
        [cbn [identifier fimLink]; now apply fim_metaLink
        |exact (testable_Ok _ _ _ Hct) | now rewrite Hf]).
  rewrite Hwrote. unfold catch.
  unfold VercelBlobDataAccessor.writeDataFile, VercelApi.createWriteStream.
  rewrite (put_fault _ _ _ e) by (now rewrite afterSidecar_faults, Hf).
  erewrite bind_ok by reflexivity.
  eexists. split; [reflexivity|].
  unfold wroteSidecar in Hwrote. cbv zeta in Hwrote. split.
  - cbn [calls advance]. rewrite afterSidecar_calls.
    unfold sidecarCall. cbv zeta. rewrite Hwrote.
    rewrite <- !app_assoc. reflexivity.
  - cbn [blobs advance]. unfold afterSidecar. cbv zeta. rewrite Hwrote. reflexivity.
Qed.

End FimFailedWrite.

(** X18, at work: metadata that holds only a kind and a date, an old
    sidecar in the store, and a data write that is refused. *)
Lemma writeDocument_failure_without_sidecar_witness :
  let w := {| blobs := storeOf [("x/docs/a.meta", "Nhttp://purl.org/dc/terms/title LA N")];
              heap := [mkMeta exampleId
                         [mkQuad RDF_type LDP_Resource DefaultGraph;
                          mkQuad DC_modified (DateLiteral 1700000000000) DefaultGraph]];
              faults := [None; Some (BlobServiceError "quota")];
              calls := []; clock := 1 |} in
  exists w',
    @VercelBlobDataAccessor.writeDocument (fim examplePathname) exampleSerialize exampleId
      (list_byte_of_string "hello") 0%nat w
    = (Err (StorageFailure (BlobServiceError "quota")), w')
    /\ blobs w' = delete "x/docs/a.meta" (blobs w).
Proof.
  intros w.
  destruct (writeDocument_failure_without_sidecar examplePathname exampleSerialize
              exampleId "/docs/a" (list_byte_of_string "hello") 0%nat w
              (BlobServiceError "quota") []
              ltac:(vm_compute; reflexivity) ltac:(vm_compute; reflexivity) eq_refl)
    as (w' & E & _ & Hb).
  exists w'. split; [exact E|exact Hb].
Defined.

(** ** Which keys an operation can change *)

Lemma touchesOnly_ret {A} K (a : A) : touchesOnly K (ret a).
Proof. now intros w r w' [= _ <-]. Qed.

Lemma touchesOnly_throw {A} K e : touchesOnly K (@throw A e).
Proof. now intros w r w' [= _ <-]. Qed.

Lemma touchesOnly_await {A} K (x : Result A) : touchesOnly K (await x).
Proof. now intros w r w' [= _ <-]. Qed.

Lemma touchesOnly_bind {A B} K (m : M A) (f : A -> M B) :
  touchesOnly K m -> (forall a, touchesOnly K (f a)) -> touchesOnly K (x <- m ;; f x).
Proof.
  intros Hm Hf w r w' E k Hk. unfold bind in E.
  destruct (m w) as [[a|e] w1] eqn:E1.
  - rewrite (Hf a _ _ _ E k Hk). exact (Hm _ _ _ E1 k Hk).
  - injection E as _ <-. exact (Hm _ _ _ E1 k Hk).
Qed.

Lemma touchesOnly_catch {A} K (m : M A) (h : Error -> M A) :
  touchesOnly K m -> (forall e, touchesOnly K (h e)) -> touchesOnly K (catch m h).
Proof.
  intros Hm Hh w r w' E k Hk. unfold catch in E.
  destruct (m w) as [[a|e] w1] eqn:E1.
  - injection E as _ <-. exact (Hm _ _ _ E1 k Hk).
  - rewrite (Hh e _ _ _ E k Hk). exact (Hm _ _ _ E1 k Hk).
Qed.

Lemma touchesOnly_if {A} K (c : bool) (m1 m2 : M A) :
  touchesOnly K m1 -> touchesOnly K m2 -> touchesOnly K (if c then m1 else m2).
Proof. now destruct c. Qed.

Lemma touchesOnly_request K c : touchesOnly K (VercelBlob.request c).
Proof.
  intros w r w' E k _. unfold VercelBlob.request in E.
  destruct (faults w) as [|[e|] fs]; injection E as _ <-; reflexivity.
Qed.

Lemma touchesOnly_head K k : touchesOnly K (VercelBlob.head k).
Proof.
  apply touchesOnly_bind; [apply touchesOnly_request|].
  intros _ w r w' E k' _. destruct (blobs w !! k); now injection E as _ <-.
Qed.

Lemma touchesOnly_fetch K k : touchesOnly K (VercelBlob.fetch k).
Proof.
  apply touchesOnly_bind; [apply touchesOnly_request|].
  intros _ w r w' E k' _. destruct (blobs w !! k); now injection E as _ <-.
Qed.

Lemma touchesOnly_list K prefix : touchesOnly K (VercelBlob.list prefix).
Proof.
  apply touchesOnly_bind; [apply touchesOnly_request|].
  intros _ w r w' E k' _. now injection E as _ <-.
Qed.

Lemma touchesOnly_put (K : string -> Prop) k d : K k -> touchesOnly K (VercelBlob.put k d).
Proof.
  intros HK. apply touchesOnly_bind; [apply touchesOnly_request|].
  intros _ w r w' E k' Hk'. injection E as _ <-. cbn [blobs tick setBlobs].
  apply lookup_insert_ne. congruence.
Qed.

Lemma touchesOnly_del (K : string -> Prop) k : K k -> touchesOnly K (VercelBlob.del k).
Proof.
  intros HK. apply touchesOnly_bind; [apply touchesOnly_request|].
  intros _ w r w' E k' Hk'. injection E as _ <-. cbn [blobs setBlobs].
  apply lookup_delete_ne. congruence.
Qed.

Lemma touchesOnly_heap {A} K (m : M A) :
  (forall w, blobs (snd (m w)) = blobs w) -> touchesOnly K m.
Proof. intros H w r w' E k _. specialize (H w). rewrite E in H. cbn in H. now rewrite H. Qed.

Lemma touchesOnly_mutate K l f : touchesOnly K (mutate l f).
Proof. now apply touchesOnly_heap. Qed.

Lemma touchesOnly_quads K l : touchesOnly K (quads l).
Proof. now apply touchesOnly_heap. Qed.

Lemma touchesOnly_newMetadata K id : touchesOnly K (newMetadata id).
Proof. now apply touchesOnly_heap. Qed.

Lemma touchesOnly_none {A} (m : M A) :
  touchesOnly noKey m -> forall w, blobs (snd (m w)) = blobs w.
Proof.
  intros H w. apply map_eq. intros k.
  destruct (m w) as [r w'] eqn:E. exact (H w r w' E k (fun x => x)).
Qed.

Lemma touchesOnly_bind_await {A B} K (x : Result A) (f : A -> M B) :
  (forall a, x = Ok a -> touchesOnly K (f a)) -> touchesOnly K (a <- await x ;; f a).
Proof.
  intros Hf w r w' E k Hk. unfold bind, await in E. destruct x as [a|e].
  - exact (Hf a eq_refl _ _ _ E k Hk).
  - now injection E as _ <-.
Qed.

Ltac frame_step :=
  lazymatch goal with
  | |- touchesOnly _ (ret _) => apply touchesOnly_ret
  | |- touchesOnly _ (throw _) => apply touchesOnly_throw
  | |- touchesOnly _ (bind (await _) _) => apply touchesOnly_bind_await; intros ? ?
  | |- touchesOnly _ (await _) => apply touchesOnly_await
  | |- touchesOnly _ (bind _ _) => apply touchesOnly_bind; [|intros ?]
  | |- touchesOnly _ (catch _ _) => apply touchesOnly_catch; [|intros ?]
  | |- touchesOnly _ (VercelBlob.request _) => apply touchesOnly_request
  | |- touchesOnly _ (VercelBlob.head _) => apply touchesOnly_head
  | |- touchesOnly _ (VercelBlob.fetch _) => apply touchesOnly_fetch
  | |- touchesOnly _ (VercelBlob.list _) => apply touchesOnly_list
  | |- touchesOnly _ (VercelBlob.put _ _) => apply touchesOnly_put
  | |- touchesOnly _ (VercelBlob.del _) => apply touchesOnly_del
  | |- touchesOnly _ (mutate _ _) => apply touchesOnly_mutate
  | |- touchesOnly _ (quads _) => apply touchesOnly_quads
  | |- touchesOnly _ (newMetadata _) => apply touchesOnly_newMetadata
  | |- touchesOnly _ (match ?x with _ => _ end) => destruct x
  end.

Ltac frame := repeat frame_step.

Lemma touchesOnly_stat K path : touchesOnly K (VercelApi.stat path).
Proof. unfold VercelApi.stat. frame. Qed.

Lemma touchesOnly_createReadStream K path : touchesOnly K (VercelApi.createReadStream path).
Proof. unfold VercelApi.createReadStream. frame. Qed.

Lemma touchesOnly_getStats K path : touchesOnly K (VercelBlobDataAccessor.getStats path).
Proof. unfold VercelBlobDataAccessor.getStats. frame. apply touchesOnly_stat. Qed.

Lemma touchesOnly_ensureDir (K : string -> Prop) path :
  K (path +:+ FOLDER_MARKER) -> touchesOnly K (VercelApi.ensureDir path).
Proof.
  intros HK. unfold VercelApi.ensureDir. frame; [apply touchesOnly_stat|exact HK].
Qed.

Lemma touchesOnly_addResourceMetadata K l c : touchesOnly K (addResourceMetadata l c).
Proof. unfold addResourceMetadata, metadataAdd. frame. Qed.

Lemma touchesOnly_addPosixMetadata K lastModified l stats :
  touchesOnly K (VercelBlobDataAccessor.addPosixMetadata lastModified l stats).
Proof.
  unfold VercelBlobDataAccessor.addPosixMetadata, metadataGet, metadataAdd,
    updateModifiedDate, metadataSet. frame.
Qed.

Section Frames.
Context {resourceMapper : FileIdentifierMapper}.
Variable serializeQuads : list Quad -> option string -> bytes.
Variable parseQuads : bytes -> option string -> string -> option (list Quad).
Variable lastModified : Z -> Z.

Lemma touchesOnly_getRawMetadata K id :
  touchesOnly K (VercelBlobDataAccessor.getRawMetadata parseQuads lastModified id).
Proof.
  unfold VercelBlobDataAccessor.getRawMetadata, VercelApi.lstat, metadataAddQuads,
    updateModifiedDate, metadataSet.
  frame; first [apply touchesOnly_stat | apply touchesOnly_createReadStream].
Qed.

Lemma touchesOnly_getMetadata K id :
  touchesOnly K (VercelBlobDataAccessor.getMetadata parseQuads lastModified id).
Proof.
  unfold VercelBlobDataAccessor.getMetadata, VercelBlobDataAccessor.getFileMetadata,
    VercelBlobDataAccessor.getDirectoryMetadata, VercelBlobDataAccessor.getBaseMetadata,
    metadataContentType, metadataSet.
  frame; first [apply touchesOnly_getStats | apply touchesOnly_getRawMetadata
               | apply touchesOnly_addResourceMetadata
               | apply touchesOnly_addPosixMetadata].
Qed.

Lemma touchesOnly_getData K id : touchesOnly K (VercelBlobDataAccessor.getData id).
Proof.
  unfold VercelBlobDataAccessor.getData.
  frame; first [apply touchesOnly_getStats | apply touchesOnly_createReadStream].
Qed.

Lemma touchesOnly_prefix_stat K path : touchesOnly K (PrefixListing.stat path).
Proof.
  unfold PrefixListing.stat. frame; now apply touchesOnly_heap.
Qed.

Lemma touchesOnly_prefix_getData K id : touchesOnly K (PrefixListing.getData id).
Proof. unfold PrefixListing.getData, PrefixListing.getBlobIdentifier. frame. Qed.

Lemma touchesOnly_newMetadataEach K paths : touchesOnly K (PrefixListing.newMetadataEach paths).
Proof.
  induction paths as [|p paths IH]; cbn [PrefixListing.newMetadataEach]; frame.
  exact IH.
Qed.

Lemma touchesOnly_prefix_getChildren K id : touchesOnly K (PrefixListing.getChildren id).
Proof.
  unfold PrefixListing.getChildren, PrefixListing.getBlobIdentifier. frame.
  apply touchesOnly_newMetadataEach.
Qed.

(** X19.  The reading operations never change the store, whatever the
    mapper, the store's content and the outcomes of the client calls:
    [getStats], [getData] and [getMetadata] of the accessor, and [getData],
    [getChildren] and [getStats] of the prefix-listing draft. *)
Theorem reads_never_write :
  forall (id : ResourceIdentifier) (path : string) (w : World),
    blobs (snd (VercelBlobDataAccessor.getStats path w)) = blobs w
    /\ blobs (snd (VercelBlobDataAccessor.getData id w)) = blobs w
    /\ blobs (snd (VercelBlobDataAccessor.getMetadata parseQuads lastModified id w)) = blobs w
    /\ blobs (snd (PrefixListing.getStats path w)) = blobs w
    /\ blobs (snd (PrefixListing.getData id w)) = blobs w
    /\ blobs (snd (PrefixListing.getChildren id w)) = blobs w.
Proof.
  intros id path w. repeat split; apply touchesOnly_none.
  - apply touchesOnly_getStats.
  - apply touchesOnly_getData.
  - apply touchesOnly_getMetadata.
  - unfold PrefixListing.getStats. frame. apply touchesOnly_prefix_stat.
  - apply touchesOnly_prefix_getData.
  - apply touchesOnly_prefix_getChildren.
Qed.

End Frames.

Section FimFrames.
Variable pathname : string -> option string.
Variable serializeQuads : list Quad -> option string -> bytes.

Let mapper : FileIdentifierMapper := fim pathname.
Existing Instance mapper.

Lemma fim_filePath id p isMeta ct link :
  pathname (path id) = Some p ->
  mapUrlToFilePath id isMeta ct = Ok link ->
  identifier link = id
  /\ filePath link = (if isMeta then "x" +:+ (p +:+ ".meta") else "x" +:+ p).
Proof.
  intros Hp H. cbn in H. unfold fim_mapUrlToFilePath in H. rewrite Hp in H.
  injection H as <-. cbn [identifier filePath]. split; [reflexivity|].
  destruct isMeta; [reflexivity|]. now rewrite append_empty.
Qed.

Lemma ownKey_link id p isMeta ct link :
  pathname (path id) = Some p ->
  mapUrlToFilePath id isMeta ct = Ok link ->
  ownKey p (filePath link).
Proof.
  intros Hp H. destruct (fim_filePath id p isMeta ct link Hp H) as [_ ->].
  unfold ownKey. destruct isMeta; auto.
Qed.

Ltac fim_links Hp :=
  repeat match goal with
         | H : mapUrlToFilePath _ _ _ = Ok _ |- _ =>
             cbn in H; unfold fim_mapUrlToFilePath in H; cbn [identifier path] in H;
             rewrite Hp in H; injection H as H; subst
         end;
  cbn [filePath identifier]; rewrite ?append_empty.

Lemma touchesOnly_writeMetadataFile id p link md :
  pathname (path id) = Some p ->
  identifier link = id ->
  touchesOnly (ownKey p) (VercelBlobDataAccessor.writeMetadataFile serializeQuads link md).
Proof.
  intros Hp Hl.
  unfold VercelBlobDataAccessor.writeMetadataFile, VercelBlobDataAccessor.writeDataFile,
    VercelApi.createWriteStream, VercelApi.remove, metadataRemove, metadataRemoveAll,
    metadataContentType.
  rewrite Hl. frame; fim_links Hp; unfold ownKey; auto.
Qed.

Lemma touchesOnly_runWrite op id p md :
  pathname (path id) = Some p ->
  touchesOnly (ownKey p) (runWrite serializeQuads op id md).
Proof.
  intros Hp. destruct op as [data| |]; cbn [runWrite].
  - unfold VercelBlobDataAccessor.writeDocument,
      VercelBlobDataAccessor.verifyExistingExtension,
      VercelBlobDataAccessor.writeDataFile, VercelApi.createWriteStream,
      VercelApi.remove, metadataContentType.
    frame; fim_links Hp;
      first [ apply (touchesOnly_writeMetadataFile id); [exact Hp|reflexivity]
            | unfold ownKey; now auto ].
  - unfold VercelBlobDataAccessor.writeContainer.
    frame; fim_links Hp.
    + apply touchesOnly_ensureDir. unfold ownKey. auto.
    + apply (touchesOnly_writeMetadataFile id); [exact Hp|reflexivity].
  - unfold VercelBlobDataAccessor.writeMetadata.
    frame; fim_links Hp. apply (touchesOnly_writeMetadataFile id); [exact Hp|reflexivity].
Qed.

Lemma touchesOnly_deleteResource id p :
  pathname (path id) = Some p ->
  touchesOnly (ownKey p) (VercelBlobDataAccessor.deleteResource id).
Proof.
  intros Hp. unfold VercelBlobDataAccessor.deleteResource, VercelApi.remove.
  frame; fim_links Hp; first [apply touchesOnly_getStats | unfold ownKey; now auto].
Qed.

(** X20.  Whatever the metadata, the store's content and the outcomes of
    the client calls, an operation that writes or deletes a resource changes
    no object other than the resource's own three keys: its primary key, its
    sidecar key and its folder marker. *)
Theorem writes_touch_only_own_keys :
  forall (op : WriteOp) (id : ResourceIdentifier) (p : string) (md : nat)
         (w : World) (k : string),
    pathname (path id) = Some p ->
    k <> "x" +:+ p ->
    k <> "x" +:+ (p +:+ ".meta") ->
    k <> ("x" +:+ p) +:+ FOLDER_MARKER ->
    blobs (snd (runWrite serializeQuads op id md w)) !! k = blobs w !! k
    /\ blobs (snd (VercelBlobDataAccessor.deleteResource id w)) !! k = blobs w !! k.
Proof.
  intros op id p md w k Hp H1 H2 H3.
  assert (Hk : ~ ownKey p k) by (intros [H|[H|H]]; contradiction).
  split.
  - destruct (runWrite serializeQuads op id md w) as [r w'] eqn:E.
    exact (touchesOnly_runWrite op id p md Hp w r w' E k Hk).
  - destruct (VercelBlobDataAccessor.deleteResource id w) as [r w'] eqn:E.
    exact (touchesOnly_deleteResource id p Hp w r w' E k Hk).
Qed.

End FimFrames.

(** X20, at work: writing the document [a] leaves the document [b]
    alone. *)
Lemma writes_touch_only_own_keys_witness :
  let w := exampleWorld [("x/docs/b", "other")] "text/plain" [] in
  blobs (snd (@VercelBlobDataAccessor.writeDocument (fim examplePathname) exampleSerialize
                exampleId (list_byte_of_string "hello") 0%nat w)) !! "x/docs/b"
  = blobs w !! "x/docs/b".
Proof.
  intros w.
  exact (proj1 (writes_touch_only_own_keys examplePathname exampleSerialize
                  (WriteDocument (list_byte_of_string "hello")) exampleId "/docs/a"
                  0%nat w "x/docs/b"
                  ltac:(vm_compute; reflexivity) ltac:(vm_compute; discriminate)
                  ltac:(vm_compute; discriminate) ltac:(vm_compute; discriminate))).
Defined.

(** ** The identifier mappers *)

Lemma endsWith_refl (s : string) : endsWith s s = true.
Proof. destruct s; cbn [endsWith]; now rewrite String.eqb_refl. Qed.

Lemma endsWith_append (s suffix : string) : endsWith (s +:+ suffix) suffix = true.
Proof.
  induction s as [|c s IH]; [apply endsWith_refl|].
  change (String c s +:+ suffix) with (String c (s +:+ suffix)).
  cbn [endsWith]. rewrite IH. now destruct (String.eqb _ _).
Qed.

Section Mappers.
Variable decodeUriPathComponents : string -> string.
Variable baseRequestURI : string.

(** X21.  The two versions of [BlobIdentifierMapper] accept the same
    identifiers, fail with the same error, and give the same key and the same
    sidecar flag; the identifier is handed back unchanged.  They differ only
    in the content-type of the link of a container, which the second version
    leaves out.  The key never depends on the content-type. *)
Theorem blob_mappers_agree :
  forall (id : ResourceIdentifier) (isMeta : bool) (ct ct' : option string),
    match blob_mapUrlToFilePath decodeUriPathComponents baseRequestURI id isMeta ct,
          blobContainers_mapUrlToFilePath decodeUriPathComponents baseRequestURI id isMeta ct'
    with
    | Ok l1, Ok l2 =>
        identifier l1 = id /\ identifier l2 = id
        /\ filePath l1 = filePath l2
        /\ isMetadata l1 = isMetadata l2
        /\ contentType l1 = ct
        /\ contentType l2 = (if isContainerIdentifier id then None else ct')
    | Err e1, Err e2 => e1 = e2
    | _, _ => False
    end.
Proof.
  intros id isMeta ct ct'. unfold blob_mapUrlToFilePath, blobContainers_mapUrlToFilePath.
  destruct (getRelativePath _ _ id) as [p0|e]; [|reflexivity]. cbv zeta.
  destruct (validateRelativePath _) as [[]|e]; [|reflexivity].
  destruct (isContainerIdentifier id); cbn [identifier filePath isMetadata contentType];
    repeat split; reflexivity.
Qed.

(** X22.  The sidecar flag of a link is read off the key, not off the
    request: it is set when the sidecar was asked for, and also when the key
    of the resource itself ends in the sidecar suffix. *)
Theorem blob_mapper_flags_keys_that_end_in_suffix :
  forall (id : ResourceIdentifier) (isMeta : bool) (ct : option string)
         (link : ResourceLink),
    blob_mapUrlToFilePath decodeUriPathComponents baseRequestURI id isMeta ct = Ok link ->
    isMetadata link
    = isMeta
      || endsWith (decodeUriPathComponents
                     (sliceFrom (String.length baseRequestURI) (path id))) ".meta".
Proof.
  intros id isMeta ct link. unfold blob_mapUrlToFilePath, getRelativePath.
  destruct (negb (startsWith _ _)); [discriminate|]. cbv zeta.
  destruct (validateRelativePath _); [|discriminate]. intros [= <-]. cbn [isMetadata].
  destruct isMeta; [|reflexivity]. apply endsWith_append.
Qed.

End Mappers.

(** X22, at work: the document [notes.meta] is flagged as a sidecar. *)
Lemma blob_mapper_flags_keys_that_end_in_suffix_witness :
  exists link,
    blob_mapUrlToFilePath decodeNothing "http://h" (mkId "http://h/notes.meta") false None
    = Ok link
    /\ isMetadata link = true.
Proof.
  eexists. split; [vm_compute; reflexivity|].
  exact (blob_mapper_flags_keys_that_end_in_suffix decodeNothing "http://h"
           (mkId "http://h/notes.meta") false None _ ltac:(vm_compute; reflexivity)).
Defined.

(** ** The prefix-listing draft *)

Section PrefixDraft.
Context {resourceMapper : FileIdentifierMapper}.

(** X23.  [getData] of the prefix-listing draft makes no call for a
    container identifier and fails with [NotFoundHttpError].  For a document
    it reads the key without its first character, and a missing object
    reaches the caller as the store's own error, not as
    [NotFoundHttpError]. *)
Theorem prefix_getData_reports_store_error :
  forall (id : ResourceIdentifier) (link : ResourceLink) (w : World),
    mapUrlToFilePath id false None = Ok link ->
    faults w = [] ->
    let key := sliceFrom 1 (filePath link) in
    fst (PrefixListing.getData id w)
    = (if isContainerIdentifier id then Err NotFoundHttpError
       else match blobs w !! key with
            | Some b => Ok (content b)
            | None => Err (StorageFailure BlobNotFoundError)
            end)
    /\ (isContainerIdentifier id = true -> snd (PrefixListing.getData id w) = w).
Proof.
  intros id link w Hl Hq key. unfold PrefixListing.getData.
  destruct (isContainerIdentifier id); cbn [negb]; [split; reflexivity|].
  split; [|discriminate].
  unfold PrefixListing.getBlobIdentifier.
  erewrite bind_ok
    by (erewrite bind_ok by (unfold await; now rewrite Hl); reflexivity).
  fold key. unfold bind at 1. rewrite head_run by (now rewrite Hq).
  destruct (blobs w !! key) as [b|] eqn:Hb; [|reflexivity].
  cbn [hb_url headOf]. rewrite fetch_run by (cbn [faults advance]; now rewrite Hq).
  cbn [blobs advance]. now rewrite Hb.
Qed.

(** X24.  In the prefix-listing draft [ensureDir] on a path that ends in
    the separator lists the prefix and writes nothing: no folder marker is
    ever created for a container while the listing succeeds. *)
Theorem prefix_ensureDir_writes_nothing :
  forall (path : string) (w : World),
    endsWith path "/" = true ->
    hd None (faults w) = None ->
    PrefixListing.ensureDir path w = (Ok (), advance (CList path) w).
Proof.
  intros path w Hp Hq. unfold PrefixListing.ensureDir, catch.
  unfold bind at 1. unfold PrefixListing.stat. rewrite Hp. unfold catch.
  unfold bind at 1. now rewrite (list_run _ _ Hq).
Qed.

(** X25.  In the prefix-listing draft [deleteResource] on a container
    succeeds whatever the store holds, an empty store included: it deletes
    the sidecar key, lists the prefix and deletes the container key. *)
Theorem prefix_deleteResource_container_succeeds :
  forall (id : ResourceIdentifier) (link metaLink : ResourceLink) (w : World),
    mapUrlToFilePath id true None = Ok metaLink ->
    mapUrlToFilePath id false None = Ok link ->
    isContainerIdentifier id = true ->
    endsWith (filePath link) "/" = true ->
    faults w = [] ->
    exists w',
      PrefixListing.deleteResource id w = (Ok (), w')
      /\ calls w' = calls w ++ [CDel (filePath metaLink); CList (filePath link);
                                CDel (filePath link)]
      /\ blobs w' = delete (filePath link) (delete (filePath metaLink) (blobs w)).
Proof.
  intros id link metaLink w Hm Hl Hid Hc Hq. unfold PrefixListing.deleteResource.
  erewrite bind_ok by (unfold await; now rewrite Hm).
  unfold PrefixListing.remove.
  erewrite bind_ok by (apply del_run; now rewrite Hq).
  erewrite bind_ok by (unfold await; now rewrite Hl).
  set (w1 := setBlobs _ _).
  assert (Hq1 : hd None (faults w1) = None)
    by (unfold w1; cbn [faults setBlobs advance]; now rewrite Hq).
  assert (Hs : PrefixListing.getStats (filePath link) w1
               = (Ok {| isFile := false; isDirectory := true;
                        mtime := clock w1; size := 0 |}, advance (CList (filePath link)) w1)).
  { unfold PrefixListing.getStats, catch, PrefixListing.stat. rewrite Hc.
    unfold catch. unfold bind at 1. now rewrite (list_run _ _ Hq1). }
  rewrite (bind_ok _ _ _ _ _ Hs). rewrite Hid. cbn [negb andb isDirectory].
  rewrite del_run by (unfold w1; cbn [faults setBlobs advance]; now rewrite Hq).
  eexists. split; [reflexivity|]. split.
  - unfold w1. cbn [calls setBlobs advance]. now rewrite <- !app_assoc.
  - reflexivity.
Qed.

End PrefixDraft.

(** X23, at work: a missing document. *)
Lemma prefix_getData_reports_store_error_witness :
  fst (@PrefixListing.getData (BlobIdentifierMapper decodeNothing "http://h")
         (mkId "http://h/docs/a") (worldOf [] []))
  = Err (StorageFailure BlobNotFoundError).
Proof.
  exact (proj1 (@prefix_getData_reports_store_error
                  (BlobIdentifierMapper decodeNothing "http://h")
                  (mkId "http://h/docs/a")
                  {| identifier := mkId "http://h/docs/a"; filePath := "/docs/a";
                     contentType := None; isMetadata := false |}
                  (worldOf [] []) ltac:(vm_compute; reflexivity) eq_refl)).
Defined.

(** X24, at work *)
Lemma prefix_ensureDir_writes_nothing_witness :
  blobs (snd (PrefixListing.ensureDir "/docs/" (worldOf [] []))) = ∅.
Proof.
  rewrite (prefix_ensureDir_writes_nothing "/docs/" (worldOf [] [])
             ltac:(vm_compute; reflexivity) eq_refl).
  reflexivity.
Defined.

(** X25, at work: a container that was never written is deleted. *)
Lemma prefix_deleteResource_container_succeeds_witness :
  fst (@PrefixListing.deleteResource (BlobIdentifierMapper decodeNothing "http://h")
         (mkId "http://h/docs/") (worldOf [] []))
  = Ok ().
Proof.
  destruct (@prefix_deleteResource_container_succeeds
              (BlobIdentifierMapper decodeNothing "http://h") (mkId "http://h/docs/")
              {| identifier := mkId "http://h/docs/"; filePath := "/docs/";
                 contentType := None; isMetadata := false |}
              {| identifier := mkId "http://h/docs/"; filePath := "/docs/.meta";
                 contentType := None; isMetadata := true |}
              (worldOf [] [])
              ltac:(vm_compute; reflexivity) ltac:(vm_compute; reflexivity)
              ltac:(vm_compute; reflexivity) ltac:(vm_compute; reflexivity) eq_refl)
    as (w' & E & _).
  now rewrite E.
Defined.

(** ** The draft of [ensureDir] that inspects the answer of [stat] *)

(** X26.  The earlier draft of [ensureDir] cannot create a container: on a
    path that ends in the separator it probes the marker once and writes
    nothing; it succeeds when the marker is there and fails with
    [Error("ENOENT")] when it is not. *)
Theorem draft_ensureDir_cannot_create :
  forall (path : string) (w : World),
    endsWith path "/" = true ->
    VercelApiDraft.ensureDir path w
    = (match hd None (faults w), blobs w !! (path +:+ FOLDER_MARKER) with
       | None, Some _ => Ok ()
       | _, _ => Err (JsError "ENOENT")
       end, advance (CHead (path +:+ FOLDER_MARKER)) w).
Proof.
  intros path w Hp. unfold VercelApiDraft.ensureDir, VercelApiDraft.stat.
  rewrite Hp. unfold bind at 1. unfold catch. unfold bind at 1.
  destruct (hd None (faults w)) as [e|] eqn:Hq.
  - now rewrite (head_fault _ _ _ Hq).
  - rewrite (head_run _ _ Hq). now destruct (blobs w !! _).
Qed.

(** X26, at work: on an empty store the draft fails where [ensureDir]
    creates the marker. *)
Lemma draft_ensureDir_cannot_create_witness :
  fst (VercelApiDraft.ensureDir "x/docs/" (worldOf [] [])) = Err (JsError "ENOENT")
  /\ fst (VercelApi.ensureDir "x/docs/" (worldOf [] [])) = Ok ().
Proof.
  split; [|vm_compute; reflexivity].
  rewrite (draft_ensureDir_cannot_create "x/docs/" (worldOf [] [])
             ltac:(vm_compute; reflexivity)).
  reflexivity.
Defined.

Lemma totalP_mutate_if qs0 l w0 (c : bool) (f : list Quad -> list Quad) w :
  holdsP (eq qs0) l w0 w ->
  exists (u : unit) w',
    (if c then mutate l f else ret ()) w = (Ok u, w')
    /\ holdsP (eq (if c then f qs0 else qs0)) l w0 w'
    /\ calls w' = calls w.
Proof.
  intros H. destruct c.
  - destruct (totalP_mutate_eq qs0 l w0 f w H) as ([] & w' & E & H').
    exists (), w'. split; [exact E|]. split; [exact H'|].
    exact (heapOnly_mutate _ _ _ _ _ E).
  - exists (), w. auto.
Qed.

Section PrefixDraftMetadata.
Context {resourceMapper : FileIdentifierMapper}.
Variable headContentType : HeadBlobResult -> string.
Variable lastModified : Z -> Z.

(** X27.  [getMetadata] of the prefix-listing draft describes a resource
    from the answer of one [head] call on the key without its first
    character: the modification date the library records for the upload
    time, when that time is positive, the posix facts and the content-type
    the store reports, unless it is the empty string; it adds no resource
    type and reads no sidecar.  Every failure, the mapper's included, reaches
    the caller as [NotFoundHttpError]. *)
Theorem prefix_getMetadata_outcome :
  forall (id : ResourceIdentifier) (w : World),
    match mapUrlToFilePath id false None, hd None (faults w) with
    | Ok link, None =>
        let key := sliceFrom 1 (filePath link) in
        match blobs w !! key with
        | Some b =>
            exists m w',
              PrefixListing.getMetadata headContentType lastModified id w = (Ok m, w')
              /\ quadsAt (heap w') m
                 = (if 0 <? uploadedAt b
                    then [mkQuad DC_modified (DateLiteral (lastModified (uploadedAt b)))
                            DefaultGraph]
                    else [])
                   ++ [mkQuad POSIX_mtime (IntLiteral (uploadedAt b / 1000))
                         ResponseMetadata]
                   ++ (if isContainerIdentifier id then []
                       else [mkQuad POSIX_size (IntLiteral (blobSize b)) ResponseMetadata])
                   ++ (if String.eqb (headContentType (headOf key b)) "" then []
                       else [mkQuad CONTENT_TYPE_TERM
                               (Literal (headContentType (headOf key b))) DefaultGraph])
              /\ calls w' = calls w ++ [CHead key]
              /\ blobs w' = blobs w
        | None =>
            fst (PrefixListing.getMetadata headContentType lastModified id w)
            = Err NotFoundHttpError
        end
    | _, _ =>
        fst (PrefixListing.getMetadata headContentType lastModified id w)
        = Err NotFoundHttpError
    end.
Proof.
  intros id w. unfold PrefixListing.getMetadata, PrefixListing.getBlobIdentifier.
  erewrite bind_ok by reflexivity. unfold catch.
  set (w0 := setHeap _ w). set (m := length (heap w)).
  destruct (mapUrlToFilePath id false None) as [link|e] eqn:Hl.
  2:{ erewrite bind_err
        by (erewrite bind_err by (unfold await; reflexivity); reflexivity).
      reflexivity. }
  erewrite bind_ok
    by (erewrite bind_ok by (unfold await; reflexivity); reflexivity).
  destruct (hd None (faults w)) as [e|] eqn:Hq.
  { erewrite bind_err by (apply (head_fault _ _ e); exact Hq). reflexivity. }
  cbv zeta. set (key := sliceFrom 1 (filePath link)).
  destruct (blobs w !! key) as [b|] eqn:Hb.
  2:{ erewrite bind_err
        by (rewrite head_run by exact Hq; unfold w0; cbn [blobs setHeap];
            now rewrite Hb).
      reflexivity. }
  erewrite bind_ok
    by (rewrite head_run by exact Hq; unfold w0; cbn [blobs setHeap]; now rewrite Hb).
  set (w1 := advance (CHead key) w0).
  assert (H1 : holdsP (eq []) m w1 w1).
  { unfold holdsP, w1, w0, m. cbn [heap blobs faults setHeap advance].
    rewrite length_app. cbn [length]. split; [lia|]. split; [|auto].
    unfold quadsAt. rewrite lookup_app_r by lia. now rewrite Nat.sub_diag. }
  assert (Hg : forall qs, @nil Quad = qs -> qGet DC_modified qs = Ok None)
    by now intros qs <-.
  destruct (totalP_get (eq []) m w1 (qGet DC_modified) None Hg w1 H1)
    as (g & wg & Eg & -> & _).
  assert (wg = w1)
    by (unfold quads, bind, await in Eg;
        destruct (qGet DC_modified (quadsAt (heap w1) m)); congruence).
  subst wg.
  unfold metadataGet. rewrite (bind_ok _ _ _ _ _ Eg).
  cbn [hb_uploadedAt hb_size headOf].
  unfold updateModifiedDate, metadataSet, metadataAdd.
  destruct (totalP_mutate_if [] m w1 (0 <? uploadedAt b)
              (qSet DC_modified (Some (DateLiteral (lastModified (uploadedAt b))))) w1 H1)
    as ([] & w2 & E2 & H2 & C2).
  rewrite (bind_ok _ _ _ _ _ E2).
  destruct (totalP_mutate_if _ m w1 true
              (qAdd POSIX_mtime (IntLiteral (uploadedAt b / 1000)) ResponseMetadata)
              w2 H2) as ([] & w3 & E3 & H3 & C3).
  rewrite (bind_ok _ _ _ _ _ E3).
  destruct (totalP_mutate_if _ m w1 (negb (isContainerIdentifier id))
              (qAdd POSIX_size (IntLiteral (blobSize b)) ResponseMetadata)
              w3 H3) as ([] & w4 & E4 & H4 & C4).
  rewrite (bind_ok _ _ _ _ _ E4).
  destruct (totalP_mutate_if _ m w1 true
              (qSet CONTENT_TYPE_TERM (stringObject (Some (headContentType (headOf key b)))))
              w4 H4) as ([] & w5 & E5 & (Hl5 & Hqs & Hb5 & _) & C5).
  rewrite (bind_ok _ _ _ _ _ E5).
  exists m, w5. split; [reflexivity|]. split; [|split].
  - rewrite <- Hqs. unfold stringObject.
    destruct (String.eqb (headContentType (headOf key b)) ""),
      (isContainerIdentifier id), (0 <? uploadedAt b); reflexivity.
  - rewrite C5, C4, C3, C2. unfold w1, w0. reflexivity.
  - rewrite Hb5. reflexivity.
Qed.

End PrefixDraftMetadata.

(** ** The loop over the entries of a directory *)

Section ChildLoop.
Context {resourceMapper : FileIdentifierMapper}.
Variable joinFilePath : string -> string -> string.
Variable parseContentType : string -> option string.
Variable lastModified : Z -> Z.

(** X28.  With a mapper whose [mapFilePathToUrl] is not implemented, as in
    every mapper of the repository, the loop of [getChildMetadata] skips the
    entries that do not stat and fails with the mapper's error at the first
    entry that does: it can only succeed, with no child, when no entry
    exists. *)
Theorem childLoop_needs_mapFilePathToUrl :
  forall (link : ResourceLink) (dir : list string) (w : World) (e : Error),
    (forall p c, mapFilePathToUrl p c = Err e) ->
    faults w = [] ->
    fst (VercelBlobDataAccessor.childLoop joinFilePath parseContentType lastModified link dir w)
    = if existsb (fun name =>
                    bool_decide (is_Some (blobs w !! statKey (joinFilePath (filePath link)
                                                                name)))) dir
      then Err e else Ok [].
Proof.
  intros link dir w e Hm. revert w.
  induction dir as [|name dir IH]; intros w Hq; [reflexivity|].
  cbn [VercelBlobDataAccessor.childLoop existsb].
  unfold VercelBlobDataAccessor.childMetadata. cbv zeta.
  unfold bind at 1. unfold bind at 1. unfold catch. unfold bind at 1.
  rewrite getStats_run by (now rewrite Hq).
  set (w1 := advance _ w).
  assert (Hq1 : faults w1 = []) by (unfold w1; cbn [faults advance]; now rewrite Hq).
  destruct (blobs w !! _) as [b|] eqn:Hb.
  - rewrite bool_decide_eq_true_2 by eauto. cbn [orb].
    unfold ret at 1.
    assert (Hk : negb (isFile (statsOf (joinFilePath (filePath link) name) b))
                 && negb (isDirectory (statsOf (joinFilePath (filePath link) name) b))
                 = false)
      by (unfold statsOf; now destruct (endsWith _ "/")).
    rewrite Hk. unfold bind at 1. unfold await. now rewrite Hm.
  - rewrite bool_decide_eq_false_2 by (intros [? ?]; discriminate). cbn [orb].
    unfold ret at 1. unfold ret at 1.
    specialize (IH w1 Hq1). unfold bind.
    destruct (VercelBlobDataAccessor.childLoop _ _ _ link dir w1) as [[ys|e'] w2];
      cbn [fst] in IH |- *; unfold w1 in IH; cbn [blobs advance] in IH;
      rewrite <- IH; reflexivity.
Qed.

End ChildLoop.

(** X28, at work: one entry that exists. *)
Lemma childLoop_needs_mapFilePathToUrl_witness :
  fst (@VercelBlobDataAccessor.childLoop (fim examplePathname) String.append
         (fun _ => None) sameInstant (fimLink (mkId "http://h/docs/") "/docs/") ["a"]
         (worldOf [("x/docs/a", "hello")] []))
  = Err (JsError "fim mapFilePathToUrl not implemented").
Proof.
  rewrite (@childLoop_needs_mapFilePathToUrl (fim examplePathname) String.append
             (fun _ => None) sameInstant (fimLink (mkId "http://h/docs/") "/docs/") ["a"]
             (worldOf [("x/docs/a", "hello")] [])
             (JsError "fim mapFilePathToUrl not implemented")
             (fun _ _ => eq_refl) eq_refl).
  vm_compute. reflexivity.
Defined.

(** ** A delete that is interrupted *)

Section FimInterruptedDelete.
Variable pathname : string -> option string.

Let mapper : FileIdentifierMapper := fim pathname.
Existing Instance mapper.

(** X29.  [deleteResource] is not undone when it fails half-way: if the
    probe of the primary key fails after the sidecar has been deleted, the
    caller gets [NotFoundHttpError], the sidecar is gone and the primary
    object is still in the store. *)
Theorem deleteResource_probe_failure_loses_sidecar :
  forall (id : ResourceIdentifier) (p : string) (w : World) (e : BlobError)
         (rest : list (option BlobError)),
    pathname (path id) = Some p ->
    faults w = None :: Some e :: rest ->
    let key := "x" +:+ p in
    let meta := "x" +:+ (p +:+ ".meta") in
    exists w',
      VercelBlobDataAccessor.deleteResource id w = (Err NotFoundHttpError, w')
      /\ calls w' = calls w ++ [CDel meta; CHead (statKey key)]
      /\ blobs w' !! meta = None
      /\ blobs w' !! statKey key = blobs w !! statKey key.
Proof.
  intros id p w e rest Hp Hf key meta. unfold VercelBlobDataAccessor.deleteResource.
  erewrite bind_ok by (unfold await; now rewrite (fim_metaLink _ _ _ _ Hp)).
  erewrite bind_ok by (apply del_run; now rewrite Hf).
  erewrite bind_ok by (unfold await; now rewrite (fim_link _ _ _ _ Hp)).
  cbn [filePath fimLink fimMetaLink]. fold key meta.
  erewrite bind_err
    by (apply (getStats_fault _ _ e); cbn [faults setBlobs advance]; now rewrite Hf).
  eexists. split; [reflexivity|]. cbn [calls blobs setBlobs advance]. split; [|split].
  - now rewrite <- app_assoc.
  - apply lookup_delete_eq.
  - apply lookup_delete_ne. apply sidecar_key_not_probed.
Qed.

End FimInterruptedDelete.

(** X29, at work: the document survives, its sidecar does not. *)
Lemma deleteResource_probe_failure_loses_sidecar_witness :
  let w := worldOf [("x/docs/a", "hello");
                    ("x/docs/a.meta", "Nhttp://purl.org/dc/terms/title LA N")]
             [None; Some (BlobServiceError "network")] in
  exists w',
    @VercelBlobDataAccessor.deleteResource (fim examplePathname) exampleId w
    = (Err NotFoundHttpError, w')
    /\ blobs w' !! "x/docs/a.meta" = None
    /\ is_Some (blobs w' !! "x/docs/a").
Proof.
  intros w.
  destruct (deleteResource_probe_failure_loses_sidecar examplePathname exampleId
              "/docs/a" w (BlobServiceError "network") []
              ltac:(vm_compute; reflexivity) eq_refl)
    as (w' & E & _ & Hm & Hk).
  exists w'. split; [exact E|]. split; [exact Hm|].
  change (statKey ("x" +:+ "/docs/a")) with "x/docs/a" in Hk. rewrite Hk.
  vm_compute. eauto.
Defined.

(** ** Which metadata objects a read can change *)

Lemma keeps_ret {A} n (Q : A -> Prop) (a : A) : Q a -> keepsObjects n Q (ret a).
Proof. intros HQ w r w' [= <- <-] Hn. split; [reflexivity|]. split; [exact Hn|]. now intros ? [= <-]. Qed.

Lemma keeps_throw {A} n (Q : A -> Prop) e : keepsObjects n Q (@throw A e).
Proof. intros w r w' [= <- <-] Hn. split; [reflexivity|]. split; [exact Hn|]. discriminate. Qed.

Lemma keeps_weaken {A} n (P Q : A -> Prop) (m : M A) :
  (forall a, P a -> Q a) -> keepsObjects n P m -> keepsObjects n Q m.
Proof.
  intros HPQ Hm w r w' E Hn. destruct (Hm w r w' E Hn) as (H1 & H2 & H3). auto.
Qed.

Lemma keeps_bind {A B} n (P : A -> Prop) (Q : B -> Prop) (m : M A) (f : A -> M B) :
  keepsObjects n P m -> (forall a, P a -> keepsObjects n Q (f a)) ->
  keepsObjects n Q (x <- m ;; f x).
Proof.
  intros Hm Hf w r w' E Hn. unfold bind in E.
  destruct (m w) as [[a|e] w1] eqn:E1; destruct (Hm _ _ _ E1 Hn) as (H1 & H2 & H3).
  - destruct (Hf a (H3 a eq_refl) _ _ _ E H2) as (H4 & H5 & H6).
    split; [congruence|]. auto.
  - injection E as <- <-. split; [exact H1|]. split; [exact H2|]. discriminate.
Qed.

Lemma keeps_catch {A} n (Q : A -> Prop) (m : M A) (h : Error -> M A) :
  keepsObjects n Q m -> (forall e, keepsObjects n Q (h e)) -> keepsObjects n Q (catch m h).
Proof.
  intros Hm Hh w r w' E Hn. unfold catch in E.
  destruct (m w) as [[a|e] w1] eqn:E1; destruct (Hm _ _ _ E1 Hn) as (H1 & H2 & H3).
  - injection E as <- <-. auto.
  - destruct (Hh e _ _ _ E H2) as (H4 & H5 & H6). split; [congruence|]. auto.
Qed.

Lemma keeps_storeOnly {A} n (m : M A) : storeOnly m -> keepsObjects n anyResult m.
Proof.
  intros Hm w r w' E Hn. rewrite (Hm w r w' E). split; [reflexivity|].
  split; [exact Hn|]. intros. exact I.
Qed.

Lemma keeps_newMetadata n id : keepsObjects n (fun l => (n <= l)%nat) (newMetadata id).
Proof.
  intros w r w' [= <- <-] Hn. cbn [heap setHeap]. rewrite length_app.
  split; [now rewrite take_app_le by exact Hn|]. split; [lia|]. now intros ? [= <-].
Qed.

Lemma keeps_mutate n l f : (n <= l)%nat -> keepsObjects n anyResult (mutate l f).
Proof.
  intros Hl w r w' [= <- <-] Hn. cbn [heap setHeap]. rewrite length_alter.
  split; [|split; [exact Hn|intros; exact I]].
  apply list_eq. intros i. rewrite !lookup_take.
  destruct (decide (i < n)%nat) as [Hi|Hi]; [|reflexivity].
  apply list_lookup_alter_ne. lia.
Qed.

Lemma keeps_quads n l : keepsObjects n anyResult (quads l).
Proof. intros w r w' [= <- <-] Hn. split; [reflexivity|]. split; [exact Hn|]. intros; exact I. Qed.

Lemma storeOnly_fetch k : storeOnly (VercelBlob.fetch k).
Proof.
  apply storeOnly_bind; [apply storeOnly_request|].
  intros _ w r w'. destruct (blobs w !! k); intros [= _ <-]; reflexivity.
Qed.

Lemma storeOnly_createReadStream path : storeOnly (VercelApi.createReadStream path).
Proof.
  apply storeOnly_bind; [apply storeOnly_head|]. intros ?. apply storeOnly_fetch.
Qed.

Lemma storeOnly_getStats path : storeOnly (VercelBlobDataAccessor.getStats path).
Proof.
  apply storeOnly_catch; [apply storeOnly_stat|].
  intros e. destruct (isENOENT e); apply storeOnly_throw.
Qed.

Ltac keeps_step :=
  lazymatch goal with
  | |- keepsObjects _ _ (ret _) => apply keeps_ret
  | |- keepsObjects _ _ (throw _) => apply keeps_throw
  | |- keepsObjects _ _ (bind (newMetadata _) _) =>
      eapply keeps_bind; [apply keeps_newMetadata|cbv beta; intros ? ?]
  | |- keepsObjects _ _ (bind _ _) =>
      eapply keeps_bind with (P := anyResult); [|intros ? _]
  | |- keepsObjects _ _ (catch _ _) => apply keeps_catch; [|intros ?]
  | |- keepsObjects _ _ (await _) => apply keeps_storeOnly, storeOnly_await
  | |- keepsObjects _ _ (mutate _ _) => apply keeps_mutate
  | |- keepsObjects _ _ (quads _) => apply keeps_quads
  | |- keepsObjects _ _ (VercelApi.stat _) => apply keeps_storeOnly, storeOnly_stat
  | |- keepsObjects _ _ (VercelApi.createReadStream _) =>
      apply keeps_storeOnly, storeOnly_createReadStream
  | |- keepsObjects _ _ (VercelBlobDataAccessor.getStats _) =>
      apply keeps_storeOnly, storeOnly_getStats
  | |- keepsObjects _ _ (match ?x with _ => _ end) => destruct x
  end.

Section FreshObjects.
Context {resourceMapper : FileIdentifierMapper}.
Variable parseQuads : bytes -> option string -> string -> option (list Quad).
Variable lastModified : Z -> Z.

Lemma keeps_getRawMetadata n id :
  keepsObjects n (fun l => (n <= l)%nat)
    (VercelBlobDataAccessor.getRawMetadata parseQuads lastModified id).
Proof.
  unfold VercelBlobDataAccessor.getRawMetadata, VercelApi.lstat, metadataAddQuads,
    updateModifiedDate, metadataSet.
  repeat keeps_step; try assumption; try exact I.
  apply keeps_newMetadata.
Qed.

Lemma keeps_getBaseMetadata n link stats isContainer :
  keepsObjects n (fun l => (n <= l)%nat)
    (VercelBlobDataAccessor.getBaseMetadata parseQuads lastModified link stats isContainer).
Proof.
  unfold VercelBlobDataAccessor.getBaseMetadata.
  eapply keeps_bind; [apply keeps_getRawMetadata|]. cbv beta. intros l Hl.
  unfold addResourceMetadata, VercelBlobDataAccessor.addPosixMetadata, metadataAdd,
    metadataGet, updateModifiedDate, metadataSet.
  repeat keeps_step; try assumption; try exact I.
Qed.

(** X30.  [getMetadata] answers with a metadata object of its own: the
    objects that existed before the call are unchanged, whatever the mapper,
    the store and the outcomes of the client calls, and the object returned
    is a new one. *)
Theorem getMetadata_returns_new_object :
  forall (id : ResourceIdentifier) (w : World),
    let r := VercelBlobDataAccessor.getMetadata parseQuads lastModified id w in
    take (length (heap w)) (heap (snd r)) = heap w
    /\ (forall m, fst r = Ok m -> (length (heap w) <= m)%nat).
Proof.
  intros id w r.
  assert (H : keepsObjects (length (heap w)) (fun l => (length (heap w) <= l)%nat)
                (VercelBlobDataAccessor.getMetadata parseQuads lastModified id)).
  { unfold VercelBlobDataAccessor.getMetadata, VercelBlobDataAccessor.getFileMetadata,
      VercelBlobDataAccessor.getDirectoryMetadata, metadataContentType, metadataSet.
    repeat first
      [ lazymatch goal with
        | |- keepsObjects _ _ (bind (VercelBlobDataAccessor.getBaseMetadata _ _ _ _ _) _) =>
            eapply keeps_bind; [apply keeps_getBaseMetadata|cbv beta; intros ? ?]
        | |- keepsObjects _ _ (VercelBlobDataAccessor.getBaseMetadata _ _ _ _ _) =>
            apply keeps_getBaseMetadata
        end
      | keeps_step ];
      try assumption; try exact I. }
  destruct (VercelBlobDataAccessor.getMetadata parseQuads lastModified id w) as [res w'] eqn:E.
  destruct (H w res w' E (le_n _)) as (H1 & H2 & H3). subst r. cbn [fst snd].
  split; [now rewrite H1, firstn_all|]. exact H3.
Qed.

End FreshObjects.
